(** * Staging service: file-type resolution and bulk import specifications

    A shallow embedding of [staging_service/app.py] and
    [staging_service/autodetect/GenerateMappings.py], and the properties of
    the extension tables, the file type resolver, the bulk specification
    endpoints and their error classification.

    Python values are embedded as follows.
    - [str] is [string]; a character stands for the code point of the same
      number, so the strings of the model are those over code points 0..255.
      Comparison of strings is by code point, as in Python.
    - A [dict] whose iteration order reaches the output is an insertion
      ordered association list ([PyDict]); a [dict] or [set] only read by
      key is a [gmap] or [gset].
    - A raised exception is an explicit error result. *)

From Stdlib Require Import Ascii NArith.
From stdpp Require Import base strings list gmap sorting.

(** ** Python strings *)
Module PyStr.

(** The code points for which [str.isspace] holds (CPython's
    [_PyUnicode_IsWhitespace]). *)
Definition isspace_code (n : N) : bool :=
  ((9 <=? n) && (n <=? 13) || (28 <=? n) && (n <=? 32)
   || (n =? 0x85) || (n =? 0xA0) || (n =? 0x1680)
   || (0x2000 <=? n) && (n <=? 0x200A)
   || (n =? 0x2028) || (n =? 0x2029) || (n =? 0x202F)
   || (n =? 0x205F) || (n =? 0x3000))%N.

Definition isspace (c : ascii) : bool := isspace_code (N_of_ascii c).

(** [bool(s)] for a string. *)
Definition truthy (s : string) : bool :=
  match s with "" => false | _ => true end.

(** [s.lstrip()], [s.rstrip()] and [s.strip()]. *)
Fixpoint lstrip (s : string) : string :=
  match s with
  | "" => ""
  | String c s' => if isspace c then lstrip s' else s
  end.

Fixpoint rstrip (s : string) : string :=
  match s with
  | "" => ""
  | String c s' =>
      match rstrip s' with
      | "" => if isspace c then "" else String c ""
      | r => String c r
      end
  end.

Definition strip (s : string) : string := lstrip (rstrip s).

(** [s.split(sep)] for a separator of one character: never empty, and
    [''.split(',') == ['']]. *)
Fixpoint split (sep : ascii) (s : string) : list string :=
  match s with
  | "" => [""]
  | String c s' =>
      if decide (c = sep) then "" :: split sep s'
      else match split sep s' with
           | [] => [String c ""]
           | seg :: segs => String c seg :: segs
           end
  end.

(** [sep.join(l)]. *)
Fixpoint join (sep : ascii) (l : list string) : string :=
  match l with
  | [] => ""
  | [s] => s
  | s :: l' => s +:+ String sep (join sep l')
  end.

(** [s[1:]]. *)
Definition tail (s : string) : string :=
  match s with "" => "" | String _ s' => s' end.

(** Every character of [s] satisfies [p]. *)
Fixpoint all (p : ascii → bool) (s : string) : bool :=
  match s with
  | "" => true
  | String c s' => p c && all p s'
  end.

(** The first and the last character of a string. *)
Definition first (s : string) : option ascii :=
  match s with "" => None | String c _ => Some c end.

Fixpoint last (s : string) : option ascii :=
  match s with
  | "" => None
  | String c "" => Some c
  | String _ s' => last s'
  end.

(** No whitespace at either end. *)
Definition trimmed (s : string) : Prop :=
  (∀ c, first s = Some c → isspace c = false) ∧
  (∀ c, last s = Some c → isspace c = false).

Lemma append_nil (s : string) : "" +:+ s = s.
Proof. reflexivity. Qed.

Lemma append_cons c (s t : string) : String c s +:+ t = String c (s +:+ t).
Proof. reflexivity. Qed.

Lemma split_nonempty sep s : split sep s ≠ [].
Proof.
  destruct s as [|c s]; simpl; [done|].
  case_decide; [done|]. by destruct (split sep s).
Qed.

Lemma join_cons sep s l :
  l ≠ [] → join sep (s :: l) = s +:+ String sep (join sep l).
Proof. by destruct l. Qed.

(** Splitting cuts exactly at the separators. *)
Lemma join_split sep s : join sep (split sep s) = s.
Proof.
  induction s as [|c s IH]; simpl; [done|].
  case_decide as Hc.
  - rewrite join_cons by apply split_nonempty.
    by rewrite append_nil, IH, Hc.
  - pose proof (split_nonempty sep s) as Hne.
    destruct (split sep s) as [|seg segs]; [done|].
    destruct segs as [|seg' segs]; simpl in *; [by rewrite IH|].
    by rewrite append_cons, IH.
Qed.

Lemma split_no_sep sep s :
  Forall (λ seg, all (λ c, bool_decide (c ≠ sep)) seg = true) (split sep s).
Proof.
  induction s as [|c s IH]; simpl.
  - by constructor.
  - case_decide as Hc; [by constructor|].
    pose proof (split_nonempty sep s) as Hne.
    destruct (split sep s) as [|seg segs]; [done|].
    inversion_clear IH as [|?? Hseg Hsegs]. constructor; [|done].
    simpl. rewrite Hseg. by rewrite bool_decide_eq_true_2.
Qed.

Lemma lstrip_decomp s :
  ∃ l, s = l +:+ lstrip s ∧ all isspace l = true.
Proof.
  induction s as [|c s [l [Hl Hsp]]]; simpl.
  - by exists "".
  - destruct (isspace c) eqn:Hc.
    + exists (String c l). simpl. rewrite Hc, Hsp, append_cons, <- Hl. done.
    + by exists "".
Qed.

Lemma lstrip_first s c : first (lstrip s) = Some c → isspace c = false.
Proof.
  induction s as [|a s IH]; simpl; [done|].
  destruct (isspace a) eqn:Ha; [done|]. simpl. by intros [= <-].
Qed.

Lemma rstrip_decomp s :
  ∃ r, s = rstrip s +:+ r ∧ all isspace r = true.
Proof.
  induction s as [|c s [r [Hr Hsp]]]; simpl.
  - by exists "".
  - destruct (rstrip s) as [|a t] eqn:Ht.
    + destruct (isspace c) eqn:Hc.
      * exists (String c r). rewrite append_nil in *. subst r.
        simpl. by rewrite Hc, Hsp.
      * exists r. rewrite append_nil in Hr. subst r.
        by rewrite append_cons, append_nil.
    + exists r. by rewrite append_cons, <- Hr.
Qed.

Lemma rstrip_last s c : last (rstrip s) = Some c → isspace c = false.
Proof.
  induction s as [|a s IH]; simpl; [done|].
  destruct (rstrip s) as [|b t] eqn:Ht.
  - destruct (isspace a) eqn:Ha; [done|]. simpl. by intros [= <-].
  - simpl. simpl in IH. done.
Qed.

Lemma last_lstrip s c :
  last (lstrip s) = Some c → last s = Some c.
Proof.
  induction s as [|a s IH]; simpl; [done|].
  destruct (isspace a); [|done].
  intros H. specialize (IH H). destruct s; [done|]. done.
Qed.

Lemma strip_trimmed s : trimmed (strip s).
Proof.
  split; intros c Hc.
  - by eapply lstrip_first.
  - eapply rstrip_last, last_lstrip, Hc.
Qed.

Lemma app_assoc (a b c : string) : (a +:+ b) +:+ c = a +:+ (b +:+ c).
Proof. induction a; [done|]. rewrite !append_cons. by f_equal. Qed.

(** Stripping removes whitespace from both ends, and nothing else. *)
Lemma strip_decomp s :
  ∃ l r, s = l +:+ strip s +:+ r ∧
         all isspace l = true ∧ all isspace r = true.
Proof.
  destruct (rstrip_decomp s) as (r & Hr & Hrs).
  destruct (lstrip_decomp (rstrip s)) as (l & Hl & Hls).
  exists l, r. split_and!; [|done..].
  unfold strip. by rewrite <- app_assoc, <- Hl.
Qed.

End PyStr.

(** ** Insertion ordered dictionaries

    A Python [dict] as the list of its items in insertion order. Assigning
    to a key that is present replaces the value where the key stands;
    assigning to a new key adds the item at the end. *)
Module PyDict.
Section dict.
Context {K V : Type} `{EqDecision K}.

(** [d[k]], [None] standing for [KeyError]. *)
Fixpoint get (k : K) (d : list (K * V)) : option V :=
  match d with
  | [] => None
  | (k', v) :: d' => if decide (k = k') then Some v else get k d'
  end.

(** [d[k] = v]. *)
Fixpoint set (k : K) (v : V) (d : list (K * V)) : list (K * V) :=
  match d with
  | [] => [(k, v)]
  | (k', v') :: d' =>
      if decide (k = k') then (k, v) :: d' else (k', v') :: set k v d'
  end.

(** [list(d)]: the keys in insertion order. *)
Definition keys (d : list (K * V)) : list K := d.*1.

(** [dd[k]] for a [defaultdict] whose factory yields [dflt]. Reading a
    missing key also adds it; every use below assigns the key next. *)
Definition get_default (dflt : V) (k : K) (d : list (K * V)) : V :=
  default dflt (get k d).

Lemma get_set_eq k v d : get k (set k v d) = Some v.
Proof.
  induction d as [|[k' v'] d IH]; simpl.
  - by rewrite decide_True.
  - destruct (decide (k = k')) as [->|Hne]; simpl.
    + by rewrite decide_True.
    + by rewrite decide_False.
Qed.

Lemma get_set_ne k k' v d : k ≠ k' → get k' (set k v d) = get k' d.
Proof.
  intros Hne. induction d as [|[k0 v0] d IH]; simpl.
  - by rewrite decide_False.
  - destruct (decide (k = k0)) as [->|Hne0]; simpl.
    + by rewrite !decide_False by done.
    + by rewrite IH.
Qed.

Lemma get_set k k' v d :
  get k' (set k v d) = if decide (k = k') then Some v else get k' d.
Proof.
  case_decide as Hk; [subst; apply get_set_eq|by apply get_set_ne].
Qed.

Lemma keys_set k v d :
  keys (set k v d) = if decide (k ∈ keys d) then keys d else keys d ++ [k].
Proof.
  unfold keys. induction d as [|[k' v'] d IH]; csimpl; [done|].
  destruct (decide (k = k')) as [->|Hne]; csimpl.
  - rewrite decide_True by constructor. done.
  - rewrite IH. destruct (decide (k ∈ d.*1)) as [Hin|Hnin].
    + rewrite decide_True by by constructor. done.
    + rewrite decide_False; [done|]. by intros [?|?]%elem_of_cons.
Qed.

Lemma NoDup_keys_set k v d : NoDup (keys d) → NoDup (keys (set k v d)).
Proof.
  intros Hd. rewrite keys_set. case_decide as Hin; [done|].
  apply NoDup_app. split_and!; [done| |apply NoDup_singleton].
  intros x Hx ->%list_elem_of_singleton. done.
Qed.

Lemma get_Some_elem_of k v d : get k d = Some v → (k, v) ∈ d.
Proof.
  induction d as [|[k' v'] d IH]; simpl; [done|].
  case_decide as Hk.
  - intros [= ->]. subst. by left.
  - intros ?. right. auto.
Qed.

Lemma get_is_Some k d : is_Some (get k d) ↔ k ∈ keys d.
Proof.
  unfold keys. induction d as [|[k' v'] d IH]; csimpl.
  - split; [by intros [? ?]|by intros ?%elem_of_nil].
  - case_decide as Hk.
    + subst. split; [intros _; by left|eauto].
    + rewrite IH. split; [by right|]. by intros [?|?]%elem_of_cons.
Qed.

Lemma elem_of_NoDup_get k v d :
  NoDup (keys d) → (k, v) ∈ d → get k d = Some v.
Proof.
  unfold keys. induction d as [|[k' v'] d IH]; csimpl.
  - by intros _ ?%elem_of_nil.
  - intros [Hnin Hd]%NoDup_cons [[= -> ->]|Hin]%elem_of_cons.
    + by rewrite decide_True.
    + rewrite decide_False; [auto|].
      intros ->. apply Hnin. by apply (list_elem_of_fmap_2 fst _ (k', v)).
Qed.

Lemma elem_of_set k v d kv : kv ∈ set k v d → kv = (k, v) ∨ kv ∈ d.
Proof.
  induction d as [|[k' v'] d IH]; simpl.
  - intros ->%list_elem_of_singleton. by left.
  - case_decide as Hk.
    + intros [->|?]%elem_of_cons; [by left|]. right. by right.
    + intros [->|[->|?]%IH]%elem_of_cons; [right; by left|by left|].
      right. by right.
Qed.
End dict.
End PyDict.

(** Loops whose body may raise: [for x in l: s = f s x]. *)
Fixpoint for_each {A S : Type} (f : S → A → option S) (l : list A) (s : S)
  : option S :=
  match l with
  | [] => Some s
  | x :: l' => s' ← f s x; for_each f l' s'
  end.

Lemma for_each_app {A S} (f : S → A → option S) l1 l2 s :
  for_each f (l1 ++ l2) s = s' ← for_each f l1 s; for_each f l2 s'.
Proof.
  revert s. induction l1 as [|x l1 IH]; intros s; simpl; [done|].
  destruct (f s x); simpl; [apply IH|done].
Qed.

(** A loop succeeds when its body does at every state. *)
Lemma for_each_is_Some {A S} (f : S → A → option S) l s :
  (∀ s x, x ∈ l → is_Some (f s x)) → is_Some (for_each f l s).
Proof.
  revert s. induction l as [|x l IH]; intros s Hf; simpl; [eauto|].
  destruct (Hf s x) as [s' ->]; [by left|]. simpl.
  apply IH. intros ???. apply Hf. by right.
Qed.

(** An invariant of the body is an invariant of the loop. *)
Lemma for_each_inv {A S} (P : S → Prop) (f : S → A → option S) l s s' :
  (∀ s x s', x ∈ l → P s → f s x = Some s' → P s') →
  P s → for_each f l s = Some s' → P s'.
Proof.
  revert s. induction l as [|x l IH]; intros s Hf Hs; simpl.
  - by intros [= <-].
  - destruct (f s x) as [s1|] eqn:Hx; simpl; [|done].
    apply IH; [|by eapply (Hf s x); [left|..]].
    intros ????. apply Hf. by right.
Qed.

(** ** The constants of [staging_service/autodetect/Mappings.py]

    [Mappings.py] is not among the sources. Everything the two modules
    import from it is gathered here and left open: the file format names,
    the importer app ids, and the two tables between file formats and
    extensions. *)
Record Mappings := {
  SRA : string; FASTQ : string; FASTA : string; GENBANK : string;
  GFF : string; ZIP : string; CSV : string; TSV : string; EXCEL : string;
  JSON : string; SBML : string;
  sra_reads_id : string;
  fastq_reads_interleaved_id : string;
  fastq_reads_noninterleaved_id : string;
  assembly_id : string;
  gff_genome_id : string;
  gff_metagenome_id : string;
  genbank_genome_id : string;
  decompress_id : string;
  sample_set_id : string;
  media_id : string;
  expression_matrix_id : string;
  metabolic_annotations_id : string;
  metabolic_annotations_bulk_id : string;
  fba_model_id : string;
  phenotype_set_id : string;
  escher_map_id : string;
  (** file format → its extensions *)
  file_format_to_extension_mapping : gmap string (list string);
  (** extension → its file format *)
  extension_to_file_format_mapping : gmap string string;
}.

(** A [defaultdict(list)]: [dd[k].extend(l)] and what it holds. *)
Module DefaultDict.
Section dd.
Context {K A : Type} `{EqDecision K}.
Implicit Types d : list (K * list A).

Definition extend (k : K) (l : list A) d : list (K * list A) :=
  PyDict.set k (PyDict.get_default [] k d ++ l) d.

(** [dd[k].append(x)]. *)
Definition append (k : K) (x : A) d : list (K * list A) := extend k [x] d.

(** [x] is in the list under [k]. *)
Definition holds d (k : K) (x : A) : Prop :=
  ∃ l, PyDict.get k d = Some l ∧ x ∈ l.

Lemma holds_extend_mono d k l k' x :
  holds d k' x → holds (extend k l d) k' x.
Proof.
  intros (l' & Hl' & Hx). unfold holds, extend.
  rewrite PyDict.get_set. case_decide as Hk; [|eauto].
  subst k'. eexists; split; [done|].
  unfold PyDict.get_default. rewrite Hl'. simpl. set_solver.
Qed.

Lemma holds_extend_new d k l x : x ∈ l → holds (extend k l d) k x.
Proof.
  intros Hx. unfold holds, extend. rewrite PyDict.get_set_eq.
  eexists; split; [done|]. set_solver.
Qed.

Lemma holds_extend_inv d k l k' x :
  holds (extend k l d) k' x → holds d k' x ∨ (k' = k ∧ x ∈ l).
Proof.
  unfold holds, extend. rewrite PyDict.get_set.
  intros (l' & Hl' & Hx). case_decide as Hk; [|eauto].
  subst k'. injection Hl' as <-. unfold PyDict.get_default in Hx.
  apply elem_of_app in Hx as [Hx|Hx]; [left|by right].
  destruct (PyDict.get k d) as [l0|]; simpl in Hx; [eauto|].
  by apply elem_of_nil in Hx.
Qed.
End dd.
End DefaultDict.

(** Once the body has run on [x], what it established is kept by the rest
    of the loop, if every step keeps it. *)
Lemma for_each_elem {A S} (P : S → Prop) (f : S → A → option S) l x s s' :
  x ∈ l →
  (∀ s y s', P s → f s y = Some s' → P s') →
  (∀ s s', f s x = Some s' → P s') →
  for_each f l s = Some s' → P s'.
Proof.
  intros Hx Hmono Hnew. revert s.
  induction l as [|y l IH]; intros s; simpl; [by apply elem_of_nil in Hx|].
  destruct (f s y) as [s1|] eqn:Hy; simpl; [|done].
  apply elem_of_cons in Hx as [->|Hx]; [|by apply IH].
  apply (for_each_inv P f l s1); eauto.
Qed.

(** ** [autodetect/GenerateMappings.py] *)
Module GenerateMappings.

(** One entry of [extensions_mapping]: the keys [id], [app_weight] and
    [file_type]. *)
Record Entry := { id : string; app_weight : Z; file_type : list string }.

Section generate.
Variable M : Mappings.

(** The items assigned to [file_format_to_app_mapping], in the order of
    the assignments. *)
Definition file_format_to_app_assignments : list (string * list string) :=
  [ (SRA M, [sra_reads_id M]);
    (FASTQ M, [fastq_reads_interleaved_id M;
               fastq_reads_noninterleaved_id M]);
    (FASTA M, [assembly_id M; gff_genome_id M; gff_metagenome_id M]);
    (GENBANK M, [genbank_genome_id M]);
    (GFF M, [gff_genome_id M; gff_metagenome_id M]);
    (ZIP M, [decompress_id M]);
    (CSV M, [sample_set_id M]);
    (TSV M, [media_id M; expression_matrix_id M;
             metabolic_annotations_id M; metabolic_annotations_bulk_id M;
             fba_model_id M; phenotype_set_id M]);
    (EXCEL M, [sample_set_id M; media_id M; fba_model_id M]);
    (JSON M, [escher_map_id M]);
    (SBML M, [fba_model_id M]) ].

Definition file_format_to_app_mapping : list (string * list string) :=
  foldl (λ d '(filecat, apps), PyDict.set filecat apps d) []
        file_format_to_app_assignments.

(** The first pair of loops; [None] is the [KeyError] of a file format
    without an entry in [file_format_to_extension_mapping]. *)
Definition app_id_to_extensions : option (list (string * list string)) :=
  for_each (λ d '(filecat, apps),
    for_each (λ d app_id,
      exts ← file_format_to_extension_mapping M !! filecat;
      Some (DefaultDict.extend app_id exts d)) apps d)
    file_format_to_app_mapping [].

(** The second pair of loops; [None] is the [KeyError] of an extension
    without an entry in [extension_to_file_format_mapping]. *)
Definition extensions_mapping : option (list (string * list Entry)) :=
  app_id_to_extensions ← app_id_to_extensions;
  for_each (λ em app_id,
    let perfect_match_weight := 1%Z in
    for_each (λ em extension,
      ft ← extension_to_file_format_mapping M !! extension;
      Some (DefaultDict.append extension
              {| id := app_id;
                 app_weight := perfect_match_weight;
                 file_type := [ft] |} em))
      (PyDict.get_default [] app_id app_id_to_extensions) em)
    (PyDict.keys app_id_to_extensions) [].

(** The two tables of [Mappings.py] cover what the loops look up. *)
Definition tables_cover : Prop :=
  Forall (λ filecat, is_Some (file_format_to_extension_mapping M !! filecat))
         file_format_to_app_assignments.*1 ∧
  map_Forall (λ _ exts,
      Forall (λ extension,
        is_Some (extension_to_file_format_mapping M !! extension)) exts)
    (file_format_to_extension_mapping M).

Lemma file_format_to_app_mapping_assigned filecat apps :
  (filecat, apps) ∈ file_format_to_app_mapping →
  (filecat, apps) ∈ file_format_to_app_assignments.
Proof.
  unfold file_format_to_app_mapping.
  assert (∀ l (d : list (string * list string)),
    (filecat, apps) ∈ foldl (λ d '(k, v), PyDict.set k v d) d l →
    (filecat, apps) ∈ d ∨ (filecat, apps) ∈ l) as Hfold.
  { induction l as [|[k v] l IH]; intros d; simpl; [by left|].
    intros [[->|?]%PyDict.elem_of_set|?]%IH.
    - right. by left.
    - by left.
    - right. by right. }
  intros [?%elem_of_nil|?]%Hfold; done.
Qed.

(** One step of the first inner loop. *)
Definition extend_step (filecat : string)
    (d : list (string * list string)) (app_id : string) :=
  exts ← file_format_to_extension_mapping M !! filecat;
  Some (DefaultDict.extend app_id exts d).

Lemma extend_step_mono filecat d app_id d' a e :
  DefaultDict.holds d a e → extend_step filecat d app_id = Some d' →
  DefaultDict.holds d' a e.
Proof.
  unfold extend_step. intros Hd.
  destruct (file_format_to_extension_mapping M !! filecat); [|done].
  intros [= <-]. by apply DefaultDict.holds_extend_mono.
Qed.

Lemma app_id_to_extensions_holds d filecat apps exts a e :
  app_id_to_extensions = Some d →
  (filecat, apps) ∈ file_format_to_app_mapping → a ∈ apps →
  file_format_to_extension_mapping M !! filecat = Some exts → e ∈ exts →
  DefaultDict.holds d a e.
Proof.
  intros Hd Hitem Ha Hexts He. unfold app_id_to_extensions in Hd.
  revert Hd. apply (for_each_elem (λ d, DefaultDict.holds d a e) _ _ _ _ _ Hitem).
  - intros s [fc aps] s' Hs.
    apply (for_each_inv (λ d, DefaultDict.holds d a e)); [|done].
    intros s0 app_id s0' _ Hs0. by apply (extend_step_mono fc).
  - intros s s'.
    apply (for_each_elem (λ d, DefaultDict.holds d a e) _ _ _ _ _ Ha).
    + intros s0 app_id s0' Hs0. by apply (extend_step_mono filecat).
    + intros s0 s0'. rewrite Hexts. intros [= <-].
      by apply DefaultDict.holds_extend_new.
Qed.

Lemma app_id_to_extensions_from_tables d a e :
  app_id_to_extensions = Some d → DefaultDict.holds d a e →
  ∃ filecat exts,
    file_format_to_extension_mapping M !! filecat = Some exts ∧ e ∈ exts.
Proof.
  intros Hd. revert a e. unfold app_id_to_extensions in Hd.
  set (P := λ d : list (string * list string), ∀ a e,
    DefaultDict.holds d a e → ∃ filecat exts,
      file_format_to_extension_mapping M !! filecat = Some exts ∧ e ∈ exts).
  revert Hd. apply (for_each_inv P).
  - intros s [fc aps] s' _ Hs. apply (for_each_inv P); [|done].
    intros s0 app_id s0' _ Hs0.
    destruct (file_format_to_extension_mapping M !! fc) as [exts|] eqn:Hfc;
      [|done].
    intros [= <-] a e [?|[-> ?]]%DefaultDict.holds_extend_inv; eauto.
  - intros a e (l & Hl & _). done.
Qed.

Lemma app_id_to_extensions_is_Some :
  tables_cover → is_Some app_id_to_extensions.
Proof.
  intros [Hcover _]. apply for_each_is_Some.
  intros d [fc aps] Hitem%file_format_to_app_mapping_assigned.
  apply for_each_is_Some. intros d' app_id _.
  rewrite Forall_forall in Hcover.
  destruct (Hcover fc) as [exts ->]; [|by eexists].
  by apply (list_elem_of_fmap_2 fst _ (fc, aps)).
Qed.

(** One step of the second inner loop. *)
Definition append_step (app_id : string)
    (em : list (string * list Entry)) (extension : string) :=
  ft ← extension_to_file_format_mapping M !! extension;
  Some (DefaultDict.append extension
          {| id := app_id; app_weight := 1; file_type := [ft] |} em).

Lemma append_step_mono app_id em extension em' e x :
  DefaultDict.holds em e x → append_step app_id em extension = Some em' →
  DefaultDict.holds em' e x.
Proof.
  unfold append_step. intros Hem.
  destruct (extension_to_file_format_mapping M !! extension); [|done].
  intros [= <-]. by apply DefaultDict.holds_extend_mono.
Qed.

Lemma extensions_mapping_is_Some :
  tables_cover → is_Some extensions_mapping.
Proof.
  intros Hcover. unfold extensions_mapping.
  destruct (app_id_to_extensions_is_Some Hcover) as [d Hd]. rewrite Hd.
  simpl. apply for_each_is_Some. intros em app_id Hin.
  apply for_each_is_Some. intros em' extension Hext.
  apply PyDict.get_is_Some in Hin as [l Hl].
  unfold PyDict.get_default in Hext. rewrite Hl in Hext. simpl in Hext.
  destruct (app_id_to_extensions_from_tables d app_id extension Hd)
    as (fc & exts & Hfc & He); [by exists l|].
  destruct Hcover as [_ Hcover].
  specialize (Hcover fc exts Hfc). rewrite Forall_forall in Hcover.
  destruct (Hcover extension He) as [ft ->]. by eexists.
Qed.

Lemma extensions_mapping_holds d em a e ft :
  app_id_to_extensions = Some d → extensions_mapping = Some em →
  DefaultDict.holds d a e →
  extension_to_file_format_mapping M !! e = Some ft →
  DefaultDict.holds em e {| id := a; app_weight := 1; file_type := [ft] |}.
Proof.
  intros Hd Hem (l & Hl & He) Hft. unfold extensions_mapping in Hem.
  rewrite Hd in Hem. simpl in Hem. revert Hem.
  assert (a ∈ PyDict.keys d) as Ha by (apply PyDict.get_is_Some; eauto).
  set (x := {| id := a; app_weight := 1; file_type := [ft] |}).
  apply (for_each_elem (λ em, DefaultDict.holds em e x) _ _ _ _ _ Ha).
  - intros s app_id s' Hs.
    apply (for_each_inv (λ em, DefaultDict.holds em e x)); [|done].
    intros s0 extension s0' _ Hs0. by apply (append_step_mono app_id).
  - intros s s'. unfold PyDict.get_default. rewrite Hl. simpl.
    apply (for_each_elem (λ em, DefaultDict.holds em e x) _ _ _ _ _ He).
    + intros s0 extension s0' Hs0. by apply (append_step_mono a).
    + intros s0 s0'. rewrite Hft. intros [= <-].
      apply DefaultDict.holds_extend_new. by left.
Qed.

Lemma extensions_mapping_weight em e x :
  extensions_mapping = Some em → DefaultDict.holds em e x →
  app_weight x = 1%Z.
Proof.
  unfold extensions_mapping.
  destruct app_id_to_extensions as [d|]; simpl; [|done].
  intros Hem. revert e x.
  set (P := λ em : list (string * list Entry), ∀ e x,
    DefaultDict.holds em e x → app_weight x = 1%Z).
  revert Hem. apply (for_each_inv P).
  - intros s app_id s' _ Hs. apply (for_each_inv P); [|done].
    intros s0 extension s0' _ Hs0.
    destruct (extension_to_file_format_mapping M !! extension); [|done].
    intros [= <-] e x [?|[-> ->%list_elem_of_singleton]]%DefaultDict.holds_extend_inv;
      eauto.
  - intros e x (l & Hl & _). done.
Qed.

(** [file_format_to_app_mapping[GFF]], when no later assignment replaces
    it. *)
Lemma file_format_to_app_mapping_GFF :
  GFF M ∉ [ZIP M; CSV M; TSV M; EXCEL M; JSON M; SBML M] →
  PyDict.get (GFF M) file_format_to_app_mapping
  = Some [gff_genome_id M; gff_metagenome_id M].
Proof.
  intros Hne. unfold file_format_to_app_mapping. simpl.
  rewrite !PyDict.get_set_ne by (intros Heq; apply Hne; rewrite <- Heq; set_solver).
  apply PyDict.get_set_eq.
Qed.
End generate.

(** A small instance of [Mappings.py]: the names the sources and their
    comments use, and two or three extensions per file format. *)
Definition example_mappings : Mappings := {|
  SRA := "SRA"; FASTQ := "FASTQ"; FASTA := "FASTA"; GENBANK := "GENBANK";
  GFF := "GFF"; ZIP := "CompressedFileFormatArchive"; CSV := "CSV";
  TSV := "TSV"; EXCEL := "EXCEL"; JSON := "JSON"; SBML := "SBML";
  sra_reads_id := "sra_reads";
  fastq_reads_interleaved_id := "fastq_reads_interleaved";
  fastq_reads_noninterleaved_id := "fastq_reads_noninterleaved";
  assembly_id := "assembly";
  gff_genome_id := "gff_genome";
  gff_metagenome_id := "gff_metagenome";
  genbank_genome_id := "genbank_genome";
  decompress_id := "decompress";
  sample_set_id := "sample_set";
  media_id := "media";
  expression_matrix_id := "expression_matrix";
  metabolic_annotations_id := "metabolic_annotations";
  metabolic_annotations_bulk_id := "metabolic_annotations_bulk";
  fba_model_id := "fba_model";
  phenotype_set_id := "phenotype_set";
  escher_map_id := "escher_map";
  file_format_to_extension_mapping := list_to_map [
    ("SRA", ["sra"]); ("FASTQ", ["fq"; "fastq"]); ("FASTA", ["fa"; "fasta"]);
    ("GENBANK", ["gbk"; "genbank"]); ("GFF", ["gff"; "gff3"]);
    ("CompressedFileFormatArchive", ["zip"; "tar.gz"]); ("CSV", ["csv"]);
    ("TSV", ["tsv"]); ("EXCEL", ["xls"; "xlsx"]); ("JSON", ["json"]);
    ("SBML", ["smbl"; "xml"]) ];
  extension_to_file_format_mapping := list_to_map [
    ("sra", "SRA"); ("fq", "FASTQ"); ("fastq", "FASTQ"); ("fa", "FASTA");
    ("fasta", "FASTA"); ("gbk", "GENBANK"); ("genbank", "GENBANK");
    ("gff", "GFF"); ("gff3", "GFF");
    ("zip", "CompressedFileFormatArchive");
    ("tar.gz", "CompressedFileFormatArchive"); ("csv", "CSV");
    ("tsv", "TSV"); ("xls", "EXCEL"); ("xlsx", "EXCEL"); ("json", "JSON");
    ("smbl", "SBML"); ("xml", "SBML") ];
|}.

Example extensions_mapping_gff3 :
  (em ← extensions_mapping example_mappings; PyDict.get "gff3" em)
  = Some [ {| id := "gff_genome"; app_weight := 1; file_type := ["GFF"] |};
           {| id := "gff_metagenome"; app_weight := 1;
              file_type := ["GFF"] |} ].
Proof. vm_compute. reflexivity. Qed.

(** C6. When the tables of [Mappings.py] cover the file formats and
    extensions in use, [extensions_mapping] is built, and: for every file
    format with its apps in [file_format_to_app_mapping], every app [a]
    among them and every extension [e] of the format, the list under [e]
    has an entry with id [a], weight 1 and the file format of [e]; every
    entry has weight 1; and when no later assignment replaces the entry of
    GFF, each extension of GFF has an entry for [gff_genome_id] and one
    for [gff_metagenome_id], both of weight 1. *)
Theorem extensions_mapping_complete (M : Mappings) :
  tables_cover M →
  ∃ em, extensions_mapping M = Some em ∧
    (∀ filecat apps exts a e,
       PyDict.get filecat (file_format_to_app_mapping M) = Some apps →
       a ∈ apps →
       file_format_to_extension_mapping M !! filecat = Some exts →
       e ∈ exts →
       ∃ ft entries,
         extension_to_file_format_mapping M !! e = Some ft ∧
         PyDict.get e em = Some entries ∧
         {| id := a; app_weight := 1; file_type := [ft] |} ∈ entries) ∧
    (∀ e entries x,
       PyDict.get e em = Some entries → x ∈ entries → app_weight x = 1%Z) ∧
    (GFF M ∉ [ZIP M; CSV M; TSV M; EXCEL M; JSON M; SBML M] →
     ∀ exts e,
       file_format_to_extension_mapping M !! GFF M = Some exts → e ∈ exts →
       ∃ ft entries,
         extension_to_file_format_mapping M !! e = Some ft ∧
         PyDict.get e em = Some entries ∧
         {| id := gff_genome_id M; app_weight := 1; file_type := [ft] |}
           ∈ entries ∧
         {| id := gff_metagenome_id M; app_weight := 1; file_type := [ft] |}
           ∈ entries).
Proof.
  intros Hcover.
  destruct (extensions_mapping_is_Some M Hcover) as [em Hem].
  destruct (app_id_to_extensions_is_Some M Hcover) as [d Hd].
  assert (∀ filecat apps exts a e,
    PyDict.get filecat (file_format_to_app_mapping M) = Some apps →
    a ∈ apps →
    file_format_to_extension_mapping M !! filecat = Some exts →
    e ∈ exts →
    ∃ ft, extension_to_file_format_mapping M !! e = Some ft ∧
      DefaultDict.holds em e
        {| id := a; app_weight := 1; file_type := [ft] |}) as Hall.
  { intros filecat apps exts a e Hget Ha Hexts He.
    destruct Hcover as [_ Hc]. specialize (Hc filecat exts Hexts).
    rewrite Forall_forall in Hc. destruct (Hc e He) as [ft Hft].
    exists ft. split; [done|].
    apply (extensions_mapping_holds M d); [done..| |done].
    eapply app_id_to_extensions_holds; eauto.
    by apply PyDict.get_Some_elem_of. }
  exists em. split_and!; [done| | |].
  - intros filecat apps exts a e Hget Ha Hexts He.
    destruct (Hall _ _ _ _ _ Hget Ha Hexts He) as (ft & Hft & l & Hl & Hin).
    eauto.
  - intros e entries x Hget Hx.
    apply (extensions_mapping_weight M em e); [done|]. by exists entries.
  - intros Hgff exts e Hexts He.
    pose proof (file_format_to_app_mapping_GFF M Hgff) as Hget.
    destruct (Hall _ _ _ (gff_genome_id M) _ Hget ltac:(set_solver) Hexts He)
      as (ft & Hft & l & Hl & Hin).
    destruct (Hall _ _ _ (gff_metagenome_id M) _ Hget ltac:(set_solver)
                Hexts He) as (ft' & Hft' & l' & Hl' & Hin').
    exists ft, l. simplify_eq. done.
Qed.

Lemma example_mappings_cover : tables_cover example_mappings.
Proof.
  apply (bool_decide_unpack (tables_cover example_mappings)).
  vm_compute. exact I.
Defined.

(** The instance [example_mappings] meets the hypothesis of C6. *)
Lemma extensions_mapping_complete_witness :
  tables_cover example_mappings ∧
  ∃ em, extensions_mapping example_mappings = Some em ∧
    ∃ entries, PyDict.get "gff3" em = Some entries ∧
      {| id := "gff_genome"; app_weight := 1; file_type := ["GFF"] |}
        ∈ entries ∧
      {| id := "gff_metagenome"; app_weight := 1; file_type := ["GFF"] |}
        ∈ entries.
Proof.
  split; [exact example_mappings_cover|].
  destruct (extensions_mapping_complete example_mappings
              example_mappings_cover) as (em & Hem & _ & _ & Hgff).
  exists em. split; [exact Hem|].
  assert (GFF example_mappings ∉
            [ZIP example_mappings; CSV example_mappings; TSV example_mappings;
             EXCEL example_mappings; JSON example_mappings;
             SBML example_mappings]) as Hne.
  { apply (bool_decide_unpack _). vm_compute. exact I. }
  destruct (Hgff Hne ["gff"; "gff3"] "gff3")
    as (ft & entries & Hft & Hentries & H1 & H2).
  - reflexivity.
  - right. left.
  - vm_compute in Hft. injection Hft as <-. eauto.
Defined.
End GenerateMappings.


(** ** [pathlib] paths

    A [pathlib.Path] is kept as the string [str(path)], which pathlib holds
    in normal form (no empty or [.] components, no trailing separator).
    [name] and [suffix] are those of [PurePosixPath]. *)
Module PathPy.

Record t := Path { str : string }.

#[global] Instance t_eq_dec : EqDecision t.
Proof. solve_decision. Defined.

(** [s.rfind(c)], [None] standing for [-1]. *)
Fixpoint rfind (c : ascii) (s : string) : option nat :=
  match s with
  | "" => None
  | String a s' =>
      match rfind c s' with
      | Some i => Some (S i)
      | None => if decide (a = c) then Some 0 else None
      end
  end.

(** [s[i:]]. *)
Fixpoint drop (i : nat) (s : string) : string :=
  match i, s with
  | 0, _ => s
  | S i', "" => ""
  | S i', String _ s' => drop i' s'
  end.

(** [path.name]: the final component; empty for the root and for [.]. *)
Definition name (p : t) : string :=
  if decide (str p = ".") then ""
  else List.last (PyStr.split "/" (str p)) "".

(** [path.suffix]: from the last dot of the name on, unless that dot is the
    first or the last character of the name. *)
Definition suffix (p : t) : string :=
  let name := name p in
  match rfind "." name with
  | Some i =>
      if (0 <? i) && (i <? String.length name - 1) then drop i name else ""
  | None => ""
  end.

Lemma length_drop i s : String.length (drop i s) = String.length s - i.
Proof.
  revert s. induction i as [|i IH]; intros [|a s]; simpl; auto with lia.
Qed.

(** A non-empty suffix is a dot and at least one more character. *)
Lemma suffix_tail_nonempty p : suffix p ≠ "" → PyStr.tail (suffix p) ≠ "".
Proof.
  unfold suffix. destruct (rfind "." (name p)) as [i|]; [|done].
  destruct (_ && _) eqn:Hi; [|done]. intros _.
  apply andb_true_iff in Hi as [_ Hi%Nat.ltb_lt].
  pose proof (length_drop i (name p)) as Hlen.
  destruct (drop i (name p)) as [|a [|b s]]; simpl in *; [lia|lia|done].
Qed.

Example name_of_file : name (Path "/data/bulk/user/genome.gff3") = "genome.gff3".
Proof. reflexivity. Qed.

Example suffix_of_file : suffix (Path "/data/bulk/user/genome.gff3") = ".gff3".
Proof. reflexivity. Qed.

Example suffix_of_dotfile : suffix (Path "/data/bulk/user/.bashrc") = "".
Proof. reflexivity. Qed.

Example suffix_of_archive : suffix (Path "reads.tar.gz") = ".gz".
Proof. reflexivity. Qed.

End PathPy.

(** ** [app.py]: the file type resolver *)
Module Resolver.

(** The parsers of [import_specifications/individual_parsers.py], by name;
    what they do to a file is a parameter of the parse below. *)
Inductive Parser := parse_csv | parse_tsv | parse_excel.

#[global] Instance Parser_eq_dec : EqDecision Parser.
Proof. solve_decision. Defined.

(** Modelled from the spec: [FileTypeResolution] of
    [import_specifications/file_parser.py], the result of resolving one
    path, either [{parser}] or [{unsupportedType}]. The two keyword
    arguments of its constructor, each [None] when not given. *)
Record FileTypeResolution := {
  parser : option Parser;
  unsupported_type : option string;
}.

(** One element of the [fileinfo] list that [AutoDetectUtils.get_mappings]
    returns: the keys the resolver reads. *)
Record FileInfo := {
  file_ext_type : list string;
  suffix : option string;
}.

Section resolver.
Variable M : Mappings.

(** [AutoDetectUtils.get_mappings([name])["fileinfo"][0]]: the
    classification of one file name. [AutoDetectUtils] is not among the
    sources. *)
Variable get_mappings_fileinfo : string → FileInfo.

(** The dictionary display [{CSV: parse_csv, TSV: parse_tsv, EXCEL:
    parse_excel}]: a later item replaces an earlier one of the same key. *)
Definition _IMPSPEC_FILE_TO_PARSER : gmap string Parser :=
  <[EXCEL M := parse_excel]> (<[TSV M := parse_tsv]> (<[CSV M := parse_csv]> ∅)).

(** [bool(x)] for [x] a string or [None]. *)
Definition truthy (x : option string) : bool :=
  match x with Some s => PyStr.truthy s | None => false end.

Definition _file_type_resolver (path : PathPy.t) : FileTypeResolution :=
  let fi := get_mappings_fileinfo (PathPy.str path) in
  let ftype := if file_ext_type fi is t :: _ then Some t else None in
  match ftype ≫= (λ t, _IMPSPEC_FILE_TO_PARSER !! t) with
  | Some p => {| parser := Some p; unsupported_type := None |}
  | None =>
      let ext :=
        if truthy (suffix fi) then default "" (suffix fi)
        else if PyStr.truthy (PathPy.suffix path)
             then PyStr.tail (PathPy.suffix path)
             else PathPy.name path in
      {| parser := None; unsupported_type := Some ext |}
  end.

(** The first entry of the classified file type list, if any. *)
Definition first_file_ext_type (path : PathPy.t) : option string :=
  head (file_ext_type (get_mappings_fileinfo (PathPy.str path))).

(** The classified suffix, if there is one and it is not empty. *)
Definition classified_suffix (path : PathPy.t) : option string :=
  match suffix (get_mappings_fileinfo (PathPy.str path)) with
  | Some s => if PyStr.truthy s then Some s else None
  | None => None
  end.

Definition tabular (t : string) : Prop := t ∈ [CSV M; TSV M; EXCEL M].

Lemma _IMPSPEC_FILE_TO_PARSER_dom t :
  is_Some (_IMPSPEC_FILE_TO_PARSER !! t) ↔ tabular t.
Proof.
  unfold _IMPSPEC_FILE_TO_PARSER, tabular.
  rewrite !lookup_insert_is_Some, lookup_empty, <- !not_eq_None_Some.
  rewrite !elem_of_cons, elem_of_nil.
  destruct (decide (EXCEL M = t)), (decide (TSV M = t)),
    (decide (CSV M = t)); intuition congruence.
Qed.

Lemma _IMPSPEC_FILE_TO_PARSER_distinct :
  NoDup [CSV M; TSV M; EXCEL M] →
  _IMPSPEC_FILE_TO_PARSER !! CSV M = Some parse_csv ∧
  _IMPSPEC_FILE_TO_PARSER !! TSV M = Some parse_tsv ∧
  _IMPSPEC_FILE_TO_PARSER !! EXCEL M = Some parse_excel.
Proof.
  rewrite !NoDup_cons, !elem_of_cons, elem_of_nil.
  intros (H1 & H2 & _). unfold _IMPSPEC_FILE_TO_PARSER.
  split_and!.
  - rewrite !lookup_insert_ne by naive_solver. apply lookup_insert_eq.
  - rewrite lookup_insert_ne by naive_solver. apply lookup_insert_eq.
  - apply lookup_insert_eq.
Qed.

Lemma resolver_parser_lookup path :
  parser (_file_type_resolver path)
  = first_file_ext_type path ≫= (λ t, _IMPSPEC_FILE_TO_PARSER !! t).
Proof.
  unfold _file_type_resolver, first_file_ext_type.
  destruct (file_ext_type _) as [|t l]; simpl; [done|].
  by destruct (_IMPSPEC_FILE_TO_PARSER !! t).
Qed.

Lemma resolver_unsupported path :
  parser (_file_type_resolver path) = None →
  unsupported_type (_file_type_resolver path)
  = Some (match classified_suffix path with
          | Some s => s
          | None => if decide (PathPy.suffix path ≠ "")
                    then PyStr.tail (PathPy.suffix path)
                    else PathPy.name path
          end).
Proof.
  unfold _file_type_resolver, classified_suffix.
  destruct (_ ≫= _); simpl; [done|]. intros _. f_equal.
  destruct (suffix _) as [s|]; simpl.
  - destruct (PyStr.truthy s); simpl; [done|].
    destruct (PathPy.suffix path); by simpl.
  - destruct (PathPy.suffix path); by simpl.
Qed.

(** C2. The resolver returns a parser exactly when the first entry of the
    classified file type list is CSV, TSV or EXCEL, and then it is the
    parser [_IMPSPEC_FILE_TO_PARSER] holds for that entry (that of the
    format itself when the three names differ) and no unsupported type is
    set. Otherwise no parser is set and the unsupported type is the
    classified suffix when there is a non-empty one, else the path's suffix
    without its dot when the path has a suffix, else the path's name. *)
Theorem file_type_resolver_spec (path : PathPy.t) :
  let r := _file_type_resolver path in
  (is_Some (parser r) ↔
     ∃ t, first_file_ext_type path = Some t ∧ tabular t) ∧
  (∀ t, first_file_ext_type path = Some t → tabular t →
     parser r = _IMPSPEC_FILE_TO_PARSER !! t ∧ unsupported_type r = None ∧
     (NoDup [CSV M; TSV M; EXCEL M] →
        (t = CSV M → parser r = Some parse_csv) ∧
        (t = TSV M → parser r = Some parse_tsv) ∧
        (t = EXCEL M → parser r = Some parse_excel))) ∧
  ((¬ ∃ t, first_file_ext_type path = Some t ∧ tabular t) →
     parser r = None ∧
     (∀ s, classified_suffix path = Some s → unsupported_type r = Some s) ∧
     (classified_suffix path = None → PathPy.suffix path ≠ "" →
        unsupported_type r = Some (PyStr.tail (PathPy.suffix path))) ∧
     (classified_suffix path = None → PathPy.suffix path = "" →
        unsupported_type r = Some (PathPy.name path))).
Proof.
  intros r.
  assert (is_Some (parser r) ↔
          ∃ t, first_file_ext_type path = Some t ∧ tabular t) as Hiff.
  { subst r. rewrite resolver_parser_lookup.
    destruct (first_file_ext_type path) as [t|]; simpl.
    - rewrite _IMPSPEC_FILE_TO_PARSER_dom.
      split; [by exists t|by intros (? & [= <-] & ?)].
    - split; [by intros [? ?]|by intros (? & ? & _)]. }
  split_and!; [done| |].
  - intros t Ht Htab.
    assert (parser r = _IMPSPEC_FILE_TO_PARSER !! t) as Hp.
    { subst r. rewrite resolver_parser_lookup, Ht. done. }
    split_and!; [done| |].
    + apply _IMPSPEC_FILE_TO_PARSER_dom in Htab as [p Hlook].
      rewrite Hlook in Hp. subst r. unfold _file_type_resolver in *.
      destruct (_ ≫= _); [done|]. done.
    + intros Hnd.
      destruct (_IMPSPEC_FILE_TO_PARSER_distinct Hnd) as (Hc & Ht' & He).
      rewrite Hp. split_and!; intros ->; done.
  - intros Hno.
    assert (parser r = None) as Hp.
    { destruct (parser r) eqn:Hpr; [|done].
      exfalso. apply Hno, Hiff. eauto. }
    subst r. rewrite (resolver_unsupported _ Hp).
    split_and!; [done|..].
    + by intros s ->.
    + intros -> Hs. by rewrite decide_True.
    + intros -> Hs. rewrite decide_False; [done|]. by intros ?.
Qed.

(** C9. The resolution of a path has exactly one of its two fields set:
    a parser and no unsupported type, or an unsupported type and no
    parser. *)
Theorem file_type_resolution_exactly_one (path : PathPy.t) :
  let r := _file_type_resolver path in
  (is_Some (parser r) ∧ unsupported_type r = None) ∨
  (parser r = None ∧ is_Some (unsupported_type r)).
Proof.
  intros r. subst r. unfold _file_type_resolver.
  destruct (_ ≫= _); simpl; [left|right]; eauto.
Qed.

(** The unsupported type is an empty string only for a path without a
    name. *)
Lemma resolver_unsupported_nonempty path :
  PathPy.name path ≠ "" → unsupported_type (_file_type_resolver path) ≠ Some "".
Proof.
  intros Hname. unfold _file_type_resolver.
  destruct (_ ≫= _); simpl; [done|]. intros [= Hext]. revert Hext.
  destruct (suffix _) as [[|a s]|]; simpl; try done.
  all: destruct (PathPy.suffix path) as [|b u] eqn:Hs; simpl; try done.
  all: intros Hu; apply (PathPy.suffix_tail_nonempty path);
    rewrite Hs; done.
Qed.

End resolver.

(** The resolver on file names classified by their last extension. *)
Definition example_fileinfo (name : string) : FileInfo :=
  let ext := PyStr.tail (PathPy.suffix (PathPy.Path name)) in
  match extension_to_file_format_mapping GenerateMappings.example_mappings
          !! ext with
  | Some ft => {| file_ext_type := [ft]; suffix := Some ext |}
  | None => {| file_ext_type := []; suffix := None |}
  end.

Example resolve_csv :
  _file_type_resolver GenerateMappings.example_mappings example_fileinfo
    (PathPy.Path "/data/bulk/user/samples.csv")
  = {| parser := Some parse_csv; unsupported_type := None |}.
Proof. vm_compute. reflexivity. Qed.

Example resolve_gff3 :
  _file_type_resolver GenerateMappings.example_mappings example_fileinfo
    (PathPy.Path "/data/bulk/user/genome.gff3")
  = {| parser := None; unsupported_type := Some "gff3" |}.
Proof. vm_compute. reflexivity. Qed.

Example resolve_unknown_suffix :
  _file_type_resolver GenerateMappings.example_mappings example_fileinfo
    (PathPy.Path "/data/bulk/user/notes.txt")
  = {| parser := None; unsupported_type := Some "txt" |}.
Proof. vm_compute. reflexivity. Qed.

Example resolve_no_suffix :
  _file_type_resolver GenerateMappings.example_mappings example_fileinfo
    (PathPy.Path "/data/bulk/user/README")
  = {| parser := None; unsupported_type := Some "README" |}.
Proof. vm_compute. reflexivity. Qed.
End Resolver.

(** ** [app.py]: [bulk_specification] *)
Module BulkSpecification.
Import Resolver.

(** Modelled from the spec: [ErrorType] of
    [import_specifications/file_parser.py], the four kinds of the spec's
    ParseError. *)
Inductive ErrorType := FILE_NOT_FOUND | PARSE_FAIL | UNSUPPORTED_TYPE | OTHER.

#[global] Instance ErrorType_eq_dec : EqDecision ErrorType.
Proof. solve_decision. Defined.

#[global] Instance ErrorType_countable : Countable ErrorType.
Proof.
  refine (inj_countable'
    (λ e, match e with
          | FILE_NOT_FOUND => 0 | PARSE_FAIL => 1
          | UNSUPPORTED_TYPE => 2 | OTHER => 3
          end)
    (λ n, match n with
          | 0 => FILE_NOT_FOUND | 1 => PARSE_FAIL
          | 2 => UNSUPPORTED_TYPE | _ => OTHER
          end) _).
  by intros [].
Defined.

(** A cell of a specification: a string or a number. *)
Inductive Value := VStr (s : string) | VNum (n : Z).

(** The rows of one data type: each row maps parameter ids to values. *)
Definition Rows : Type := list (gmap string Value).

(** Modelled from the spec: ImportSpecificationSource, ParseError,
    ParsedRecord with its source, and ParseResult, with the attribute names
    [bulk_specification] reads. *)
Record SpecificationSource := { file : PathPy.t; tab : option string }.

Record Error := {
  error : ErrorType;
  message : option string;
  error_source : option SpecificationSource;
}.

Record ParseResult := { source : SpecificationSource; result : Rows }.

Record ParseResults := {
  results : option (list (string * ParseResult));
  errors : option (list Error);
}.

(** What [Path.validate_path] of [utils.py] returns. *)
Record ValidatedPath := { full_path : string; user_path : string }.

(** The responses of the handler. *)
Inductive HTTPError := HTTPBadRequest | HTTPNotFound | HTTPInternalServerError.

Inductive Response (ErrJson : Type) :=
  | json_response (types : list (string * Rows))
                  (files : list (string * (string * option string)))
  | http_error (cls : HTTPError) (errors : ErrJson).
Arguments json_response {ErrJson} types files.
Arguments http_error {ErrJson} cls errors.

(** Modelled from the spec: what a parser makes of one file. Either the
    data types it found, each with its tab and rows, or its errors
    (FILE_NOT_FOUND, PARSE_FAIL), or an exception nobody anticipated. *)
Inductive FileParse :=
  | Records (blocks : list (string * option string * Rows))
  | Errors (errs : list Error)
  | Unexpected (exc : string).

(** [d] as built by a comprehension [{k: v for ...}] over the items [l]. *)
Definition dict_of_items {K V} `{EqDecision K} (l : list (K * V))
  : list (K * V) :=
  foldl (λ d '(k, v), PyDict.set k v d) [] l.

(** [bool(d)] for a dictionary or [None]. *)
Definition nonempty {A} (d : option (list A)) : bool :=
  match d with Some (_ :: _) => true | _ => false end.

(** An invariant of the body is an invariant of [foldl]. *)
Lemma foldl_inv {A S} (P : S → Prop) (f : S → A → S) l s :
  (∀ s y, y ∈ l → P s → P (f s y)) → P s → P (foldl f s l).
Proof.
  revert s. induction l as [|y l IH]; intros s Hf Hs; simpl; [done|].
  apply IH; [|apply Hf; [by left|done]].
  intros ????. apply Hf; [by right|done].
Qed.

(** What the body establishes at [x] holds at the end, if every step keeps
    it. *)
Lemma foldl_elem {A S} (P : S → Prop) (f : S → A → S) l x s :
  x ∈ l → (∀ s y, P s → P (f s y)) → (∀ s, P (f s x)) → P (foldl f s l).
Proof.
  intros Hx Hmono Hnew. revert s.
  induction l as [|y l IH]; intros s; simpl; [by apply elem_of_nil in Hx|].
  apply elem_of_cons in Hx as [->|Hx]; [|by apply IH].
  apply foldl_inv; auto.
Qed.

Lemma set_fresh {K V} `{EqDecision K} (k : K) (v : V) d :
  k ∉ PyDict.keys d → PyDict.set k v d = d ++ [(k, v)].
Proof.
  unfold PyDict.keys. induction d as [|[k' v'] d IH]; csimpl; [done|].
  intros [Hne Hnin]%not_elem_of_cons.
  rewrite decide_False by done. by rewrite IH.
Qed.

(** Over items with distinct keys a comprehension is the items. *)
Lemma dict_of_items_NoDup {K V} `{EqDecision K} (l : list (K * V)) :
  NoDup l.*1 → dict_of_items l = l.
Proof.
  unfold dict_of_items.
  induction l as [|[k v] l IH] using rev_ind; [done|].
  rewrite fmap_app, NoDup_app. csimpl. intros (Hl & Hk & _).
  rewrite foldl_app. simpl. rewrite IH by done.
  apply set_fresh. intros Hin. apply (Hk k Hin). by left.
Qed.

Lemma get_fmap_value {K V W} `{EqDecision K} (f : V → W) (d : list (K * V)) k :
  PyDict.get k ((λ '(k, v), (k, f v)) <$> d) = f <$> PyDict.get k d.
Proof.
  induction d as [|[k' v'] d IH]; csimpl; [done|]. by case_decide.
Qed.

Lemma keys_fmap_value {K V W} (f : V → W) (d : list (K * V)) :
  ((λ '(k, v), (k, f v)) <$> d).*1 = d.*1.
Proof. induction d as [|[k' v'] d IH]; csimpl; [done|]. by f_equal. Qed.

Lemma mapM_value {K V U W} `{EqDecision K} (g : V → option U)
    (h : V → U → W) (d : list (K * V)) d' :
  mapM (λ '(k, v), u ← g v; Some (k, h v u)) d = Some d' →
  d'.*1 = d.*1 ∧
  ∀ k, PyDict.get k d' = PyDict.get k d ≫= (λ v, h v <$> g v).
Proof.
  revert d'. induction d as [|[k v] d IH]; intros d'; csimpl.
  - intros [= <-]. done.
  - destruct (g v) as [u|] eqn:Hg; csimpl; [|done].
    destruct (mapM _ d) as [d0|]; csimpl; [|done].
    intros [= <-]. destruct (IH d0 eq_refl) as [Hkeys Hget].
    split; csimpl; [by f_equal|].
    intros k0. case_decide; [|done]. simpl. by rewrite Hg.
Qed.

Lemma all_lstrip p s :
  PyStr.all p s = true → PyStr.all p (PyStr.lstrip s) = true.
Proof.
  induction s as [|c s IH]; simpl; [done|].
  intros [Hc Hs]%andb_true_iff. destruct (PyStr.isspace c); [auto|].
  simpl. by rewrite Hc, Hs.
Qed.

Lemma all_rstrip p s :
  PyStr.all p s = true → PyStr.all p (PyStr.rstrip s) = true.
Proof.
  induction s as [|c s IH]; simpl; [done|].
  intros [Hc Hs]%andb_true_iff. specialize (IH Hs).
  destruct (PyStr.rstrip s) as [|a t].
  - destruct (PyStr.isspace c); simpl; [done|]. by rewrite Hc.
  - simpl in *. by rewrite Hc, IH.
Qed.

Lemma truthy_spec s : PyStr.truthy s = true ↔ s ≠ "".
Proof. by destruct s. Qed.

Section bulk_specification.
Variable M : Mappings.
Variable get_mappings_fileinfo : string → FileInfo.

(** [Path.validate_path(username, f)]; [utils.py] is not among the
    sources. *)
Variable validate_path : string → string → ValidatedPath.

(** [PathPy(s)]: the path of a string, in pathlib's normal form. *)
Variable PathPy_of : string → PathPy.t.

(** [format_import_spec_errors(errors, paths)] of [app_error_formatter.py],
    which is not among the sources, and the JSON it returns. *)
Variable ErrJson : Type.
Variable format_import_spec_errors :
  list Error → list (PathPy.t * PathPy.t) → ErrJson.

(** The parsers of [individual_parsers.py] applied to a file. *)
Variable run_parser : Parser → PathPy.t → FileParse.

(** *** The parse, modelled from the spec *)

(** Modelled from the spec: the state of the parse, the data types and
    the errors gathered so far. *)
Record ParseState := {
  st_results : list (string * ParseResult);
  st_errors : list Error;
}.

Definition add_error (e : Error) (st : ParseState) : ParseState :=
  {| st_results := st_results st; st_errors := st_errors st ++ [e] |}.

(** Modelled from the spec: a data type found in [p] is kept, unless the
    name is taken, which is a PARSE_FAIL error. *)
Definition add_block (p : PathPy.t) (st : ParseState)
    (block : string * option string * Rows) : ParseState :=
  let '(datatype, tab, rows) := block in
  let src := {| file := p; tab := tab |} in
  if decide (is_Some (PyDict.get datatype (st_results st))) then
    add_error {| error := PARSE_FAIL; message := Some datatype;
                 error_source := Some src |} st
  else
    {| st_results := PyDict.set datatype {| source := src; result := rows |}
                       (st_results st);
       st_errors := st_errors st |}.

(** Modelled from the spec: the errors that a path brings by itself, an
    unsupported type, the errors of its parser, or an unanticipated
    exception, which is an error of kind OTHER. *)
Definition file_errors (p : PathPy.t) : list Error :=
  let r := _file_type_resolver M get_mappings_fileinfo p in
  let src := Some {| file := p; tab := None |} in
  match unsupported_type r, parser r with
  | Some ext, _ =>
      [ {| error := UNSUPPORTED_TYPE; message := Some ext;
           error_source := src |} ]
  | None, Some ps =>
      match run_parser ps p with
      | Records _ => []
      | Errors errs => errs
      | Unexpected exc =>
          [ {| error := OTHER; message := Some exc; error_source := None |} ]
      end
  | None, None =>
      [ {| error := OTHER; message := None; error_source := None |} ]
  end.

(** Modelled from the spec: the data types found in a path by its
    parser. *)
Definition file_blocks (p : PathPy.t)
  : list (string * option string * Rows) :=
  let r := _file_type_resolver M get_mappings_fileinfo p in
  match unsupported_type r, parser r with
  | None, Some ps =>
      if run_parser ps p is Records blocks then blocks else []
  | _, _ => []
  end.

(** Modelled from the spec: one path of the parse. Resolve it; an
    unsupported type is an error and the parse goes on; else run the
    parser, and record its errors or its data types. *)
Definition parse_file (st : ParseState) (p : PathPy.t) : ParseState :=
  foldl (add_block p)
        {| st_results := st_results st;
           st_errors := st_errors st ++ file_errors p |}
        (file_blocks p).

(** Modelled from the spec: the paths are parsed in order. *)
Definition parse_all (paths : list PathPy.t) : ParseState :=
  foldl parse_file {| st_results := []; st_errors := [] |} paths.

(** Modelled from the spec: [parse_import_specifications] of
    [import_specifications/file_parser.py] (section 4.3 of the spec). Any
    error makes the result the full list of errors and nothing else; with
    no error the result is the data types. The error sink only logs and is
    left out. *)
Definition parse_import_specifications (paths : list PathPy.t)
  : ParseResults :=
  let st := parse_all paths in
  if st_errors st is [] then
    {| results := Some (st_results st); errors := None |}
  else
    {| results := None; errors := Some (st_errors st) |}.

(** *** The handler, from [app.py] *)

(** [files[0].split(",") if files else []], then
    [[f.strip() for f in files if f.strip()]]. *)
Definition normalize_files (files : list string) : list string :=
  let files := if files is f0 :: _ then PyStr.split "," f0 else [] in
  PyStr.strip <$> filter (λ f, PyStr.truthy (PyStr.strip f)) files.

(** The dictionary [paths]: full path → user path. *)
Definition build_paths (username : string) (files : list string)
  : list (PathPy.t * PathPy.t) :=
  foldl (λ paths f,
           let p := validate_path username f in
           PyDict.set (PathPy_of (full_path p)) (PathPy_of (user_path p))
                      paths)
        [] files.

(** [errtypes - {...}] is not empty. *)
Definition severity (errtypes : gset ErrorType) : HTTPError :=
  if decide (errtypes ∖ {[OTHER; FILE_NOT_FOUND]} ≠ ∅) then HTTPBadRequest
  else if decide (errtypes ∖ {[OTHER]} ≠ ∅) then HTTPNotFound
  else HTTPInternalServerError.

(** The handler from [if res.results:] on. [None] stands for an exception:
    the [KeyError] of a source file that is not in [paths], or the
    [TypeError] of iterating [res.errors] when it is [None]. *)
Definition bulk_response (paths : list (PathPy.t * PathPy.t))
    (res : ParseResults) : option (Response ErrJson) :=
  if nonempty (results res) then
    let items := default [] (results res) in
    let types := dict_of_items ((λ '(dt, r), (dt, result r)) <$> items) in
    files ← mapM (λ '(dt, r),
                    up ← PyDict.get (file (source r)) paths;
                    Some (dt, (PathPy.str up, tab (source r)))) items;
    Some (json_response types (dict_of_items files))
  else
    errs ← errors res;
    let errtypes : gset ErrorType := list_to_set (error <$> errs) in
    let errtext := format_import_spec_errors errs paths in
    Some (http_error (severity errtypes) errtext).

(** The handler once the [files] values of the query string are read, for
    the user that [authorize_request] returned. *)
Definition bulk_specification_files (username : string)
    (files : list string) : option (Response ErrJson) :=
  let paths := build_paths username files in
  let res := parse_import_specifications (PyDict.keys paths) in
  bulk_response paths res.

Definition bulk_specification (username : string) (files : list string)
  : option (Response ErrJson) :=
  bulk_specification_files username (normalize_files files).

(** *** The normalised list of files *)

Lemma normalize_files_omap value rest :
  normalize_files (value :: rest)
  = omap (λ seg, if PyStr.truthy (PyStr.strip seg)
                 then Some (PyStr.strip seg) else None)
         (PyStr.split "," value).
Proof.
  unfold normalize_files.
  induction (PyStr.split "," value) as [|seg segs IH]; [done|].
  rewrite filter_cons. csimpl. case_decide as Hseg.
  - apply Is_true_true in Hseg. rewrite Hseg. csimpl. by rewrite IH.
  - apply Is_true_false in Hseg. by rewrite Hseg.
Qed.

Example normalize_files_spaces :
  normalize_files ["a.csv, b.tsv,"] = ["a.csv"; "b.tsv"].
Proof. vm_compute. reflexivity. Qed.

Example normalize_files_plain :
  normalize_files ["a.csv,b.tsv"] = ["a.csv"; "b.tsv"].
Proof. vm_compute. reflexivity. Qed.

Example normalize_files_blank :
  normalize_files [" , ,folder1/file1.txt ,, file2.txt "; "ignored.csv"]
  = ["folder1/file1.txt"; "file2.txt"].
Proof. vm_compute. reflexivity. Qed.

(** C10. The handler works on the normalised list of files only: the
    first [files] value is cut at its commas into segments, each segment
    loses the whitespace around it and nothing else, and the segments that
    are empty then are dropped; what remains has no comma and no
    whitespace at either end. The values ["a.csv, b.tsv,"] and
    ["a.csv,b.tsv"] give the same list and so the same response. *)
Theorem bulk_specification_files_normalized
    (username value : string) (rest : list string) :
  let segments := PyStr.split "," value in
  let files := normalize_files (value :: rest) in
  PyStr.join "," segments = value ∧
  Forall (λ seg, ∃ l r,
            seg = l +:+ PyStr.strip seg +:+ r ∧
            PyStr.all PyStr.isspace l = true ∧
            PyStr.all PyStr.isspace r = true ∧
            PyStr.trimmed (PyStr.strip seg)) segments ∧
  files = omap (λ seg, if decide (PyStr.strip seg = "")
                       then None else Some (PyStr.strip seg)) segments ∧
  Forall (λ f, f ≠ "" ∧ PyStr.trimmed f ∧
               PyStr.all (λ c, bool_decide (c ≠ ","%char)) f = true) files ∧
  bulk_specification username (value :: rest)
  = bulk_specification_files username files ∧
  normalize_files ["a.csv, b.tsv,"] = ["a.csv"; "b.tsv"] ∧
  normalize_files ["a.csv,b.tsv"] = ["a.csv"; "b.tsv"] ∧
  bulk_specification username ["a.csv, b.tsv,"]
  = bulk_specification username ["a.csv,b.tsv"].
Proof.
  intros segments files. split_and!.
  - apply PyStr.join_split.
  - apply Forall_forall. intros seg _.
    destruct (PyStr.strip_decomp seg) as (l & r & Hseg & Hl & Hr).
    exists l, r. split_and!; [done..|apply PyStr.strip_trimmed].
  - subst files segments. rewrite normalize_files_omap.
    induction (PyStr.split "," value) as [|seg segs IH]; [done|].
    csimpl. rewrite IH. by destruct (PyStr.strip seg).
  - subst files. rewrite normalize_files_omap.
    apply Forall_forall. intros f (seg & Hseg & Hf)%list_elem_of_omap.
    destruct (PyStr.truthy (PyStr.strip seg)) eqn:Ht; [|done].
    injection Hf as <-. split_and!.
    + by apply truthy_spec.
    + apply PyStr.strip_trimmed.
    + apply all_lstrip, all_rstrip.
      pose proof (PyStr.split_no_sep "," value) as Hno.
      rewrite Forall_forall in Hno. by apply Hno.
  - done.
  - apply normalize_files_spaces.
  - apply normalize_files_plain.
  - unfold bulk_specification.
    by rewrite normalize_files_spaces, normalize_files_plain.
Qed.

(** *** The severity of a list of errors *)

Lemma severity_bad_request (errs : list Error) :
  (∃ e, e ∈ errs ∧ error e ≠ OTHER ∧ error e ≠ FILE_NOT_FOUND) →
  severity (list_to_set (error <$> errs)) = HTTPBadRequest.
Proof.
  intros (e & He & Ho & Hf). unfold severity.
  rewrite decide_True; [done|].
  assert (error e ∈ (list_to_set (error <$> errs) : gset ErrorType)
                    ∖ {[OTHER; FILE_NOT_FOUND]}) as Hin.
  { apply elem_of_difference. split.
    - apply elem_of_list_to_set, list_elem_of_fmap. eauto.
    - rewrite elem_of_union, !elem_of_singleton. by intros [?|?]. }
  intros Hempty. rewrite Hempty in Hin. by apply not_elem_of_empty in Hin.
Qed.

Lemma severity_not_bad_request (errs : list Error) :
  (∀ e, e ∈ errs → error e = OTHER ∨ error e = FILE_NOT_FOUND) →
  (list_to_set (error <$> errs) : gset ErrorType) ∖ {[OTHER; FILE_NOT_FOUND]}
  = ∅.
Proof.
  intros Hall. apply set_eq. intros k.
  rewrite elem_of_difference, elem_of_list_to_set, list_elem_of_fmap.
  rewrite elem_of_union, !elem_of_singleton.
  split; [|by intros ?%not_elem_of_empty].
  intros [(e & -> & He) Hk]. destruct (Hall e He); tauto.
Qed.

Lemma severity_not_found (errs : list Error) :
  (∀ e, e ∈ errs → error e = OTHER ∨ error e = FILE_NOT_FOUND) →
  (∃ e, e ∈ errs ∧ error e = FILE_NOT_FOUND) →
  severity (list_to_set (error <$> errs)) = HTTPNotFound.
Proof.
  intros Hall (e & He & Hf). unfold severity.
  rewrite decide_False.
  2:{ intros Hne. by apply Hne, severity_not_bad_request. }
  rewrite decide_True; [done|].
  assert (error e ∈ (list_to_set (error <$> errs) : gset ErrorType)
                    ∖ {[OTHER]}) as Hin.
  { apply elem_of_difference. split.
    - apply elem_of_list_to_set, list_elem_of_fmap. eauto.
    - rewrite elem_of_singleton, Hf. done. }
  intros Hempty. rewrite Hempty in Hin. by apply not_elem_of_empty in Hin.
Qed.

Lemma severity_internal (errs : list Error) :
  (∀ e, e ∈ errs → error e = OTHER) →
  severity (list_to_set (error <$> errs)) = HTTPInternalServerError.
Proof.
  intros Hall. unfold severity.
  rewrite decide_False; [rewrite decide_False; [done|]|].
  - intros Hne. apply Hne. apply set_eq. intros k.
    rewrite elem_of_difference, elem_of_list_to_set, list_elem_of_fmap.
    rewrite elem_of_singleton.
    split; [|by intros ?%not_elem_of_empty].
    intros [(e & -> & He) Hk]. by destruct (Hk (Hall e He)).
  - intros Hne. apply Hne, severity_not_bad_request.
    intros e He. left. auto.
Qed.

(** C1. When the parse returned no results but a list of errors, the
    response is an error whose class follows the kinds present: bad
    request if some kind is neither OTHER nor FILE_NOT_FOUND; else not
    found if FILE_NOT_FOUND is present; else, all being OTHER, internal
    server error. *)
Theorem bulk_specification_error_severity
    (paths : list (PathPy.t * PathPy.t)) (res : ParseResults)
    (errs : list Error) :
  nonempty (results res) = false → errors res = Some errs → errs ≠ [] →
  ∃ cls,
    bulk_response paths res
    = Some (http_error cls (format_import_spec_errors errs paths)) ∧
    ((∃ e, e ∈ errs ∧ error e ≠ OTHER ∧ error e ≠ FILE_NOT_FOUND) →
       cls = HTTPBadRequest) ∧
    ((∀ e, e ∈ errs → error e = OTHER ∨ error e = FILE_NOT_FOUND) →
     (∃ e, e ∈ errs ∧ error e = FILE_NOT_FOUND) →
       cls = HTTPNotFound) ∧
    ((∀ e, e ∈ errs → error e = OTHER) →
       cls = HTTPInternalServerError).
Proof.
  intros Hres Herrs _. unfold bulk_response. rewrite Hres, Herrs. simpl.
  eexists. split; [done|]. split_and!.
  - apply severity_bad_request.
  - apply severity_not_found.
  - apply severity_internal.
Qed.

(** *** The parse gathers every error and never replaces a data type *)

Lemma add_block_errors p st b :
  ∃ l, st_errors (add_block p st b) = st_errors st ++ l.
Proof.
  destruct b as [[dt tb] rows]. unfold add_block. case_decide; simpl.
  - by eexists.
  - exists []. by rewrite app_nil_r.
Qed.

Lemma add_block_results_kept p st b dt r :
  PyDict.get dt (st_results st) = Some r →
  PyDict.get dt (st_results (add_block p st b)) = Some r.
Proof.
  intros Hget. destruct b as [[dt' tb] rows]. unfold add_block.
  case_decide as Hin; simpl; [done|].
  rewrite PyDict.get_set. case_decide as Hdt; [|done].
  subst dt'. destruct Hin. by exists r.
Qed.

Lemma add_block_new p st dt tb rows :
  st_errors (add_block p st (dt, tb, rows)) = [] →
  PyDict.get dt (st_results (add_block p st (dt, tb, rows)))
  = Some {| source := {| file := p; tab := tb |}; result := rows |}.
Proof.
  unfold add_block. case_decide; simpl.
  - by intros [_ ?]%app_eq_nil.
  - intros _. apply PyDict.get_set_eq.
Qed.

(** The data types kept have distinct names and come from the paths
    [ps]. *)
Definition results_from (ps : list PathPy.t) (st : ParseState) : Prop :=
  NoDup (PyDict.keys (st_results st)) ∧
  ∀ dt r, (dt, r) ∈ st_results st → file (source r) ∈ ps.

Lemma add_block_results_from ps p st b :
  p ∈ ps → results_from ps st → results_from ps (add_block p st b).
Proof.
  intros Hp [Hnd Hfrom]. destruct b as [[dt tb] rows]. unfold add_block.
  case_decide; simpl; [done|]. split; simpl.
  - by apply PyDict.NoDup_keys_set.
  - intros dt' r [[= -> ->]|?]%PyDict.elem_of_set; [done|eauto].
Qed.

Lemma parse_all_results_from ps : results_from ps (parse_all ps).
Proof.
  unfold parse_all.
  apply (foldl_inv (results_from ps)).
  - intros st p Hp Hst. unfold parse_file.
    apply (foldl_inv (results_from ps)); [|done].
    intros st' b _. by apply add_block_results_from.
  - split; simpl; [constructor|]. by intros ?? ?%elem_of_nil.
Qed.

(** The errors of every path are among the errors of the parse. *)
Lemma parse_all_errors ps p e :
  p ∈ ps → e ∈ file_errors p → e ∈ st_errors (parse_all ps).
Proof.
  intros Hp He. unfold parse_all.
  assert (∀ q st b, e ∈ st_errors st → e ∈ st_errors (add_block q st b))
    as Hblock.
  { intros q st b Hin. destruct (add_block_errors q st b) as [l ->].
    apply elem_of_app. by left. }
  apply (foldl_elem (λ st, e ∈ st_errors st) _ _ p); [done| |].
  - intros st q Hst. unfold parse_file.
    apply (foldl_inv (λ st, e ∈ st_errors st)); [by auto|].
    simpl. apply elem_of_app. by left.
  - intros st. unfold parse_file.
    apply (foldl_inv (λ st, e ∈ st_errors st)); [by auto|].
    simpl. apply elem_of_app. by right.
Qed.

(** Without any error, every data type found in a path is in the results,
    with the rows and the source it was found with. *)
Lemma parse_all_discovered ps p dt tb rows :
  p ∈ ps → (dt, tb, rows) ∈ file_blocks p →
  st_errors (parse_all ps) = [] →
  PyDict.get dt (st_results (parse_all ps))
  = Some {| source := {| file := p; tab := tb |}; result := rows |}.
Proof.
  intros Hp Hb. unfold parse_all.
  set (r := {| source := {| file := p; tab := tb |}; result := rows |}).
  set (P := λ st, st_errors st = [] → PyDict.get dt (st_results st) = Some r).
  assert (∀ q st b, P st → P (add_block q st b)) as Hblock.
  { intros q st b Hst Herr. apply add_block_results_kept, Hst.
    destruct (add_block_errors q st b) as [l Hl]. rewrite Hl in Herr.
    by apply app_eq_nil in Herr as [? _]. }
  apply (foldl_elem P _ _ p); [done| |].
  - intros st q Hst. unfold parse_file.
    apply (foldl_inv P); [by auto|].
    intros [? _]%app_eq_nil. simpl. auto.
  - intros st. unfold parse_file.
    apply (foldl_elem P _ _ (dt, tb, rows)); [done|by auto|].
    intros st' Herr. by apply add_block_new.
Qed.

(** *** The response to the result of the parse *)

Lemma bulk_response_failure paths ps :
  st_errors (parse_all ps) ≠ [] →
  parse_import_specifications ps
  = {| results := None; errors := Some (st_errors (parse_all ps)) |} ∧
  bulk_response paths (parse_import_specifications ps)
  = Some (http_error
            (severity (list_to_set (error <$> st_errors (parse_all ps))))
            (format_import_spec_errors (st_errors (parse_all ps)) paths)).
Proof.
  intros Hne. unfold parse_import_specifications.
  destruct (st_errors (parse_all ps)) as [|e errs]; [done|]. done.
Qed.

Lemma bulk_response_results paths items :
  items ≠ [] →
  bulk_response paths {| results := Some items; errors := None |}
  = files ← mapM (λ '(dt, r),
                    up ← PyDict.get (file (source r)) paths;
                    Some (dt, (PathPy.str up, tab (source r)))) items;
    Some (json_response
            (dict_of_items ((λ '(dt, r), (dt, result r)) <$> items))
            (dict_of_items files)).
Proof. by destruct items. Qed.

Lemma bulk_response_success paths dt r :
  st_errors (parse_all (PyDict.keys paths)) = [] →
  PyDict.get dt (st_results (parse_all (PyDict.keys paths))) = Some r →
  ∃ types files up,
    bulk_response paths (parse_import_specifications (PyDict.keys paths))
    = Some (json_response types files) ∧
    PyDict.get dt types = Some (result r) ∧
    PyDict.get (file (source r)) paths = Some up ∧
    PyDict.get dt files = Some (PathPy.str up, tab (source r)).
Proof.
  intros Herr Hget. unfold parse_import_specifications. rewrite Herr.
  destruct (parse_all_results_from (PyDict.keys paths)) as [Hnd Hfrom].
  set (items := st_results (parse_all (PyDict.keys paths))) in *.
  rewrite bulk_response_results by (intros Hnil; by rewrite Hnil in Hget).
  set (g := λ r : ParseResult, PyDict.get (file (source r)) paths).
  set (h := λ (r : ParseResult) (up : PathPy.t),
              (PathPy.str up, tab (source r))).
  assert (is_Some (mapM (λ '(dt, r), up ← g r; Some (dt, h r up)) items))
    as [files Hfiles].
  { apply mapM_is_Some, Forall_forall. intros [dt' r'] Hin. simpl.
    destruct (proj2 (PyDict.get_is_Some (file (source r')) paths))
      as [up Hup]; [by eapply Hfrom|].
    subst g. simpl. rewrite Hup. by eexists. }
  destruct (mapM_value g h items files Hfiles) as [Hkeys Hlook].
  assert (is_Some (g r)) as [up Hup].
  { apply PyDict.get_is_Some. eapply Hfrom.
    by apply PyDict.get_Some_elem_of. }
  exists (dict_of_items ((λ '(dt, r), (dt, result r)) <$> items)),
         (dict_of_items files), up.
  split_and!.
  - subst g h. simpl in *. by rewrite Hfiles.
  - rewrite dict_of_items_NoDup by (by rewrite keys_fmap_value).
    by rewrite get_fmap_value, Hget.
  - done.
  - rewrite dict_of_items_NoDup by (by rewrite Hkeys).
    rewrite Hlook, Hget. simpl. by rewrite Hup.
Qed.

(** C3. For the paths of a request: every error of every path is among the
    errors of the parse. If there is any error, the parse returns the full
    list of errors and no results, and the response is an error response
    made from that full list. If there is none, the parse returns the
    results, every data type found in a path is in them with its rows and
    its (file, tab) source, and the response is the JSON mapping that data
    type to its rows and to the user path and tab it came from. *)
Theorem bulk_specification_all_or_nothing
    (username : string) (query : list string) :
  let paths := build_paths username (normalize_files query) in
  let st := parse_all (PyDict.keys paths) in
  (∀ p e, p ∈ PyDict.keys paths → e ∈ file_errors p → e ∈ st_errors st) ∧
  (st_errors st ≠ [] →
     parse_import_specifications (PyDict.keys paths)
     = {| results := None; errors := Some (st_errors st) |} ∧
     bulk_specification username query
     = Some (http_error
               (severity (list_to_set (error <$> st_errors st)))
               (format_import_spec_errors (st_errors st) paths))) ∧
  (st_errors st = [] →
     parse_import_specifications (PyDict.keys paths)
     = {| results := Some (st_results st); errors := None |} ∧
     ∀ p dt tb rows,
       p ∈ PyDict.keys paths → (dt, tb, rows) ∈ file_blocks p →
       PyDict.get dt (st_results st)
       = Some {| source := {| file := p; tab := tb |}; result := rows |} ∧
       ∃ types files up,
         bulk_specification username query
         = Some (json_response types files) ∧
         PyDict.get dt types = Some rows ∧
         PyDict.get p paths = Some up ∧
         PyDict.get dt files = Some (PathPy.str up, tb)).
Proof.
  intros paths st. split_and!.
  - intros p e. apply parse_all_errors.
  - intros Hne. by apply bulk_response_failure.
  - intros Herr. split.
    { unfold parse_import_specifications. fold paths st. by rewrite Herr. }
    intros p dt tb rows Hp Hb.
    pose proof (parse_all_discovered _ p dt tb rows Hp Hb Herr) as Hget.
    split; [done|].
    destruct (bulk_response_success paths dt _ Herr Hget)
      as (types & files & up & Hresp & Htypes & Hup & Hfiles).
    by exists types, files, up.
Qed.

End bulk_specification.

(** *** A staging area with one good file *)

Definition example_validate_path (username f : string) : ValidatedPath :=
  {| full_path := "/data/bulk/" +:+ username +:+ "/" +:+ f;
     user_path := username +:+ "/" +:+ f |}.

(** Every error as its kind and the user path of its source. *)
Definition example_format (errs : list Error)
    (paths : list (PathPy.t * PathPy.t)) : list (ErrorType * option string) :=
  (λ e, (error e,
         src ← error_source e;
         PathPy.str <$> PyDict.get (file src) paths)) <$> errs.

(** [a.csv] holds one row of data type [genomes]; no other file exists. *)
Definition example_run_parser (ps : Parser) (p : PathPy.t) : FileParse :=
  if decide (PathPy.name p = "a.csv") then
    Records [("genomes", None, [ {[ "id" := VStr "g1" ]} ])]
  else
    Errors [ {| error := FILE_NOT_FOUND; message := None;
                error_source := Some {| file := p; tab := None |} |} ].

Definition example_bulk_specification :=
  bulk_specification GenerateMappings.example_mappings example_fileinfo
    example_validate_path PathPy.Path _ example_format example_run_parser.

Example bulk_specification_one_good_file :
  example_bulk_specification "user" ["a.csv"]
  = Some (json_response [("genomes", [ {[ "id" := VStr "g1" ]} ])]
                        [("genomes", ("user/a.csv", None))]).
Proof. vm_compute. reflexivity. Qed.

Example bulk_specification_missing_file :
  example_bulk_specification "user" ["a.csv, missing.tsv"]
  = Some (http_error HTTPNotFound
            [(FILE_NOT_FOUND, Some "user/missing.tsv")]).
Proof. vm_compute. reflexivity. Qed.

Example bulk_specification_unsupported_and_missing :
  example_bulk_specification "user" ["genome.gff3,missing.tsv,a.csv"]
  = Some (http_error HTTPBadRequest
            [(UNSUPPORTED_TYPE, Some "user/genome.gff3");
             (FILE_NOT_FOUND, Some "user/missing.tsv")]).
Proof. vm_compute. reflexivity. Qed.

Definition example_errors : list Error :=
  [ {| error := FILE_NOT_FOUND; message := None;
       error_source := Some {| file := PathPy.Path "/data/bulk/user/m.tsv";
                               tab := None |} |};
    {| error := PARSE_FAIL; message := Some "no header";
       error_source := Some {| file := PathPy.Path "/data/bulk/user/b.csv";
                               tab := None |} |} ].

(** A missing file together with a file that fails to parse is a bad
    request. *)
Lemma bulk_specification_error_severity_witness :
  ∃ cls,
    bulk_response _ example_format []
      {| results := None; errors := Some example_errors |}
    = Some (http_error cls (example_format example_errors [])) ∧
    cls = HTTPBadRequest.
Proof.
  destruct (bulk_specification_error_severity _ example_format []
              {| results := None; errors := Some example_errors |}
              example_errors eq_refl eq_refl)
    as (cls & Hresp & Hbad & _).
  - discriminate.
  - exists cls. split; [exact Hresp|]. apply Hbad.
    eexists. split; [right; left|]. split; discriminate.
Defined.
End BulkSpecification.

(** ** [app.py]: [inject_config_dependencies] and [importer_filetypes] *)
Module TypeMappings.

(** An element of a [mappings] list of the configuration; only [id] is
    read. *)
Record Mapping := { id : string }.

(** The value of an extension under ["types"] in the configuration. *)
Record ExtensionRecord := {
  file_ext_type : list string;
  mappings : list Mapping;
}.

(** A [defaultdict(set)]: [dd[k].add(x)] and what it holds. *)
Definition set_add (k x : string) (d : list (string * gset string))
  : list (string * gset string) :=
  PyDict.set k (PyDict.get_default ∅ k d ∪ {[x]}) d.

Definition holds (d : list (string * gset string)) (k x : string) : Prop :=
  ∃ s, PyDict.get k d = Some s ∧ x ∈ s.

(** [sorted(s)] for a set of strings. The order in which a set is iterated
    is not fixed; [elements] is one such order. *)
Definition sorted (s : gset string) : list string :=
  merge_sort String.le (elements s).

(** [{k: sorted(d[k]) for k in d}]. *)
Definition sorted_values (d : list (string * gset string))
  : list (string * list string) :=
  BulkSpecification.dict_of_items
    ((λ k, (k, sorted (PyDict.get_default ∅ k d))) <$> PyDict.keys d).

(** The value of the global [_DATATYPE_MAPPINGS]. *)
Record DatatypeMappings := {
  datatype_to_filetype : list (string * list string);
  filetype_to_extensions : list (string * list string);
}.

(** The body of the loop over [_MAPPINGS["types"].items()]; [None] is the
    [IndexError] of an empty [file_ext_type]. *)
Definition inject_step
    (st : list (string * gset string) * list (string * gset string))
    (item : string * ExtensionRecord)
  : option (list (string * gset string) * list (string * gset string)) :=
  let '(datatypes, extensions) := st in
  let '(fileext, val) := item in
  filetype ← head (file_ext_type val);
  let extensions := set_add filetype fileext extensions in
  let datatypes :=
    foldl (λ datatypes m, set_add (id m) filetype datatypes)
          datatypes (mappings val) in
  Some (datatypes, extensions).

(** The two tables built from the items of [_MAPPINGS["types"]]. *)
Definition datatype_mappings (types : list (string * ExtensionRecord))
  : option DatatypeMappings :=
  '(datatypes, extensions) ← for_each inject_step types ([], []);
  Some {| datatype_to_filetype := sorted_values datatypes;
          filetype_to_extensions := sorted_values extensions |}.

(** The globals of the module that the two functions touch. *)
Record Globals := {
  _MAPPINGS : option (list (string * ExtensionRecord));
  _DATATYPE_MAPPINGS : option DatatypeMappings;
}.

(** [inject_config_dependencies], from the loaded mappings file on: the
    directories of [Path] set before it are left out. [None] is an
    exception, which leaves the process without tables. *)
Definition inject_config_dependencies
    (types : list (string * ExtensionRecord)) (g : Globals)
  : option Globals :=
  dm ← datatype_mappings types;
  Some {| _MAPPINGS := Some types; _DATATYPE_MAPPINGS := Some dm |}.

(** [importer_filetypes]: the JSON response with [_DATATYPE_MAPPINGS] as
    its data, and the globals as they were. *)
Definition importer_filetypes (g : Globals)
  : option DatatypeMappings * Globals :=
  (_DATATYPE_MAPPINGS g, g).

(** App [a] is mapped to by an extension of canonical file type [t]. *)
Definition accepts (types : list (string * ExtensionRecord))
    (a t : string) : Prop :=
  ∃ e val m, (e, val) ∈ types ∧ head (file_ext_type val) = Some t ∧
             m ∈ mappings val ∧ id m = a.

(** Extension [e] has a record of canonical file type [t]. *)
Definition has_type (types : list (string * ExtensionRecord))
    (e t : string) : Prop :=
  ∃ val, (e, val) ∈ types ∧ head (file_ext_type val) = Some t.

(** Increasing, without repetition. *)
Definition strictly_sorted (l : list string) : Prop :=
  StronglySorted String.le l ∧ NoDup l.

(** *** Sets that grow *)

Lemma holds_set_add d k x k' x' :
  holds (set_add k x d) k' x' ↔ holds d k' x' ∨ (k' = k ∧ x' = x).
Proof.
  unfold holds, set_add. rewrite PyDict.get_set.
  unfold PyDict.get_default. case_decide as Hk.
  - subst k'. split.
    + intros (s & [= <-] & [Hin|Hin%elem_of_singleton]%elem_of_union).
      * left. destruct (PyDict.get k d) as [s0|]; simpl in Hin; [eauto|].
        by apply not_elem_of_empty in Hin.
      * by right.
    + intros [(s & Hs & Hin)|[_ ->]]; eexists; (split; [done|]).
      * rewrite Hs. simpl. apply elem_of_union. by left.
      * apply elem_of_union. right. by apply elem_of_singleton.
  - split; [by left|]. intros [?|[-> _]]; done.
Qed.

Lemma NoDup_keys_set_add d k x :
  NoDup (PyDict.keys d) → NoDup (PyDict.keys (set_add k x d)).
Proof. apply PyDict.NoDup_keys_set. Qed.

Lemma holds_foldl_set_add (ms : list Mapping) t d a t' :
  holds (foldl (λ d m, set_add (id m) t d) d ms) a t'
  ↔ holds d a t' ∨ (t' = t ∧ ∃ m, m ∈ ms ∧ id m = a).
Proof.
  revert d. induction ms as [|m ms IH]; intros d; simpl.
  - split; [by left|]. intros [?|(_ & m & ?%elem_of_nil & _)]; done.
  - rewrite IH, holds_set_add. split.
    + intros [[?|[-> ->]]|(-> & m' & Hm' & <-)].
      * by left.
      * right. split; [done|]. exists m. split; [by left|done].
      * right. split; [done|]. exists m'. split; [by right|done].
    + intros [?|(-> & m' & [->|Hm']%elem_of_cons & <-)].
      * left. by left.
      * left. by right.
      * right. eauto.
Qed.

Lemma NoDup_keys_foldl_set_add (ms : list Mapping) t d :
  NoDup (PyDict.keys d) →
  NoDup (PyDict.keys (foldl (λ d m, set_add (id m) t d) d ms)).
Proof.
  revert d. induction ms as [|m ms IH]; intros d Hd; simpl; [done|].
  by apply IH, NoDup_keys_set_add.
Qed.

(** An invariant that follows the items already seen. *)
Lemma for_each_prefix_inv {A S} (P : list A → S → Prop)
    (f : S → A → option S) l s s' :
  P [] s →
  (∀ pre x s s', P pre s → f s x = Some s' → P (pre ++ [x]) s') →
  for_each f l s = Some s' → P l s'.
Proof.
  intros Hs Hstep.
  assert (∀ pre s, P pre s → for_each f l s = Some s' → P (pre ++ l) s')
    as Hgen.
  { clear s Hs. induction l as [|x l IH]; intros pre s Hs; simpl.
    - intros [= <-]. by rewrite app_nil_r.
    - destruct (f s x) as [s1|] eqn:Hx; simpl; [|done].
      intros Hrest.
      replace (pre ++ x :: l) with ((pre ++ [x]) ++ l)
        by (by rewrite <- (assoc_L (++))).
      eauto. }
  by apply (Hgen []).
Qed.

(** What the two dictionaries hold after the items [types]. *)
Definition tables_of (types : list (string * ExtensionRecord))
    (st : list (string * gset string) * list (string * gset string))
  : Prop :=
  NoDup (PyDict.keys st.1) ∧ NoDup (PyDict.keys st.2) ∧
  (∀ a t, holds st.1 a t ↔ accepts types a t) ∧
  (∀ t e, holds st.2 t e ↔ has_type types e t).

Lemma accepts_snoc types e val a t :
  accepts (types ++ [(e, val)]) a t
  ↔ accepts types a t ∨
    (head (file_ext_type val) = Some t ∧ ∃ m, m ∈ mappings val ∧ id m = a).
Proof.
  unfold accepts. split.
  - intros (e' & val' & m & [Hin|Hin%list_elem_of_singleton]%elem_of_app
            & Ht & Hm & Ha).
    + left. eauto 10.
    + injection Hin as -> ->. right. eauto.
  - intros [(e' & val' & m & Hin & Ht & Hm & Ha)|(Ht & m & Hm & Ha)].
    + exists e', val', m. split; [apply elem_of_app; by left|done].
    + exists e, val, m. split; [|done].
      apply elem_of_app. right. by apply list_elem_of_singleton.
Qed.

Lemma has_type_snoc types e val e' t :
  has_type (types ++ [(e, val)]) e' t
  ↔ has_type types e' t ∨ (e' = e ∧ head (file_ext_type val) = Some t).
Proof.
  unfold has_type. split.
  - intros (val' & [Hin|Hin%list_elem_of_singleton]%elem_of_app & Ht).
    + left. eauto.
    + injection Hin as -> ->. by right.
  - intros [(val' & Hin & Ht)|[-> Ht]].
    + exists val'. split; [apply elem_of_app; by left|done].
    + exists val. split; [|done].
      apply elem_of_app. right. by apply list_elem_of_singleton.
Qed.

Lemma inject_step_tables_of types st item st' :
  tables_of types st → inject_step st item = Some st' →
  tables_of (types ++ [item]) st'.
Proof.
  destruct st as [datatypes extensions], item as [e val].
  intros (Hnd1 & Hnd2 & Hdt & Hext). unfold inject_step. simpl in *.
  destruct (head (file_ext_type val)) as [t|] eqn:Ht; simpl; [|done].
  intros [= <-]. split_and!; simpl.
  - by apply NoDup_keys_foldl_set_add.
  - by apply NoDup_keys_set_add.
  - intros a t'. rewrite holds_foldl_set_add, accepts_snoc, Hdt, Ht.
    split; (intros [?|[Heq Hm]]; [by left|right]).
    + by subst.
    + by injection Heq as ->.
  - intros t' e'. rewrite holds_set_add, has_type_snoc, Hext, Ht.
    split; (intros [?|[Heq1 Heq2]]; [by left|right]).
    + by subst.
    + by injection Heq2 as ->.
Qed.

Lemma for_each_inject_step_tables_of types st :
  for_each inject_step types ([], []) = Some st → tables_of types st.
Proof.
  apply (for_each_prefix_inv tables_of).
  - split_and!; simpl; [constructor|constructor|..].
    + intros a t. split; [by intros (? & ? & _)|].
      by intros (? & ? & ? & ?%elem_of_nil & _).
    + intros t e. split; [by intros (? & ? & _)|].
      by intros (? & ?%elem_of_nil & _).
  - intros pre x s s'. apply inject_step_tables_of.
Qed.

(** The loop raises only at a record with an empty [file_ext_type]. *)
Lemma for_each_inject_step_is_Some types st :
  Forall (λ item, file_ext_type item.2 ≠ []) types →
  is_Some (for_each inject_step types st).
Proof.
  intros Hwf. apply for_each_is_Some.
  intros [dts exts] [e val] Hin. rewrite Forall_forall in Hwf.
  specialize (Hwf _ Hin). unfold inject_step. simpl in *.
  destruct (file_ext_type val) as [|t l]; [done|]. simpl. by eexists.
Qed.

(** *** Sorted lists *)

Lemma elem_of_sorted s x : x ∈ sorted s ↔ x ∈ s.
Proof. unfold sorted. by rewrite merge_sort_Permutation, elem_of_elements. Qed.

Lemma sorted_strictly_sorted s : strictly_sorted (sorted s).
Proof.
  unfold strictly_sorted, sorted. split.
  - apply StronglySorted_merge_sort; apply _.
  - rewrite merge_sort_Permutation. apply NoDup_elements.
Qed.

(** Whatever the order in which the set is iterated, sorting gives the
    same list. *)
Lemma sorted_any_order s l :
  l ≡ₚ elements s → merge_sort String.le l = sorted s.
Proof.
  intros Hl. unfold sorted.
  apply (Sorted_unique String.le).
  - apply Sorted_merge_sort; apply _.
  - apply Sorted_merge_sort; apply _.
  - by rewrite !merge_sort_Permutation.
Qed.

Lemma get_fmap_keys {W} (f : string → W) (ks : list string) k :
  PyDict.get k ((λ k, (k, f k)) <$> ks)
  = if decide (k ∈ ks) then Some (f k) else None.
Proof.
  induction ks as [|k' ks IH].
  - destruct (decide (k ∈ [])) as [Hin|_]; [|done].
    by apply elem_of_nil in Hin.
  - rewrite fmap_cons. simpl. rewrite IH.
    destruct (decide (k = k')) as [Heq|Hne], (decide (k ∈ ks)) as [Hin|Hnin],
      (decide (k ∈ k' :: ks)) as [Hin'|Hnin']; try done.
    all: try (exfalso; apply Hnin'; subst; by (left || right)).
    all: try (by subst).
    all: by apply elem_of_cons in Hin' as [?|?].
Qed.

Lemma get_sorted_values d k :
  NoDup (PyDict.keys d) →
  PyDict.get k (sorted_values d) = sorted <$> PyDict.get k d.
Proof.
  intros Hnd. unfold sorted_values.
  rewrite BulkSpecification.dict_of_items_NoDup.
  2:{ rewrite <- list_fmap_compose. by rewrite list_fmap_id. }
  rewrite get_fmap_keys. unfold PyDict.get_default.
  destruct (decide (k ∈ PyDict.keys d)) as [Hin|Hnin].
  - apply PyDict.get_is_Some in Hin as [s ->]. done.
  - destruct (PyDict.get k d) as [s|] eqn:Hs; [|done].
    destruct Hnin. apply PyDict.get_is_Some. eauto.
Qed.

(** *** The two tables *)

Lemma datatype_mappings_is_Some types :
  Forall (λ item, file_ext_type item.2 ≠ []) types →
  ∃ st, for_each inject_step types ([], []) = Some st ∧
        tables_of types st ∧
        datatype_mappings types
        = Some {| datatype_to_filetype := sorted_values st.1;
                  filetype_to_extensions := sorted_values st.2 |}.
Proof.
  intros Hwf.
  destruct (for_each_inject_step_is_Some types ([], []) Hwf) as [st Hst].
  exists st. split_and!; [done|by apply for_each_inject_step_tables_of|].
  unfold datatype_mappings. rewrite Hst. by destruct st.
Qed.

(** A list in the table under [k] is the sorted set that the dictionary
    holds under [k]. *)
Lemma sorted_values_spec d k l :
  NoDup (PyDict.keys d) →
  PyDict.get k (sorted_values d) = Some l →
  strictly_sorted l ∧ ∀ x, x ∈ l ↔ holds d k x.
Proof.
  intros Hnd. rewrite get_sorted_values by done.
  destruct (PyDict.get k d) as [s|] eqn:Hs; simpl; [|done].
  intros [= <-]. split; [apply sorted_strictly_sorted|].
  intros x. rewrite elem_of_sorted. unfold holds. rewrite Hs.
  split; [eauto|]. by intros (? & [= <-] & ?).
Qed.

Lemma sorted_values_holds d k x :
  NoDup (PyDict.keys d) → holds d k x →
  ∃ l, PyDict.get k (sorted_values d) = Some l ∧ x ∈ l.
Proof.
  intros Hnd (s & Hs & Hx). exists (sorted s).
  rewrite get_sorted_values, Hs by done. split; [done|].
  by apply elem_of_sorted.
Qed.

(** A strictly sorted list is what sorting any enumeration of its
    elements gives. *)
Lemma strictly_sorted_any_order l l' :
  strictly_sorted l → NoDup l' → (∀ x, x ∈ l' ↔ x ∈ l) →
  merge_sort String.le l' = l.
Proof.
  intros [Hsorted Hnd] Hnd' Hsame.
  apply (Sorted_unique String.le).
  - apply Sorted_merge_sort; apply _.
  - by apply StronglySorted_Sorted.
  - rewrite merge_sort_Permutation. by apply NoDup_Permutation.
Qed.

Definition example_types : list (string * ExtensionRecord) :=
  [ ("gff3", {| file_ext_type := ["GFF"];
                mappings := [ {| id := "gff_metagenome" |};
                              {| id := "gff_genome" |} ] |});
    ("fna", {| file_ext_type := ["FASTA"];
               mappings := [ {| id := "assembly" |};
                             {| id := "gff_genome" |};
                             {| id := "gff_metagenome" |} ] |});
    ("fa", {| file_ext_type := ["FASTA"];
              mappings := [ {| id := "assembly" |};
                            {| id := "gff_genome" |};
                            {| id := "gff_metagenome" |} ] |});
    ("csv", {| file_ext_type := ["CSV"];
               mappings := [ {| id := "sample_set" |} ] |}) ].

Example datatype_mappings_example :
  datatype_mappings example_types
  = Some {| datatype_to_filetype :=
              [ ("gff_metagenome", ["FASTA"; "GFF"]);
                ("gff_genome", ["FASTA"; "GFF"]);
                ("assembly", ["FASTA"]);
                ("sample_set", ["CSV"]) ];
            filetype_to_extensions :=
              [ ("GFF", ["gff3"]); ("FASTA", ["fa"; "fna"]);
                ("CSV", ["csv"]) ] |}.
Proof. vm_compute. reflexivity. Qed.

Example datatype_mappings_empty_type :
  datatype_mappings [("txt", {| file_ext_type := []; mappings := [] |})]
  = None.
Proof. reflexivity. Qed.

Lemma example_types_well_formed :
  Forall (λ item, file_ext_type item.2 ≠ []) example_types.
Proof. repeat constructor; discriminate. Defined.

(** C4. When every record of the configuration has a file type, the two
    tables are built, and for every extension [e] whose record has the
    canonical file type [t] (the first of its file types) and an app [a]
    among its mappings, [datatype_to_filetype] maps [a] to a list with [t]
    in it and [filetype_to_extensions] maps [t] to a list with [e] in
    it. *)
Theorem datatype_mappings_contain (types : list (string * ExtensionRecord)) :
  Forall (λ item, file_ext_type item.2 ≠ []) types →
  ∃ dm, datatype_mappings types = Some dm ∧
    ∀ e val t m,
      (e, val) ∈ types → head (file_ext_type val) = Some t →
      m ∈ mappings val →
      (∃ filetypes,
         PyDict.get (id m) (datatype_to_filetype dm) = Some filetypes ∧
         t ∈ filetypes) ∧
      (∃ extensions,
         PyDict.get t (filetype_to_extensions dm) = Some extensions ∧
         e ∈ extensions).
Proof.
  intros Hwf.
  destruct (datatype_mappings_is_Some types Hwf)
    as (st & _ & (Hnd1 & Hnd2 & Hdt & Hext) & ->).
  eexists. split; [done|]. simpl.
  intros e val t m Hin Ht Hm. split.
  - apply sorted_values_holds; [done|]. apply Hdt.
    exists e, val, m. done.
  - apply sorted_values_holds; [done|]. apply Hext. by exists val.
Qed.

(** The configuration [example_types] meets the hypothesis of C4. *)
Lemma datatype_mappings_contain_witness :
  Forall (λ item, file_ext_type item.2 ≠ []) example_types ∧
  ∃ dm, datatype_mappings example_types = Some dm ∧
    (∃ filetypes,
       PyDict.get "gff_genome" (datatype_to_filetype dm) = Some filetypes ∧
       "GFF" ∈ filetypes) ∧
    (∃ extensions,
       PyDict.get "GFF" (filetype_to_extensions dm) = Some extensions ∧
       "gff3" ∈ extensions).
Proof.
  split; [exact example_types_well_formed|].
  destruct (datatype_mappings_contain example_types
              example_types_well_formed) as (dm & Hdm & Hall).
  exists dm. split; [exact Hdm|].
  apply (Hall "gff3" {| file_ext_type := ["GFF"];
                        mappings := [ {| id := "gff_metagenome" |};
                                      {| id := "gff_genome" |} ] |}
              "GFF" {| id := "gff_genome" |}).
  - left.
  - reflexivity.
  - right. left.
Defined.

(** C8. When every record of the configuration has a file type,
    [inject_config_dependencies] stores the two tables in
    [_DATATYPE_MAPPINGS], and [importer_filetypes] answers with what is
    stored and changes nothing. Every app that an extension maps to is a
    key of [datatype_to_filetype], and the list under an app is strictly
    sorted and holds exactly the canonical file types of the extensions
    that map to the app; every canonical file type is a key of
    [filetype_to_extensions], and the list under a file type is strictly
    sorted and holds exactly its extensions. Each list is what sorting
    gives for any order of enumerating its set. *)
Theorem datatype_mappings_sorted
    (types : list (string * ExtensionRecord)) (g : Globals) :
  Forall (λ item, file_ext_type item.2 ≠ []) types →
  ∃ dm g',
    inject_config_dependencies types g = Some g' ∧
    datatype_mappings types = Some dm ∧
    _DATATYPE_MAPPINGS g' = Some dm ∧
    importer_filetypes g' = (Some dm, g') ∧
    (∀ a t, accepts types a t →
       is_Some (PyDict.get a (datatype_to_filetype dm))) ∧
    (∀ a filetypes,
       PyDict.get a (datatype_to_filetype dm) = Some filetypes →
       strictly_sorted filetypes ∧
       (∀ t, t ∈ filetypes ↔ accepts types a t) ∧
       (∀ l, NoDup l → (∀ t, t ∈ l ↔ accepts types a t) →
          merge_sort String.le l = filetypes)) ∧
    (∀ e t, has_type types e t →
       is_Some (PyDict.get t (filetype_to_extensions dm))) ∧
    (∀ t extensions,
       PyDict.get t (filetype_to_extensions dm) = Some extensions →
       strictly_sorted extensions ∧
       (∀ e, e ∈ extensions ↔ has_type types e t) ∧
       (∀ l, NoDup l → (∀ e, e ∈ l ↔ has_type types e t) →
          merge_sort String.le l = extensions)).
Proof.
  intros Hwf.
  destruct (datatype_mappings_is_Some types Hwf)
    as (st & _ & (Hnd1 & Hnd2 & Hdt & Hext) & Hdm).
  set (dm := {| datatype_to_filetype := sorted_values st.1;
                filetype_to_extensions := sorted_values st.2 |}) in *.
  exists dm, {| _MAPPINGS := Some types; _DATATYPE_MAPPINGS := Some dm |}.
  unfold inject_config_dependencies. rewrite Hdm.
  split_and!; try done.
  - intros a t Ha%Hdt.
    destruct (sorted_values_holds _ _ _ Hnd1 Ha) as (l & Hl & _).
    exists l. exact Hl.
  - intros a filetypes Hget.
    destruct (sorted_values_spec _ _ _ Hnd1 Hget) as [Hsorted Helem].
    split_and!; [done| |].
    + intros t. by rewrite Helem, Hdt.
    + intros l Hl Hsame. apply strictly_sorted_any_order; [done..|].
      intros t. by rewrite Hsame, Helem, Hdt.
  - intros e t He%Hext.
    destruct (sorted_values_holds _ _ _ Hnd2 He) as (l & Hl & _).
    exists l. exact Hl.
  - intros t extensions Hget.
    destruct (sorted_values_spec _ _ _ Hnd2 Hget) as [Hsorted Helem].
    split_and!; [done| |].
    + intros e. by rewrite Helem, Hext.
    + intros l Hl Hsame. apply strictly_sorted_any_order; [done..|].
      intros e. by rewrite Hsame, Helem, Hext.
Qed.

(** The configuration [example_types] meets the hypothesis of C8. *)
Lemma datatype_mappings_sorted_witness :
  Forall (λ item, file_ext_type item.2 ≠ []) example_types ∧
  ∃ dm g',
    inject_config_dependencies example_types
      {| _MAPPINGS := None; _DATATYPE_MAPPINGS := None |} = Some g' ∧
    importer_filetypes g' = (Some dm, g') ∧
    ∃ filetypes,
      PyDict.get "gff_genome" (datatype_to_filetype dm) = Some filetypes ∧
      strictly_sorted filetypes.
Proof.
  split; [exact example_types_well_formed|].
  destruct (datatype_mappings_sorted example_types
              {| _MAPPINGS := None; _DATATYPE_MAPPINGS := None |}
              example_types_well_formed)
    as (dm & g' & Hinj & Hdm & _ & Himp & Hkeys & Hsorted & _).
  exists dm, g'. split; [exact Hinj|]. split; [exact Himp|].
  destruct (Hkeys "gff_genome" "GFF") as [filetypes Hget].
  - exists "gff3", {| file_ext_type := ["GFF"];
                      mappings := [ {| id := "gff_metagenome" |};
                                    {| id := "gff_genome" |} ] |},
           {| id := "gff_genome" |}.
    split; [left|]. split; [reflexivity|]. split; [right; left|reflexivity].
  - exists filetypes. split; [exact Hget|].
    exact (proj1 (Hsorted _ _ Hget)).
Defined.

End TypeMappings.

(** ** [app.py]: [write_bulk_specification] *)
Module WriteBulkSpecification.
Import BulkSpecification.

(** The writers of [import_specifications/file_writers.py], by name. *)
Inductive Writer := write_csv | write_tsv | write_excel.

(** A JSON value as far as the handler looks at it: absent or [null], a
    string, another hashable value (a number or a boolean), or a list or
    an object, which cannot be a dictionary key. The text is the value as
    an f-string prints it. *)
Inductive JVal :=
  | JNone
  | JStr (s : string)
  | JScalar (text : string)
  | JContainer (text : string).

Definition py_str (v : JVal) : string :=
  match v with
  | JNone => "None"
  | JStr s => s
  | JScalar text | JContainer text => text
  end.

(** Modelled from the spec: TemplateSpec, the columns in order as
    (paramId, displayName) pairs and the rows as mappings from paramId to
    value. *)
Record TemplateSpec := {
  order_and_display : list (string * string);
  data : list (gmap string Value);
}.

(** The JSON body of a request: not a mapping, or a mapping with its keys
    [output_directory], [output_file_type] and [types]. *)
Inductive Body :=
  | NotMapping
  | MappingBody (output_directory output_file_type : JVal)
                (types : list (string * TemplateSpec)).

(** A request: its content type, its content length if the header is
    there, and its body parsed as JSON ([None] when that raises). *)
Record Request := {
  content_type : string;
  content_length : option nat;
  json : option Body;
}.

Inductive ErrorClass :=
  HTTPBadRequest | HTTPUnsupportedMediaType | HTTPLengthRequired.

Inductive Response :=
  | json_response (output_file_type : string)
                  (files_created : list (string * string))
  | error_response (error_class : ErrorClass) (error : string).

(** Modelled from the spec: a template file, one table per data type in
    it; a table is the header of display names and the rows of cells in
    column order. *)
Record Table := {
  header : list string;
  rows : list (list (option Value));
}.

(** The staging area: the files by path and the directories. *)
Record FS := {
  files : gmap string (list (string * Table));
  dirs : gset string;
}.

Definition _APP_JSON : string := "application/json".

(** [os.makedirs(path, exist_ok=True)]: the directory is there afterwards;
    [None] is the [FileExistsError] of a file at that path. Parent
    directories are left out. *)
Definition os_makedirs (path : string) (fs : FS) : option FS :=
  if decide (is_Some (files fs !! path)) then None
  else Some {| files := files fs; dirs := dirs fs ∪ {[path]} |}.

(** Modelled from the spec: the precondition of the Template Writer. A row
    matches when its keys are exactly the paramIds of the columns. *)
Definition row_matches (spec : TemplateSpec) (row : gmap string Value)
  : Prop :=
  dom row = list_to_set (order_and_display spec).*1.

(** Modelled from the spec: every row of a valid spec matches. *)
Definition spec_valid (spec : TemplateSpec) : Prop :=
  Forall (row_matches spec) (data spec).

#[global] Instance spec_valid_dec spec : Decision (spec_valid spec).
Proof. unfold spec_valid, row_matches. apply _. Defined.

(** Modelled from the spec: the check of every data type, giving the
    first one whose spec is not valid. *)
Fixpoint check_types (types : list (string * TemplateSpec)) : option string :=
  match types with
  | [] => None
  | (datatype, spec) :: types' =>
      if decide (spec_valid spec) then check_types types' else Some datatype
  end.

(** Modelled from the spec: the table of a spec, columns in the order of
    [order_and_display], display names as header. *)
Definition render (spec : TemplateSpec) : Table :=
  {| header := (order_and_display spec).*2;
     rows := (λ row, (λ param_id, row !! param_id)
                       <$> (order_and_display spec).*1) <$> data spec |}.

Section write_bulk_specification.
Variable M : Mappings.
Variable validate_path : string → string → ValidatedPath.
Variable PathPy_of : string → PathPy.t.

(** [folder / name] of pathlib. *)
Variable path_join : PathPy.t → string → PathPy.t.

(** The file name for a data type in CSV or TSV, the name of the EXCEL
    workbook, and the reason given for a data type whose rows do not match
    its columns: [file_writers.py] is not among the sources. *)
Variable file_name : Writer → string → string.
Variable excel_file_name : string.
Variable mismatch_message : string → string.

(** Modelled from the spec: a writer of [file_writers.py] (section 4.5).
    The precondition is checked for every data type before any file is
    written, and its failure is an [ImportSpecWriteException] with a
    reason; then CSV and TSV write one file per data type, EXCEL one
    workbook with a sheet per data type. The result maps each data type to
    the name of its file. *)
Definition run_writer (writer : Writer) (folder : PathPy.t)
    (types : list (string * TemplateSpec)) (fs : FS)
  : (string + list (string * string)) * FS :=
  match check_types types with
  | Some datatype => (inl (mismatch_message datatype), fs)
  | None =>
      match writer with
      | write_excel =>
          let path := PathPy.str (path_join folder excel_file_name) in
          let book := (λ '(datatype, spec), (datatype, render spec)) <$> types in
          (inr (dict_of_items
                  ((λ '(datatype, _), (datatype, excel_file_name)) <$> types)),
           {| files := <[path := book]> (files fs); dirs := dirs fs |})
      | _ =>
          foldl (λ '(res, fs) '(datatype, spec),
                   let name := file_name writer datatype in
                   let path := PathPy.str (path_join folder name) in
                   (match res with
                    | inr created => inr (PyDict.set datatype name created)
                    | inl e => inl e
                    end,
                    {| files := <[path := [(datatype, render spec)]]> (files fs);
                       dirs := dirs fs |}))
                (inr [], fs) types
      end
  end.

(** The dictionary display [{CSV: write_csv, TSV: write_tsv, EXCEL:
    write_excel}]. *)
Definition _IMPSPEC_FILE_TO_WRITER : gmap string Writer :=
  <[EXCEL M := write_excel]> (<[TSV M := write_tsv]> (<[CSV M := write_csv]> ∅)).

(** [_IMPSPEC_FILE_TO_WRITER.get(type_)]: the outer [None] is the
    [TypeError] of a key that cannot be hashed. *)
Definition writer_get (type_ : JVal) : option (option Writer) :=
  match type_ with
  | JStr s => Some (_IMPSPEC_FILE_TO_WRITER !! s)
  | JNone | JScalar _ => Some None
  | JContainer _ => None
  end.

Definition _createJSONErrorResponse (error_text : string)
    (error_class : ErrorClass) : Response :=
  error_response error_class error_text.

(** The handler for the user that [authorize_request] returned. The
    response is [None] when an exception leaves the handler. *)
Definition write_bulk_specification (username : string) (request : Request)
    (fs : FS) : option Response * FS :=
  if decide (content_type request ≠ _APP_JSON) then
    (Some (_createJSONErrorResponse
             ("Required content-type is " +:+ _APP_JSON)
             HTTPUnsupportedMediaType), fs)
  else if decide (content_length request = None ∨
                  content_length request = Some 0) then
    (Some (_createJSONErrorResponse
             "The content-length header is required and must be > 0"
             HTTPLengthRequired), fs)
  else
    match json request with
    | None => (None, fs)
    | Some NotMapping =>
        (Some (_createJSONErrorResponse
                 "The top level JSON element must be a mapping"
                 HTTPBadRequest), fs)
    | Some (MappingBody folder type_ types) =>
        match folder with
        | JStr folder =>
            match writer_get type_ with
            | None => (None, fs)
            | Some None =>
                (Some (_createJSONErrorResponse
                         ("Invalid output_file_type: " +:+ py_str type_)
                         HTTPBadRequest), fs)
            | Some (Some writer) =>
                let folder := validate_path username folder in
                match os_makedirs (full_path folder) fs with
                | None => (None, fs)
                | Some fs =>
                    match run_writer writer (PathPy_of (full_path folder))
                                     types fs with
                    | (inl e, fs) =>
                        (Some (_createJSONErrorResponse e HTTPBadRequest), fs)
                    | (inr files, fs) =>
                        let new_files :=
                          dict_of_items
                            ((λ ty,
                                (ty, PathPy.str
                                       (path_join (PathPy_of (user_path folder))
                                          (default "" (PyDict.get ty files)))))
                             <$> PyDict.keys files) in
                        (Some (json_response (py_str type_) new_files), fs)
                    end
                end
            end
        | _ =>
            (Some (_createJSONErrorResponse
                     "output_directory is required and must be a string"
                     HTTPBadRequest), fs)
        end
    end.

(** Every format with a writer has a parser, and the other way round. *)
Lemma writers_and_parsers_same_formats :
  dom _IMPSPEC_FILE_TO_WRITER = dom (Resolver._IMPSPEC_FILE_TO_PARSER M).
Proof.
  unfold _IMPSPEC_FILE_TO_WRITER, Resolver._IMPSPEC_FILE_TO_PARSER.
  by rewrite !dom_insert_L, !dom_empty_L.
Qed.

Lemma check_types_invalid types datatype spec :
  (datatype, spec) ∈ types → ¬ spec_valid spec →
  ∃ datatype' spec',
    check_types types = Some datatype' ∧
    (datatype', spec') ∈ types ∧ ¬ spec_valid spec'.
Proof.
  induction types as [|[dt0 spec0] types IH]; simpl.
  - by intros ?%elem_of_nil.
  - intros Hin Hbad. case_decide as Hvalid.
    + apply elem_of_cons in Hin as [[= -> ->]|Hin]; [done|].
      destruct (IH Hin Hbad) as (dt' & spec' & Hcheck & Hin' & Hbad').
      exists dt', spec'. split_and!; [done|by right|done].
    + exists dt0, spec0. split_and!; [done|by left|done].
Qed.

Lemma check_types_valid types :
  check_types types = None ↔ Forall (λ item, spec_valid item.2) types.
Proof.
  induction types as [|[dt0 spec0] types IH]; simpl.
  - split; [by constructor|done].
  - case_decide as Hvalid.
    + rewrite IH. split; [by constructor|by intros [_ ?]%Forall_cons].
    + split; [done|]. by intros [? _]%Forall_cons.
Qed.

(** A spec that is not valid stops the writer before it writes. *)
Lemma run_writer_invalid writer folder types fs datatype :
  check_types types = Some datatype →
  run_writer writer folder types fs = (inl (mismatch_message datatype), fs).
Proof. intros Hcheck. unfold run_writer. by rewrite Hcheck. Qed.

Lemma os_makedirs_files path fs fs' :
  os_makedirs path fs = Some fs' → files fs' = files fs.
Proof. unfold os_makedirs. case_decide; [done|]. by intros [= <-]. Qed.

(** C7. For a request whose [types] has a data type with a row whose keys
    are not exactly the paramIds of [order_and_display]: no file of the
    staging area is created or changed and the response is never the
    success response; and when the request passes the checks of the
    handler and the output directory can be made, the response is a bad
    request whose error text is the reason the writer gives for a data
    type with such a row. *)
Theorem write_bulk_specification_mismatched_keys
    (username : string) (request : Request) (fs : FS)
    (folder type_ : JVal) (types : list (string * TemplateSpec))
    (datatype : string) (spec : TemplateSpec) (row : gmap string Value) :
  json request = Some (MappingBody folder type_ types) →
  (datatype, spec) ∈ types → row ∈ data spec → ¬ row_matches spec row →
  let out := write_bulk_specification username request fs in
  files out.2 = files fs ∧
  (∀ t created, out.1 ≠ Some (json_response t created)) ∧
  (∀ d writer fs1,
     content_type request = _APP_JSON →
     (∃ n, content_length request = Some (S n)) →
     folder = JStr d →
     writer_get type_ = Some (Some writer) →
     os_makedirs (full_path (validate_path username d)) fs = Some fs1 →
     ∃ datatype' spec',
       (datatype', spec') ∈ types ∧ ¬ spec_valid spec' ∧
       out.1 = Some (error_response HTTPBadRequest
                       (mismatch_message datatype'))).
Proof.
  intros Hjson Hin Hrow Hbad out.
  assert (¬ spec_valid spec) as Hspec.
  { intros Hvalid. apply Hbad. unfold spec_valid in Hvalid.
    rewrite Forall_forall in Hvalid. auto. }
  destruct (check_types_invalid types datatype spec Hin Hspec)
    as (dt' & spec' & Hcheck & Hin' & Hbad').
  subst out. unfold write_bulk_specification. rewrite Hjson.
  split_and!.
  - repeat case_decide; simpl; try done.
    destruct folder as [|d| |]; simpl; try done.
    destruct (writer_get type_) as [[writer|]|]; simpl; try done.
    destruct (os_makedirs _ fs) as [fs1|] eqn:Hmk; simpl; [|done].
    rewrite (run_writer_invalid _ _ _ _ _ Hcheck). simpl.
    by eapply os_makedirs_files.
  - intros t created. repeat case_decide; simpl; try done.
    destruct folder as [|d| |]; simpl; try done.
    destruct (writer_get type_) as [[writer|]|]; simpl; try done.
    destruct (os_makedirs _ fs) as [fs1|] eqn:Hmk; simpl; [|done].
    by rewrite (run_writer_invalid _ _ _ _ _ Hcheck).
  - intros d writer fs1 Hct [n Hlen] -> Hw Hmk.
    exists dt', spec'. split_and!; [done..|].
    rewrite decide_False by (by intros ?).
    rewrite decide_False by (rewrite Hlen; by intros [?|?]).
    rewrite Hw, Hmk, (run_writer_invalid _ _ _ _ _ Hcheck). done.
Qed.

End write_bulk_specification.

(** *** A request with one good and one bad data type *)

Definition example_path_join (folder : PathPy.t) (name : string) : PathPy.t :=
  PathPy.Path (PathPy.str folder +:+ "/" +:+ name).

Definition example_file_name (writer : Writer) (datatype : string) : string :=
  datatype +:+ match writer with
               | write_csv => ".csv"
               | write_tsv => ".tsv"
               | write_excel => ".xlsx"
               end.

Definition example_mismatch_message (datatype : string) : string :=
  "Data type " +:+ datatype +:+ " has a row whose keys are not the columns".

Definition example_write_bulk_specification :=
  write_bulk_specification GenerateMappings.example_mappings
    example_validate_path PathPy.Path example_path_join example_file_name
    "import_specification.xlsx" example_mismatch_message.

Definition good_spec : TemplateSpec :=
  {| order_and_display := [("id", "ID"); ("name", "Name")];
     data := [ {[ "id" := VNum 1; "name" := VStr "first" ]} ] |}.

Definition bad_spec : TemplateSpec :=
  {| order_and_display := [("id", "ID"); ("name", "Name")];
     data := [ {[ "id" := VNum 1; "name" := VStr "first" ]};
               {[ "id" := VNum 2 ]} ] |}.

Definition example_request (types : list (string * TemplateSpec)) : Request :=
  {| content_type := "application/json";
     content_length := Some 100;
     json := Some (MappingBody (JStr "templates") (JStr "CSV") types) |}.

Definition empty_fs : FS := {| files := ∅; dirs := ∅ |}.

Example write_good_specs :
  example_write_bulk_specification "user"
    (example_request [("genomes", good_spec)]) empty_fs
  = (Some (json_response "CSV" [("genomes", "user/templates/genomes.csv")]),
     {| files := {[ "/data/bulk/user/templates/genomes.csv" :=
                      [("genomes",
                        {| header := ["ID"; "Name"];
                           rows := [[Some (VNum 1);
                                     Some (VStr "first")]] |})] ]};
        dirs := {[ "/data/bulk/user/templates" ]} |}).
Proof. vm_compute. reflexivity. Qed.

Example write_header_only :
  render {| order_and_display := [("id", "ID"); ("name", "Name")];
            data := [] |}
  = {| header := ["ID"; "Name"]; rows := [] |}.
Proof. reflexivity. Qed.

Example write_bad_spec :
  example_write_bulk_specification "user"
    (example_request [("genomes", good_spec); ("reads", bad_spec)]) empty_fs
  = (Some (error_response HTTPBadRequest
             "Data type reads has a row whose keys are not the columns"),
     {| files := ∅; dirs := {[ "/data/bulk/user/templates" ]} |}).
Proof. vm_compute. reflexivity. Qed.

(** The request with the good and the bad data type meets the hypotheses
    of C7: nothing is written, not even the template of the good one. *)
Lemma write_bulk_specification_mismatched_keys_witness :
  files (example_write_bulk_specification "user"
           (example_request [("genomes", good_spec); ("reads", bad_spec)])
           empty_fs).2 = ∅ ∧
  ∀ t created,
    (example_write_bulk_specification "user"
       (example_request [("genomes", good_spec); ("reads", bad_spec)])
       empty_fs).1 ≠ Some (json_response t created).
Proof.
  destruct (write_bulk_specification_mismatched_keys
              GenerateMappings.example_mappings example_validate_path
              PathPy.Path example_path_join example_file_name
              "import_specification.xlsx" example_mismatch_message
              "user"
              (example_request [("genomes", good_spec); ("reads", bad_spec)])
              empty_fs (JStr "templates") (JStr "CSV")
              [("genomes", good_spec); ("reads", bad_spec)]
              "reads" bad_spec {[ "id" := VNum 2 ]})
    as (Hfiles & Hnever & _).
  - reflexivity.
  - right. left.
  - right. left.
  - unfold row_matches. apply (bool_decide_unpack _). vm_compute. exact I.
  - split; [exact Hfiles|exact Hnever].
Defined.
End WriteBulkSpecification.

(** * Further properties of the code *)

(** A loop whose body raises at [x], whatever the state, raises. *)
Lemma for_each_None {A S} (f : S → A → option S) l x s :
  x ∈ l → (∀ s, f s x = None) → for_each f l s = None.
Proof.
  intros Hx Hnone. revert s.
  induction l as [|y l IH]; intros s; simpl; [by apply elem_of_nil in Hx|].
  apply elem_of_cons in Hx as [->|Hx]; [by rewrite Hnone|].
  destruct (f s y); simpl; auto.
Qed.

(** ** [autodetect/GenerateMappings.py]: what the mapping holds, and when
    it cannot be built *)
Module GenerateMappingsFacts.
Import GenerateMappings.

Section facts.
Variable M : Mappings.

Lemma NoDup_keys_foldl_set {K V} `{EqDecision K} (l d : list (K * V)) :
  NoDup (PyDict.keys d) →
  NoDup (PyDict.keys (foldl (λ d '(k, v), PyDict.set k v d) d l)).
Proof.
  revert d. induction l as [|[k v] l IH]; intros d Hd; simpl; [done|].
  by apply IH, PyDict.NoDup_keys_set.
Qed.

Lemma elem_of_keys_foldl_set {K V} `{EqDecision K} (l d : list (K * V)) k :
  k ∈ PyDict.keys d ∨ k ∈ l.*1 →
  k ∈ PyDict.keys (foldl (λ d '(k, v), PyDict.set k v d) d l).
Proof.
  revert d. induction l as [|[k' v'] l IH]; intros d; csimpl.
  - intros [?|?%elem_of_nil]; done.
  - intros Hk. apply IH. rewrite PyDict.keys_set.
    destruct Hk as [Hk|[->|Hk]%elem_of_cons].
    + left. case_decide; [done|]. apply elem_of_app. by left.
    + left. case_decide; [done|]. apply elem_of_app. right. by left.
    + by right.
Qed.

Lemma NoDup_keys_file_format_to_app_mapping :
  NoDup (PyDict.keys (file_format_to_app_mapping M)).
Proof. apply NoDup_keys_foldl_set. constructor. Qed.

(** Every file format has at least one app. *)
Lemma file_format_to_app_mapping_apps filecat apps :
  (filecat, apps) ∈ file_format_to_app_mapping M → apps ≠ [].
Proof.
  intros Hin%file_format_to_app_mapping_assigned.
  unfold file_format_to_app_assignments in Hin.
  repeat (apply elem_of_cons in Hin as [[= _ ->]|Hin]; [done|]).
  by apply elem_of_nil in Hin.
Qed.

(** What is under an app comes from a file format of that app. *)
Lemma app_id_to_extensions_sound d a e :
  app_id_to_extensions M = Some d → DefaultDict.holds d a e →
  ∃ filecat apps exts,
    (filecat, apps) ∈ file_format_to_app_mapping M ∧ a ∈ apps ∧
    file_format_to_extension_mapping M !! filecat = Some exts ∧ e ∈ exts.
Proof.
  intros Hd. revert a e. unfold app_id_to_extensions in Hd.
  set (P := λ d : list (string * list string), ∀ a e,
    DefaultDict.holds d a e → ∃ filecat apps exts,
      (filecat, apps) ∈ file_format_to_app_mapping M ∧ a ∈ apps ∧
      file_format_to_extension_mapping M !! filecat = Some exts ∧ e ∈ exts).
  revert Hd. apply (for_each_inv P).
  - intros s [fc aps] s' Hitem Hs. apply (for_each_inv P); [|done].
    intros s0 app_id s0' Happ Hs0.
    destruct (file_format_to_extension_mapping M !! fc) as [exts|] eqn:Hfc;
      [|done].
    intros [= <-] a e [?|[-> ?]]%DefaultDict.holds_extend_inv; [eauto|].
    exists fc, aps, exts. done.
  - intros a e (l & Hl & _). done.
Qed.

(** Every entry was appended for an extension of its app. *)
Lemma extensions_mapping_sound d em e x :
  app_id_to_extensions M = Some d → extensions_mapping M = Some em →
  DefaultDict.holds em e x →
  ∃ ft, DefaultDict.holds d (id x) e ∧
        extension_to_file_format_mapping M !! e = Some ft ∧
        x = {| id := id x; app_weight := 1; file_type := [ft] |}.
Proof.
  intros Hd Hem. unfold extensions_mapping in Hem. rewrite Hd in Hem.
  simpl in Hem. revert e x.
  set (P := λ em : list (string * list Entry), ∀ e x,
    DefaultDict.holds em e x →
    ∃ ft, DefaultDict.holds d (id x) e ∧
          extension_to_file_format_mapping M !! e = Some ft ∧
          x = {| id := id x; app_weight := 1; file_type := [ft] |}).
  revert Hem. apply (for_each_inv P).
  - intros s app_id s' Happ Hs. apply (for_each_inv P); [|done].
    intros s0 extension s0' Hext Hs0.
    destruct (extension_to_file_format_mapping M !! extension) as [ft|]
      eqn:Hft; [|done].
    intros [= <-] e x
      [?|[-> ->%list_elem_of_singleton]]%DefaultDict.holds_extend_inv;
      [eauto|].
    exists ft. split_and!; [|done..]. simpl.
    apply PyDict.get_is_Some in Happ as [l Hl].
    unfold PyDict.get_default in Hext. rewrite Hl in Hext.
    by exists l.
  - intros e x (l & Hl & _). done.
Qed.

Lemma extensions_mapping_NoDup_keys em :
  extensions_mapping M = Some em → NoDup (PyDict.keys em).
Proof.
  unfold extensions_mapping.
  destruct (app_id_to_extensions M) as [d|]; simpl; [|done].
  set (P := λ em : list (string * list Entry), NoDup (PyDict.keys em)).
  apply (for_each_inv P); [|constructor].
  intros s app_id s' _ Hs. apply (for_each_inv P); [|done].
  intros s0 extension s0' _ Hs0.
  destruct (extension_to_file_format_mapping M !! extension); [|done].
  intros [= <-]. by apply PyDict.NoDup_keys_set.
Qed.

Lemma extensions_mapping_nonempty_lists em e entries :
  extensions_mapping M = Some em → PyDict.get e em = Some entries →
  entries ≠ [].
Proof.
  unfold extensions_mapping.
  destruct (app_id_to_extensions M) as [d|]; simpl; [|done].
  intros Hem. revert e entries.
  set (P := λ em : list (string * list Entry), ∀ e entries,
    PyDict.get e em = Some entries → entries ≠ []).
  revert Hem. apply (for_each_inv P); [|done].
  intros s app_id s' _ Hs. apply (for_each_inv P); [|done].
  intros s0 extension s0' _ Hs0.
  destruct (extension_to_file_format_mapping M !! extension); [|done].
  intros [= <-] e entries. unfold DefaultDict.append, DefaultDict.extend.
  rewrite PyDict.get_set. case_decide; [|by apply Hs0].
  intros [= <-]. by intros [_ ?]%app_eq_nil.
Qed.

(** X1. In a mapping that was built, every entry under an extension names
    an app of a file format that has the extension, carries the file
    format recorded for the extension, and has weight 1: no app is listed
    for an extension it does not accept. *)
Theorem extensions_mapping_only_accepting_apps
    (em : list (string * list Entry)) (e : string) (entries : list Entry)
    (x : Entry) :
  extensions_mapping M = Some em →
  PyDict.get e em = Some entries → x ∈ entries →
  ∃ filecat apps exts ft,
    PyDict.get filecat (file_format_to_app_mapping M) = Some apps ∧
    id x ∈ apps ∧
    file_format_to_extension_mapping M !! filecat = Some exts ∧ e ∈ exts ∧
    extension_to_file_format_mapping M !! e = Some ft ∧
    file_type x = [ft] ∧ app_weight x = 1%Z.
Proof.
  intros Hem Hget Hx.
  destruct (app_id_to_extensions M) as [d|] eqn:Hd.
  2:{ unfold extensions_mapping in Hem. by rewrite Hd in Hem. }
  destruct (extensions_mapping_sound d em e x Hd Hem) as (ft & Hholds & Hft & Hxeq);
    [by exists entries|].
  destruct (app_id_to_extensions_sound d (id x) e Hd Hholds)
    as (filecat & apps & exts & Hitem & Happ & Hexts & He).
  exists filecat, apps, exts, ft. split_and!; try done.
  - apply PyDict.elem_of_NoDup_get; [|done].
    apply NoDup_keys_file_format_to_app_mapping.
  - by rewrite Hxeq.
  - by rewrite Hxeq.
Qed.

(** X2. The mapping cannot be built when a file format that is assigned
    apps has no entry in [file_format_to_extension_mapping], or when one
    of its extensions has no entry in [extension_to_file_format_mapping]:
    the [KeyError] ends the module. *)
Theorem extensions_mapping_missing_key (filecat : string) :
  filecat ∈ (file_format_to_app_assignments M).*1 →
  file_format_to_extension_mapping M !! filecat = None ∨
  (∃ exts e,
     file_format_to_extension_mapping M !! filecat = Some exts ∧ e ∈ exts ∧
     extension_to_file_format_mapping M !! e = None) →
  extensions_mapping M = None.
Proof.
  intros Hassigned Hmissing.
  assert (∃ a apps, (filecat, a :: apps) ∈ file_format_to_app_mapping M)
    as (a & apps & Hitem).
  { assert (filecat ∈ PyDict.keys (file_format_to_app_mapping M)) as Hkey.
    { apply elem_of_keys_foldl_set. by right. }
    apply PyDict.get_is_Some in Hkey as [apps Hget].
    apply PyDict.get_Some_elem_of in Hget.
    pose proof (file_format_to_app_mapping_apps _ _ Hget) as Hne.
    destruct apps as [|a apps]; [done|]. eauto. }
  destruct Hmissing as [Hnone|(exts & e & Hexts & He & Hnone)].
  - unfold extensions_mapping.
    assert (app_id_to_extensions M = None) as ->; [|done].
    apply (for_each_None _ _ (filecat, a :: apps)); [done|].
    intros d. simpl. by rewrite Hnone.
  - unfold extensions_mapping.
    destruct (app_id_to_extensions M) as [d|] eqn:Hd; simpl; [|done].
    destruct (app_id_to_extensions_holds M d filecat (a :: apps) exts a e)
      as (l & Hl & Hin); [done|done|by left|done|done|].
    apply (for_each_None _ _ a); [apply PyDict.get_is_Some; eauto|].
    intros em. unfold PyDict.get_default. rewrite Hl. simpl.
    apply (for_each_None _ _ e); [done|].
    intros em'. by rewrite Hnone.
Qed.

(** X3. In a mapping that was built each extension is a key once, and the
    list under a key is never empty. *)
Theorem extensions_mapping_keys (em : list (string * list Entry)) :
  extensions_mapping M = Some em →
  NoDup (PyDict.keys em) ∧
  ∀ e entries, PyDict.get e em = Some entries → entries ≠ [].
Proof.
  intros Hem. split; [by apply extensions_mapping_NoDup_keys|].
  intros e entries. by apply extensions_mapping_nonempty_lists.
Qed.

End facts.

(** [example_mappings] without the extensions of SBML. *)
Definition example_mappings_no_sbml : Mappings := {|
  SRA := "SRA"; FASTQ := "FASTQ"; FASTA := "FASTA"; GENBANK := "GENBANK";
  GFF := "GFF"; ZIP := "CompressedFileFormatArchive"; CSV := "CSV";
  TSV := "TSV"; EXCEL := "EXCEL"; JSON := "JSON"; SBML := "SBML";
  sra_reads_id := "sra_reads";
  fastq_reads_interleaved_id := "fastq_reads_interleaved";
  fastq_reads_noninterleaved_id := "fastq_reads_noninterleaved";
  assembly_id := "assembly";
  gff_genome_id := "gff_genome";
  gff_metagenome_id := "gff_metagenome";
  genbank_genome_id := "genbank_genome";
  decompress_id := "decompress";
  sample_set_id := "sample_set";
  media_id := "media";
  expression_matrix_id := "expression_matrix";
  metabolic_annotations_id := "metabolic_annotations";
  metabolic_annotations_bulk_id := "metabolic_annotations_bulk";
  fba_model_id := "fba_model";
  phenotype_set_id := "phenotype_set";
  escher_map_id := "escher_map";
  file_format_to_extension_mapping :=
    delete "SBML" (file_format_to_extension_mapping example_mappings);
  extension_to_file_format_mapping :=
    extension_to_file_format_mapping example_mappings;
|}.

Lemma example_extensions_mapping :
  ∃ em, extensions_mapping example_mappings = Some em.
Proof. vm_compute. eexists. reflexivity. Defined.

Lemma extensions_mapping_only_accepting_apps_witness :
  ∃ em filecat apps,
    extensions_mapping example_mappings = Some em ∧
    PyDict.get filecat (file_format_to_app_mapping example_mappings)
    = Some apps ∧
    "fba_model" ∈ apps ∧
    extension_to_file_format_mapping example_mappings !! "xml" = Some "SBML".
Proof.
  destruct example_extensions_mapping as [em Hem].
  destruct (extensions_mapping_only_accepting_apps example_mappings em "xml"
              [ {| id := "fba_model"; app_weight := 1;
                   file_type := ["SBML"] |} ]
              {| id := "fba_model"; app_weight := 1; file_type := ["SBML"] |}
              Hem)
    as (filecat & apps & exts & ft & Hget & Happ & _).
  - vm_compute in Hem. injection Hem as <-. reflexivity.
  - left.
  - exists em, filecat, apps. split; [exact Hem|]. split; [exact Hget|].
    split; [exact Happ|reflexivity].
Defined.

Lemma extensions_mapping_missing_key_witness :
  extensions_mapping example_mappings_no_sbml = None.
Proof.
  apply (extensions_mapping_missing_key example_mappings_no_sbml "SBML").
  - apply (bool_decide_unpack _). vm_compute. exact I.
  - left. reflexivity.
Defined.

Lemma extensions_mapping_keys_witness :
  ∃ em, extensions_mapping example_mappings = Some em ∧
        NoDup (PyDict.keys em).
Proof.
  destruct example_extensions_mapping as [em Hem].
  exists em. split; [exact Hem|].
  exact (proj1 (extensions_mapping_keys example_mappings em Hem)).
Defined.

End GenerateMappingsFacts.

(** ** [inject_config_dependencies]: malformed records, keys and the order
    of the configuration *)
Module TypeMappingsFacts.
Import TypeMappings.

(** No key of a [defaultdict(set)] built by [add] has an empty set. *)
Definition sets_nonempty (d : list (string * gset string)) : Prop :=
  ∀ k s, PyDict.get k d = Some s → s ≠ ∅.

Lemma set_add_sets_nonempty k x d :
  sets_nonempty d → sets_nonempty (set_add k x d).
Proof.
  intros Hd k' s. unfold set_add. rewrite PyDict.get_set.
  case_decide; [|by apply Hd].
  intros [= <-] Hempty.
  assert (x ∈ (∅ : gset string)) as Hx; [|by apply not_elem_of_empty in Hx].
  rewrite <- Hempty. apply elem_of_union. right. by apply elem_of_singleton.
Qed.

Lemma foldl_set_add_sets_nonempty (ms : list Mapping) t d :
  sets_nonempty d →
  sets_nonempty (foldl (λ d m, set_add (id m) t d) d ms).
Proof.
  revert d. induction ms as [|m ms IH]; intros d Hd; simpl; [done|].
  by apply IH, set_add_sets_nonempty.
Qed.

Lemma for_each_inject_step_sets_nonempty types st :
  for_each inject_step types ([], []) = Some st →
  sets_nonempty st.1 ∧ sets_nonempty st.2.
Proof.
  apply (for_each_inv (λ st, sets_nonempty st.1 ∧ sets_nonempty st.2)).
  - intros [dts exts] [e val] st' _ [H1 H2]. unfold inject_step.
    destruct (head (file_ext_type val)) as [t|]; simpl; [|done].
    intros [= <-]. simpl in *. split.
    + by apply foldl_set_add_sets_nonempty.
    + by apply set_add_sets_nonempty.
  - split; by intros ???.
Qed.

Lemma sorted_nonempty s : s ≠ ∅ → sorted s ≠ [].
Proof.
  intros [x Hx]%set_choose_L Hnil.
  apply elem_of_sorted in Hx. rewrite Hnil in Hx. by apply elem_of_nil in Hx.
Qed.

Lemma datatype_mappings_None types e val :
  (e, val) ∈ types → file_ext_type val = [] → datatype_mappings types = None.
Proof.
  intros Hin Hempty. unfold datatype_mappings.
  rewrite (for_each_None inject_step types (e, val)); [done..|].
  intros [dts exts]. unfold inject_step. by rewrite Hempty.
Qed.

Lemma datatype_mappings_Some_well_formed types dm :
  datatype_mappings types = Some dm →
  Forall (λ item, file_ext_type item.2 ≠ []) types.
Proof.
  intros Hdm. apply Forall_forall. intros [e val] Hin Hempty. simpl in *.
  by rewrite (datatype_mappings_None types e val) in Hdm.
Qed.

(** The tables, once built, in terms of the two dictionaries. *)
Lemma datatype_mappings_Some types dm :
  datatype_mappings types = Some dm →
  ∃ st, tables_of types st ∧ sets_nonempty st.1 ∧ sets_nonempty st.2 ∧
        dm = {| datatype_to_filetype := sorted_values st.1;
                filetype_to_extensions := sorted_values st.2 |}.
Proof.
  intros Hdm.
  destruct (datatype_mappings_is_Some types
              (datatype_mappings_Some_well_formed _ _ Hdm))
    as (st & Hst & Htables & Heq).
  destruct (for_each_inject_step_sets_nonempty types st Hst) as [H1 H2].
  exists st. split_and!; [done..|]. rewrite Hdm in Heq. by injection Heq.
Qed.

(** Two dictionaries that hold the same elements have the same sorted
    lists under every key. *)
Lemma sorted_values_same_holds d d' k :
  NoDup (PyDict.keys d) → NoDup (PyDict.keys d') →
  sets_nonempty d → sets_nonempty d' →
  (∀ k x, holds d k x ↔ holds d' k x) →
  PyDict.get k (sorted_values d) = PyDict.get k (sorted_values d').
Proof.
  intros Hnd Hnd' Hne Hne' Hsame.
  rewrite !get_sorted_values by done.
  assert (∀ d1 d2 s, sets_nonempty d1 → (∀ k x, holds d1 k x ↔ holds d2 k x) →
            PyDict.get k d1 = Some s →
            ∃ s', PyDict.get k d2 = Some s' ∧ ∀ x, x ∈ s → x ∈ s') as Hone.
  { intros d1 d2 s Hne1 H12 Hs.
    destruct (set_choose_L s (Hne1 _ _ Hs)) as [x Hx].
    destruct (proj1 (H12 k x)) as (s' & Hs' & _); [by exists s|].
    exists s'. split; [done|]. intros y Hy.
    destruct (proj1 (H12 k y)) as (s'' & Hs'' & Hy'); [by exists s|].
    by simplify_eq. }
  destruct (PyDict.get k d) as [s|] eqn:Hs,
           (PyDict.get k d') as [s'|] eqn:Hs'; simpl.
  - f_equal. f_equal. apply set_eq. intros x. split.
    + intros Hx.
      destruct (Hone d d' s Hne Hsame Hs) as (s1 & Hs1 & Hsub).
      rewrite Hs' in Hs1. injection Hs1 as <-. auto.
    + intros Hx.
      destruct (Hone d' d s' Hne' (λ k x, symmetry (Hsame k x)) Hs')
        as (s1 & Hs1 & Hsub).
      rewrite Hs in Hs1. injection Hs1 as <-. auto.
  - destruct (Hone d d' s Hne Hsame Hs) as (s1 & Hs1 & _). by simplify_eq.
  - destruct (Hone d' d s' Hne' (λ k x, symmetry (Hsame k x)) Hs')
      as (s1 & Hs1 & _). by simplify_eq.
  - done.
Qed.

Lemma accepts_Permutation types types' a t :
  types ≡ₚ types' → accepts types a t → accepts types' a t.
Proof.
  intros Hperm (e & val & m & Hin & H). exists e, val, m.
  split; [by rewrite <- Hperm|done].
Qed.

Lemma has_type_Permutation types types' e t :
  types ≡ₚ types' → has_type types e t → has_type types' e t.
Proof.
  intros Hperm (val & Hin & H). exists val.
  split; [by rewrite <- Hperm|done].
Qed.


(** X5. In the tables that were built, every app and every file type is a
    key once, and no list is empty. *)
Theorem datatype_mappings_keys
    (types : list (string * ExtensionRecord)) (dm : DatatypeMappings) :
  datatype_mappings types = Some dm →
  NoDup (PyDict.keys (datatype_to_filetype dm)) ∧
  NoDup (PyDict.keys (filetype_to_extensions dm)) ∧
  (∀ a filetypes,
     PyDict.get a (datatype_to_filetype dm) = Some filetypes →
     filetypes ≠ []) ∧
  (∀ t extensions,
     PyDict.get t (filetype_to_extensions dm) = Some extensions →
     extensions ≠ []).
Proof.
  intros (st & (Hnd1 & Hnd2 & _) & Hne1 & Hne2 & ->)%datatype_mappings_Some.
  assert (∀ d, NoDup (PyDict.keys d) → NoDup (PyDict.keys (sorted_values d)))
    as Hkeys.
  { intros d Hd. unfold sorted_values.
    rewrite BulkSpecification.dict_of_items_NoDup;
      unfold PyDict.keys; rewrite <- list_fmap_compose, list_fmap_id; done. }
  assert (∀ d k l, NoDup (PyDict.keys d) → sets_nonempty d →
            PyDict.get k (sorted_values d) = Some l → l ≠ []) as Hlists.
  { intros d k l Hd Hne. rewrite get_sorted_values by done.
    destruct (PyDict.get k d) as [s|] eqn:Hs; simpl; [|done].
    intros [= <-]. eapply sorted_nonempty, Hne, Hs. }
  simpl. split_and!; eauto.
Qed.

(** X6. The order of the records in the configuration does not matter for
    what the tables hold: the same records in another order give, under
    every key, the same list. *)
Theorem datatype_mappings_Permutation
    (types types' : list (string * ExtensionRecord)) (dm : DatatypeMappings) :
  types ≡ₚ types' → datatype_mappings types = Some dm →
  ∃ dm', datatype_mappings types' = Some dm' ∧
    ∀ k,
      PyDict.get k (datatype_to_filetype dm')
      = PyDict.get k (datatype_to_filetype dm) ∧
      PyDict.get k (filetype_to_extensions dm')
      = PyDict.get k (filetype_to_extensions dm).
Proof.
  intros Hperm Hdm.
  assert (Forall (λ item, file_ext_type item.2 ≠ []) types') as Hwf'.
  { rewrite <- Hperm. by eapply datatype_mappings_Some_well_formed. }
  destruct (datatype_mappings_is_Some types' Hwf') as (st0 & _ & _ & Hdm').
  apply datatype_mappings_Some in Hdm
    as (st & (Hnd1 & Hnd2 & Hdt & Hext) & Hne1 & Hne2 & ->).
  destruct (datatype_mappings_Some _ _ Hdm')
    as (st' & (Hnd1' & Hnd2' & Hdt' & Hext') & Hne1' & Hne2' & Heq).
  eexists. split; [exact Hdm'|]. rewrite Heq. simpl.
  intros k. split.
  - apply sorted_values_same_holds; [done..|].
    intros a t. rewrite Hdt, Hdt'.
    split; apply accepts_Permutation; [done|by symmetry].
  - apply sorted_values_same_holds; [done..|].
    intros t e. rewrite Hext, Hext'.
    split; apply has_type_Permutation; [done|by symmetry].
Qed.


Lemma example_datatype_mappings :
  ∃ dm, datatype_mappings example_types = Some dm.
Proof. vm_compute. eexists. reflexivity. Defined.

Lemma datatype_mappings_keys_witness :
  ∃ dm, datatype_mappings example_types = Some dm ∧
        NoDup (PyDict.keys (datatype_to_filetype dm)).
Proof.
  destruct example_datatype_mappings as [dm Hdm].
  exists dm. split; [exact Hdm|].
  exact (proj1 (datatype_mappings_keys example_types dm Hdm)).
Defined.

Lemma datatype_mappings_Permutation_witness :
  ∃ dm dm',
    datatype_mappings example_types = Some dm ∧
    datatype_mappings (reverse example_types) = Some dm' ∧
    PyDict.get "gff_genome" (datatype_to_filetype dm')
    = PyDict.get "gff_genome" (datatype_to_filetype dm).
Proof.
  destruct example_datatype_mappings as [dm Hdm].
  destruct (datatype_mappings_Permutation example_types
              (reverse example_types) dm) as (dm' & Hdm' & Hsame).
  - symmetry. apply reverse_Permutation.
  - exact Hdm.
  - exists dm, dm'. split; [exact Hdm|]. split; [exact Hdm'|].
    exact (proj1 (Hsame "gff_genome")).
Defined.

End TypeMappingsFacts.

(** ** [bulk_specification]: the list of files, the paths and the
    response *)
Module BulkSpecificationFacts.
Import Resolver BulkSpecification.

Definition no_comma (s : string) : Prop :=
  PyStr.all (λ c, bool_decide (c ≠ ","%char)) s = true.

(** A name as [normalize_files] leaves it. *)
Definition clean (f : string) : Prop :=
  f ≠ "" ∧ PyStr.trimmed f ∧ no_comma f.

Lemma split_no_sep_id sep s :
  PyStr.all (λ c, bool_decide (c ≠ sep)) s = true → PyStr.split sep s = [s].
Proof.
  induction s as [|c s IH]; simpl; [done|].
  intros [Hc%bool_decide_eq_true Hs]%andb_true_iff.
  rewrite decide_False by done. by rewrite IH.
Qed.

Lemma split_app_sep sep s t :
  PyStr.all (λ c, bool_decide (c ≠ sep)) s = true →
  PyStr.split sep (s +:+ String sep t) = s :: PyStr.split sep t.
Proof.
  induction s as [|c s IH].
  - intros _. rewrite PyStr.append_nil. simpl. by rewrite decide_True.
  - intros Hall. rewrite PyStr.append_cons.
    simpl in Hall. apply andb_true_iff in Hall as [Hc%bool_decide_eq_true Hs].
    cbn [PyStr.split]. rewrite decide_False by done. by rewrite IH.
Qed.

(** Joining and splitting again gives the list back. *)
Lemma split_join sep l :
  l ≠ [] → Forall (λ s, PyStr.all (λ c, bool_decide (c ≠ sep)) s = true) l →
  PyStr.split sep (PyStr.join sep l) = l.
Proof.
  induction l as [|s l IH]; [done|].
  intros _ [Hs Hl]%Forall_cons.
  destruct l as [|s' l].
  - simpl. by apply split_no_sep_id.
  - rewrite PyStr.join_cons by done. rewrite split_app_sep by done.
    by rewrite IH.
Qed.

Lemma lstrip_id s :
  (∀ c, PyStr.first s = Some c → PyStr.isspace c = false) → PyStr.lstrip s = s.
Proof. destruct s as [|c s]; simpl; [done|]. intros H. by rewrite H. Qed.

Lemma rstrip_id s :
  (∀ c, PyStr.last s = Some c → PyStr.isspace c = false) → PyStr.rstrip s = s.
Proof.
  induction s as [|c s IH]; simpl; [done|].
  destruct s as [|c' s].
  - intros H. simpl. by rewrite H.
  - intros H. rewrite IH by done. done.
Qed.

Lemma strip_trimmed_id s : PyStr.trimmed s → PyStr.strip s = s.
Proof.
  intros [Hfirst Hlast]. unfold PyStr.strip.
  rewrite rstrip_id by done. by apply lstrip_id.
Qed.

Lemma normalize_files_clean l :
  Forall clean l →
  PyStr.strip <$> filter (λ f, PyStr.truthy (PyStr.strip f)) l = l.
Proof.
  induction 1 as [|f l (Hne & Htrim & _) _ IH]; [done|].
  rewrite filter_cons, (strip_trimmed_id f) by done.
  rewrite decide_True by by destruct f.
  csimpl. by rewrite IH, strip_trimmed_id.
Qed.

(** X7. A list of names that are not empty, have no comma and no
    whitespace at either end is read back from its comma separated form:
    only the first [files] value counts, and normalising the joined names
    gives the names. *)
Theorem normalize_files_join (l rest : list string) :
  Forall clean l → normalize_files (PyStr.join "," l :: rest) = l.
Proof.
  intros Hl. unfold normalize_files.
  destruct l as [|f l]; [done|].
  rewrite split_join; [by apply normalize_files_clean|done|].
  eapply Forall_impl; [exact Hl|]. by intros s (_ & _ & ?).
Qed.

Lemma normalize_files_join_witness :
  normalize_files [PyStr.join "," ["a.csv"; "dir/b c.tsv"]; "other.csv"]
  = ["a.csv"; "dir/b c.tsv"].
Proof.
  apply (normalize_files_join ["a.csv"; "dir/b c.tsv"] ["other.csv"]).
  repeat constructor; try discriminate; intros c [= <-]; reflexivity.
Defined.

(** *** The severity only grows with the errors *)

Definition rank (cls : HTTPError) : nat :=
  match cls with
  | HTTPInternalServerError => 0
  | HTTPNotFound => 1
  | HTTPBadRequest => 2
  end.

(** X9. More kinds of error never lower the class of the response:
    internal server error is below not found, which is below bad
    request. *)
Theorem severity_monotone (errtypes errtypes' : gset ErrorType) :
  errtypes ⊆ errtypes' →
  rank (severity errtypes) ≤ rank (severity errtypes').
Proof.
  intros Hsub.
  assert (∀ X : gset ErrorType,
            errtypes ∖ X ≠ ∅ → errtypes' ∖ X ≠ ∅) as Hdiff.
  { intros X [k Hk]%set_choose_L Hempty.
    apply elem_of_difference in Hk as [Hk HX].
    assert (k ∈ errtypes' ∖ X) as Hin
      by (apply elem_of_difference; split; [by apply Hsub|done]).
    rewrite Hempty in Hin. by apply not_elem_of_empty in Hin. }
  unfold severity. repeat case_decide; simpl; try lia.
  all: exfalso;
    match goal with
    | H : _ ∖ ?X = ∅, H1 : _ ∖ ?X ≠ ∅ |- _ => exact (Hdiff X H1 H)
    end.
Qed.

Lemma severity_monotone_witness :
  rank (severity {[FILE_NOT_FOUND]})
  ≤ rank (severity {[FILE_NOT_FOUND; PARSE_FAIL]}).
Proof.
  apply severity_monotone.
  intros k Hk. apply elem_of_union. by left.
Defined.

Section paths.
Variable validate_path : string → string → ValidatedPath.
Variable PathPy_of : string → PathPy.t.

Definition full_path_of (username f : string) : PathPy.t :=
  PathPy_of (full_path (validate_path username f)).

Definition user_path_of (username f : string) : PathPy.t :=
  PathPy_of (user_path (validate_path username f)).

Lemma build_paths_snoc username files f :
  build_paths validate_path PathPy_of username (files ++ [f])
  = PyDict.set (full_path_of username f) (user_path_of username f)
      (build_paths validate_path PathPy_of username files).
Proof. unfold build_paths. by rewrite foldl_app. Qed.

(** X8. The paths that are parsed are the full paths of the files of the
    request, each one once however often it is named, and each is shown
    under the user path of a file of the request with that full path. *)
Theorem build_paths_keys (username : string) (files : list string) :
  let paths := build_paths validate_path PathPy_of username files in
  NoDup (PyDict.keys paths) ∧
  (∀ p, p ∈ PyDict.keys paths ↔
        ∃ f, f ∈ files ∧ p = full_path_of username f) ∧
  (∀ p up, PyDict.get p paths = Some up →
           ∃ f, f ∈ files ∧ p = full_path_of username f ∧
                up = user_path_of username f).
Proof.
  induction files as [|f files (Hnd & Hkeys & Hget)] using rev_ind.
  - simpl. split_and!; [constructor| |done].
    intros p. split; [by intros ?%elem_of_nil|].
    by intros (? & ?%elem_of_nil & _).
  - rewrite build_paths_snoc. cbv zeta in *.
    set (paths := build_paths validate_path PathPy_of username files) in *.
    split_and!.
    + by apply PyDict.NoDup_keys_set.
    + intros p. rewrite PyDict.keys_set. split.
      * intros Hp.
        assert (p ∈ PyDict.keys paths ∨ p = full_path_of username f)
          as [Hin| ->].
        { case_decide; [by left|].
          apply elem_of_app in Hp as [?|?%list_elem_of_singleton]; eauto. }
        -- apply Hkeys in Hin as (f' & Hf' & ->).
           exists f'. split; [|done]. apply elem_of_app. by left.
        -- exists f. split; [|done]. apply elem_of_app. right. by left.
      * intros (f' & [Hf' | ->%list_elem_of_singleton]%elem_of_app & ->).
        -- assert (full_path_of username f' ∈ PyDict.keys paths) as Hin
             by (apply Hkeys; eauto).
           case_decide; [done|]. apply elem_of_app. by left.
        -- case_decide; [done|]. apply elem_of_app. right. by left.
    + intros p up. rewrite PyDict.get_set. case_decide as Hp.
      * intros [= <-]. subst p. exists f.
        split; [|done]. apply elem_of_app. right. by left.
      * intros (f' & Hf' & ? & ?)%Hget. exists f'.
        split; [|done]. apply elem_of_app. by left.
Qed.

End paths.

Section response.
Variable ErrJson : Type.
Variable format_import_spec_errors :
  list Error → list (PathPy.t * PathPy.t) → ErrJson.

Lemma keys_foldl_set_fst {K V W} `{EqDecision K}
    (l : list (K * V)) (l' : list (K * W)) d d' :
  PyDict.keys d = PyDict.keys d' → l.*1 = l'.*1 →
  PyDict.keys (foldl (λ d '(k, v), PyDict.set k v d) d l)
  = PyDict.keys (foldl (λ d '(k, v), PyDict.set k v d) d' l').
Proof.
  revert l' d d'. induction l as [|[k v] l IH]; intros [|[k' w] l'] d d';
    csimpl; try done.
  intros Hd [= <- Hl]. apply IH; [|done].
  by rewrite !PyDict.keys_set, Hd.
Qed.

(** X10. A success response has the same data types, in the same order,
    under [types] and under [files]: every data type with rows has its
    file and tab, and the other way round. *)
Theorem bulk_response_same_keys
    (paths : list (PathPy.t * PathPy.t)) (res : ParseResults)
    (types : list (string * Rows))
    (files : list (string * (string * option string))) :
  bulk_response ErrJson format_import_spec_errors paths res
  = Some (json_response types files) →
  PyDict.keys types = PyDict.keys files.
Proof.
  unfold bulk_response. destruct (nonempty (results res)).
  - destruct (mapM _ _) as [files0|] eqn:Hfiles; simpl; [|done].
    intros [= <- <-].
    destruct (mapM_value
                (λ r : ParseResult, PyDict.get (file (source r)) paths)
                (λ (r : ParseResult) (up : PathPy.t),
                   (PathPy.str up, tab (source r)))
                _ _ Hfiles) as [Hkeys _].
    apply keys_foldl_set_fst; [done|].
    by rewrite keys_fmap_value, Hkeys.
  - by destruct (errors res).
Qed.

End response.

Lemma bulk_response_same_keys_witness :
  PyDict.keys [("genomes", [ ({[ "id" := VStr "g1" ]} : gmap string Value) ])]
  = PyDict.keys [("genomes", ("user/a.csv", (None : option string)))].
Proof.
  apply (bulk_response_same_keys _ example_format
           [(PathPy.Path "/data/bulk/user/a.csv", PathPy.Path "user/a.csv")]
           {| results :=
                Some [("genomes",
                       {| source := {| file := PathPy.Path "/data/bulk/user/a.csv";
                                       tab := None |};
                          result := [ {[ "id" := VStr "g1" ]} ] |})];
              errors := None |}).
  vm_compute. reflexivity.
Defined.

End BulkSpecificationFacts.

(** ** The resolver and the writers *)
Module ResolverFacts.
Import Resolver BulkSpecification WriteBulkSpecification.

Section facts.
Variable M : Mappings.
Variable get_mappings_fileinfo : string → FileInfo.

(** X11. For a path with a name, the resolution has exactly one field
    that counts as true in Python: a parser, or an unsupported type that is
    not the empty string. For a path without a name that is not classified
    as tabular and has no classified suffix, the unsupported type is the
    empty string. *)
Theorem file_type_resolution_truthy (path : PathPy.t) :
  let r := _file_type_resolver M get_mappings_fileinfo path in
  (PathPy.name path ≠ "" →
     (is_Some (parser r) ∧ unsupported_type r = None) ∨
     (parser r = None ∧
      ∃ ext, unsupported_type r = Some ext ∧ ext ≠ "")) ∧
  (PathPy.name path = "" → parser r = None →
   classified_suffix get_mappings_fileinfo path = None →
     unsupported_type r = Some "").
Proof.
  intros r. split.
  - intros Hname.
    pose proof (resolver_unsupported_nonempty M get_mappings_fileinfo path
                  Hname) as Hne.
    fold r in Hne. subst r. revert Hne. unfold _file_type_resolver.
    destruct (_ ≫= _); simpl; [left; eauto|].
    intros Hne. right. split; [done|]. eexists. split; [done|].
    intros Hext. apply Hne. by rewrite Hext.
  - intros Hname Hp Hcs. subst r.
    rewrite (resolver_unsupported M get_mappings_fileinfo path Hp), Hcs.
    assert (PathPy.suffix path = "") as Hs.
    { unfold PathPy.suffix. by rewrite Hname. }
    rewrite decide_False by (by intros ?). by rewrite Hname.
Qed.

(** X12. A file type that [write_bulk_specification] accepts is one that
    the resolver reads: a file classified first as that type gets a
    parser. *)
Theorem written_formats_are_parsed
    (t : string) (writer : Writer) (path : PathPy.t) :
  writer_get M (JStr t) = Some (Some writer) →
  first_file_ext_type get_mappings_fileinfo path = Some t →
  is_Some (parser (_file_type_resolver M get_mappings_fileinfo path)).
Proof.
  intros Hw Ht. simpl in Hw. injection Hw as Hw.
  rewrite resolver_parser_lookup, Ht. simpl.
  apply elem_of_dom. rewrite <- writers_and_parsers_same_formats.
  apply elem_of_dom. eauto.
Qed.

End facts.

Lemma written_formats_are_parsed_witness :
  is_Some (parser (_file_type_resolver GenerateMappings.example_mappings
                     example_fileinfo
                     (PathPy.Path "/data/bulk/user/templates/genomes.csv"))).
Proof.
  apply (written_formats_are_parsed GenerateMappings.example_mappings
           example_fileinfo "CSV" write_csv).
  - reflexivity.
  - reflexivity.
Defined.

End ResolverFacts.

(** ** [write_bulk_specification]: the checks before the writer *)
Module WriteBulkSpecificationFacts.
Import BulkSpecification WriteBulkSpecification.

Section facts.
Variable M : Mappings.
Variable validate_path : string → string → ValidatedPath.
Variable PathPy_of : string → PathPy.t.
Variable path_join : PathPy.t → string → PathPy.t.
Variable file_name : Writer → string → string.
Variable excel_file_name : string.
Variable mismatch_message : string → string.

Definition handler :=
  write_bulk_specification M validate_path PathPy_of path_join file_name
    excel_file_name mismatch_message.

Lemma _IMPSPEC_FILE_TO_WRITER_dom t :
  is_Some (_IMPSPEC_FILE_TO_WRITER M !! t) → t ∈ [CSV M; TSV M; EXCEL M].
Proof.
  unfold _IMPSPEC_FILE_TO_WRITER.
  rewrite !lookup_insert_is_Some, lookup_empty, !elem_of_cons.
  intros [<-|[_ [<-|[_ [<-|[_ [? ?]]]]]]]; [auto..|done].
Qed.

(** The request has the JSON content type and a positive length. *)
Definition json_request (request : Request) : Prop :=
  content_type request = _APP_JSON ∧
  ∃ n, content_length request = Some (S n).

Lemma handler_json_request username request fs :
  json_request request →
  handler username request fs
  = match json request with
    | None => (None, fs)
    | Some NotMapping =>
        (Some (error_response HTTPBadRequest
                 "The top level JSON element must be a mapping"), fs)
    | Some (MappingBody (JStr folder) type_ types) =>
        match writer_get M type_ with
        | None => (None, fs)
        | Some None =>
            (Some (error_response HTTPBadRequest
                     ("Invalid output_file_type: " +:+ py_str type_)), fs)
        | Some (Some writer) =>
            handler username
              {| content_type := _APP_JSON; content_length := Some 1;
                 json := Some (MappingBody (JStr folder) type_ types) |} fs
        end
    | Some (MappingBody _ _ _) =>
        (Some (error_response HTTPBadRequest
                 "output_directory is required and must be a string"), fs)
    end.
Proof.
  intros [Hct [n Hlen]]. unfold handler, write_bulk_specification.
  rewrite decide_False by (by intros ?).
  rewrite decide_False by (rewrite Hlen; by intros [?|?]).
  destruct (json request) as [[|folder type_ types]|]; try done.
  destruct folder as [|d| |]; try done.
  destruct (writer_get M type_) as [[writer|]|] eqn:Hw; try done.
  simpl. by rewrite Hw.
Qed.

(** X13. A request is checked before anything is touched: the wrong
    content type is an unsupported media type, a missing or zero content
    length is length required, and for a JSON request a body that is not a
    mapping, an [output_directory] that is not a string and an
    [output_file_type] that is not one of CSV, TSV, EXCEL are bad requests
    that name the fault. In each case the staging area is as it was: not
    even the output directory is made. An [output_file_type] that is a
    list or an object is not answered at all: looking it up raises. *)
Theorem write_bulk_specification_checks
    (username : string) (request : Request) (fs : FS) :
  (content_type request ≠ _APP_JSON →
     handler username request fs
     = (Some (error_response HTTPUnsupportedMediaType
                "Required content-type is application/json"), fs)) ∧
  (content_type request = _APP_JSON →
   content_length request = None ∨ content_length request = Some 0 →
     handler username request fs
     = (Some (error_response HTTPLengthRequired
                "The content-length header is required and must be > 0"),
        fs)) ∧
  (json_request request →
     (json request = Some NotMapping →
        handler username request fs
        = (Some (error_response HTTPBadRequest
                   "The top level JSON element must be a mapping"), fs)) ∧
     (∀ folder type_ types,
        json request = Some (MappingBody folder type_ types) →
        (∀ d, folder ≠ JStr d) →
        handler username request fs
        = (Some (error_response HTTPBadRequest
                   "output_directory is required and must be a string"),
           fs)) ∧
     (∀ d type_ types,
        json request = Some (MappingBody (JStr d) type_ types) →
        (∀ t, type_ = JStr t → t ∉ [CSV M; TSV M; EXCEL M]) →
        (∀ text, type_ ≠ JContainer text) →
        handler username request fs
        = (Some (error_response HTTPBadRequest
                   ("Invalid output_file_type: " +:+ py_str type_)), fs)) ∧
     (∀ d text types,
        json request = Some (MappingBody (JStr d) (JContainer text) types) →
        handler username request fs = (None, fs))).
Proof.
  split_and!.
  - intros Hct. unfold handler, write_bulk_specification.
    by rewrite decide_True.
  - intros Hct Hlen. unfold handler, write_bulk_specification.
    rewrite decide_False by (by intros ?). by rewrite decide_True.
  - intros Hreq. rewrite (handler_json_request _ _ _ Hreq). split_and!.
    + by intros ->.
    + intros folder type_ types -> Hfolder.
      destruct folder as [|d| |]; try done. by destruct (Hfolder d).
    + intros d type_ types -> Htype Hcont.
      assert (writer_get M type_ = Some None) as ->; [|done].
      destruct type_ as [|t|text|text]; simpl; try done.
      * f_equal. apply eq_None_not_Some. intros Hsome.
        by apply (Htype t eq_refl), _IMPSPEC_FILE_TO_WRITER_dom.
      * by destruct (Hcont text).
    + by intros d text types ->.
Qed.

End facts.

Lemma write_bulk_specification_checks_witness :
  example_write_bulk_specification "user"
    {| content_type := "application/json"; content_length := Some 10;
       json := Some (MappingBody (JStr "templates") (JContainer "[]") []) |}
    empty_fs
  = (None, empty_fs).
Proof.
  refine (proj2 (proj2 (proj2 (proj2 (proj2
    (write_bulk_specification_checks GenerateMappings.example_mappings
       example_validate_path PathPy.Path example_path_join example_file_name
       "import_specification.xlsx" example_mismatch_message "user"
       {| content_type := "application/json"; content_length := Some 10;
          json := Some (MappingBody (JStr "templates") (JContainer "[]") []) |}
       empty_fs)) _))) "templates" "[]" [] eq_refl).
  split; [reflexivity|]. by exists 9.
Defined.

End WriteBulkSpecificationFacts.

(** ** [app.py]: the handlers over the staging area *)
Module FileHandlers.

(** What [Path.validate_path] of [utils.py] returns, with the three
    attributes the handlers read. *)
Record StagingPath := {
  full_path : string;
  metadata_path : string;
  user_path : string;
}.

(** An entry of the list that [dir_info] of [metadata.py] returns, with
    the keys the handlers read. *)
Record FileJson := {
  name : string;
  path : string;
  mtime : Z;
  isFolder : bool;
}.

(** The [web.HTTP...] exceptions the handlers raise. *)
Inductive HTTPStatus :=
  HTTPNotFound | HTTPBadRequest | HTTPForbidden | HTTPConflict.

(** A handler returns, or raises with a status and a text. *)
Inductive Result (A : Type) :=
  | Ok (a : A)
  | Raise (status : HTTPStatus) (text : string).
Arguments Ok {A} a.
Arguments Raise {A} status text.

(** [request.query["showHidden"]] read into a flag; a missing key is the
    [KeyError] branch. *)
Definition show_hidden_of (showHidden : option string) : bool :=
  match showHidden with
  | Some show_hidden =>
      if decide ("true" = show_hidden ∨ "True" = show_hidden)
      then true else false
  | None => false
  end.

(** [os.path.basename(p)]: what follows the last slash. *)
Definition basename (p : string) : string :=
  match PathPy.rfind "/" p with
  | Some i => PathPy.drop (S i) p
  | None => p
  end.

(** [l.sort(key=mtime, reverse=True)]: decreasing in [mtime], entries of
    equal [mtime] in the order they had. *)
Fixpoint insert_by_mtime (x : FileJson) (l : list FileJson) : list FileJson :=
  match l with
  | [] => [x]
  | y :: l' =>
      if decide (mtime x < mtime y)%Z then y :: insert_by_mtime x l'
      else x :: y :: l'
  end.

Definition sort_by_mtime_reverse (l : list FileJson) : list FileJson :=
  foldr insert_by_mtime [] l.

Section handlers.
(** [Path.validate_path(username, path)] and [Path.validate_path(username)]
    of [utils.py]. *)
Variable validate_path : string → string → StagingPath.
Variable validate_user_dir : string → StagingPath.

(** [dir_info(path, show_hidden, query)] and
    [dir_info(path, show_hidden, recurse=True)] of [metadata.py]. *)
Variable dir_info_query : StagingPath → bool → string → list FileJson.
Variable dir_info_recurse : StagingPath → bool → list FileJson.

(** [similar(a, b, 0.75)] of [metadata.py]. *)
Variable similar : string → string → bool.

(** The file system: [os.path.exists], [os.path.isfile] and
    [os.path.isdir] in a state of it. *)
Variable FS : Type.
Variable os_path_exists : FS → string → bool.
Variable os_path_isfile : FS → string → bool.
Variable os_path_isdir : FS → string → bool.

(** [file_exists]: the JSON [{"exists": ..., "isFolder": ...}]. *)
Definition file_exists (username query : string)
    (showHidden : option string) : bool * bool :=
  let user_dir := validate_user_dir username in
  let show_hidden := show_hidden_of showHidden in
  let results := dir_info_query user_dir show_hidden query in
  let filtered_results :=
    filter (λ result, name result = query) results in
  if filtered_results is _ :: _ then
    let is_folder := isFolder <$> filtered_results in
    (true, forallb id is_folder)
  else (false, false).

(** [search]: the results of [dir_info], sorted. *)
Definition search (username query : string)
    (showHidden : option string) : list FileJson :=
  let user_dir := validate_user_dir username in
  let show_hidden := show_hidden_of showHidden in
  let results := dir_info_query user_dir show_hidden query in
  sort_by_mtime_reverse results.

(** [similar_files]. *)
Definition similar_files (fs : FS) (username request_path : string)
  : Result (list FileJson) :=
  let path := validate_path username request_path in
  if negb (os_path_exists fs (full_path path)) then
    Raise HTTPNotFound ("path " +:+ user_path path +:+ " does not exist")
  else if os_path_isdir fs (full_path path) then
    Raise HTTPBadRequest (full_path path +:+ " is a directory not a file")
  else
    let root := validate_path username "" in
    let files := dir_info_recurse root false in
    Ok (filter (λ file,
                  negb (isFolder file) = true ∧
                  user_path path ≠ FileHandlers.path file ∧
                  similar (basename (user_path path)) (name file) = true)
               files).

Lemma forallb_isFolder (l : list FileJson) :
  forallb id (isFolder <$> l) = true ↔ ∀ r, r ∈ l → isFolder r = true.
Proof.
  induction l as [|r0 l IH]; csimpl.
  - split; [by intros _ ? ?%elem_of_nil|done].
  - rewrite andb_true_iff, IH. split.
    + intros [H0 Hl] r [->|Hr]%elem_of_cons; auto.
    + intros Hall. split; [apply Hall; by left|].
      intros r Hr. apply Hall. by right.
Qed.

(** X14. [file_exists] reports a name as existing exactly when [dir_info]
    lists an entry of that name, and as a folder exactly when there is
    such an entry and every entry of that name is a folder; so a folder
    is only ever reported for a name that exists. *)
Theorem file_exists_spec (username query : string)
    (showHidden : option string) :
  let results :=
    dir_info_query (validate_user_dir username) (show_hidden_of showHidden)
                   query in
  let out := file_exists username query showHidden in
  (out.1 = true ↔ ∃ r, r ∈ results ∧ name r = query) ∧
  (out.2 = true ↔
     (∃ r, r ∈ results ∧ name r = query) ∧
     ∀ r, r ∈ results → name r = query → isFolder r = true) ∧
  (out.2 = true → out.1 = true).
Proof.
  intros results out. subst out. unfold file_exists. fold results.
  assert (∀ r, r ∈ filter (λ result, name result = query) results
               ↔ r ∈ results ∧ name r = query) as Hfilter.
  { intros r. rewrite list_elem_of_filter. tauto. }
  destruct (filter _ results) as [|r0 l] eqn:Hf.
  - assert (¬ ∃ r, r ∈ results ∧ name r = query) as Hno.
    { intros (r & Hr). apply Hfilter in Hr. by apply elem_of_nil in Hr. }
    simpl. split_and!; [split; [done|tauto]|split; [done|tauto]|done].
  - assert (r0 ∈ results ∧ name r0 = query) as Hr0
      by (apply Hfilter; by left).
    cbn [fst snd]. split_and!; [split; eauto| |done].
    rewrite forallb_isFolder. split.
    + intros Hall. split; [eauto|]. intros r Hr Hq.
      apply Hall, Hfilter. done.
    + intros [_ Hall] r [Hr Hq]%Hfilter. by apply Hall.
Qed.

(** Not older than: the order of a list sorted by [mtime], newest
    first. *)
Definition not_older (a b : FileJson) : Prop := (mtime b ≤ mtime a)%Z.

Lemma insert_by_mtime_Permutation x l : insert_by_mtime x l ≡ₚ x :: l.
Proof.
  induction l as [|y l IH]; simpl; [done|].
  case_decide; [|done]. rewrite IH. apply Permutation_swap.
Qed.

Lemma sort_by_mtime_reverse_Permutation l : sort_by_mtime_reverse l ≡ₚ l.
Proof.
  induction l as [|x l IH]; simpl; [done|].
  by rewrite insert_by_mtime_Permutation, IH.
Qed.

Lemma insert_by_mtime_sorted x l :
  StronglySorted not_older l → StronglySorted not_older (insert_by_mtime x l).
Proof.
  induction 1 as [|y l Hl IH Hy]; simpl.
  - repeat constructor.
  - case_decide as Hlt.
    + constructor; [done|].
      rewrite insert_by_mtime_Permutation. constructor; [|done].
      unfold not_older. lia.
    + constructor; [by constructor|]. constructor.
      * unfold not_older. lia.
      * eapply Forall_impl; [exact Hy|]. unfold not_older. intros z ?. lia.
Qed.

Lemma sort_by_mtime_reverse_sorted l :
  StronglySorted not_older (sort_by_mtime_reverse l).
Proof.
  induction l as [|x l IH]; simpl; [constructor|].
  by apply insert_by_mtime_sorted.
Qed.

Lemma filter_insert_by_mtime (m : Z) x l :
  filter (λ r, mtime r = m) (insert_by_mtime x l)
  = filter (λ r, mtime r = m) (x :: l).
Proof.
  induction l as [|y l IH]; simpl; [done|].
  case_decide as Hlt; [|done].
  rewrite (filter_cons _ y), IH, !filter_cons.
  repeat case_decide; try done. lia.
Qed.

Lemma filter_sort_by_mtime_reverse (m : Z) l :
  filter (λ r, mtime r = m) (sort_by_mtime_reverse l)
  = filter (λ r, mtime r = m) l.
Proof.
  induction l as [|x l IH]; simpl; [done|].
  by rewrite filter_insert_by_mtime, !filter_cons, IH.
Qed.

(** X15. [search] answers with exactly the entries that [dir_info] found,
    the most recently modified first, and entries modified at the same
    time in the order [dir_info] gave them. *)
Theorem search_sorted (username query : string)
    (showHidden : option string) :
  let results :=
    dir_info_query (validate_user_dir username) (show_hidden_of showHidden)
                   query in
  let out := search username query showHidden in
  out ≡ₚ results ∧
  StronglySorted not_older out ∧
  ∀ m, filter (λ r, mtime r = m) out = filter (λ r, mtime r = m) results.
Proof.
  intros results out. subst out. unfold search. fold results. split_and!.
  - apply sort_by_mtime_reverse_Permutation.
  - apply sort_by_mtime_reverse_sorted.
  - intros m. apply filter_sort_by_mtime_reverse.
Qed.

(** X16. [similar_files] raises not found for a path that does not exist
    and bad request for a directory. Otherwise it answers with entries of
    the user's directory in the order [dir_info] lists them, and an entry
    is among them exactly when it is not a folder, is not the file itself
    and has a name similar to the name of the file: the file itself and
    folders are never listed. *)
Theorem similar_files_spec (fs : FS) (username request_path : string) :
  let path := validate_path username request_path in
  let files := dir_info_recurse (validate_path username "") false in
  (os_path_exists fs (full_path path) = false →
     ∃ text, similar_files fs username request_path
             = Raise HTTPNotFound text) ∧
  (os_path_exists fs (full_path path) = true →
   os_path_isdir fs (full_path path) = true →
     ∃ text, similar_files fs username request_path
             = Raise HTTPBadRequest text) ∧
  (os_path_exists fs (full_path path) = true →
   os_path_isdir fs (full_path path) = false →
     ∃ found,
       similar_files fs username request_path = Ok found ∧
       found `sublist_of` files ∧
       ∀ file, file ∈ found ↔
         file ∈ files ∧ isFolder file = false ∧
         FileHandlers.path file ≠ user_path path ∧
         similar (basename (user_path path)) (name file) = true).
Proof.
  intros path files. unfold similar_files. fold path files. split_and!.
  - intros ->. simpl. by eexists.
  - intros -> ->. simpl. by eexists.
  - intros -> ->. simpl. eexists. split_and!; [done|apply sublist_filter|].
    intros file. rewrite list_elem_of_filter.
    rewrite negb_true_iff. split.
    + intros [(? & ? & ?) ?]. split_and!; [done..| |done]. by intros ?.
    + intros (? & ? & ? & ?). split_and!; [done| |done..]. by intros ?.
Qed.

End handlers.
End FileHandlers.

(** ** [app.py]: [decompress] *)
Module Decompress.
Import FileHandlers.

(** [s[:i]]. *)
Fixpoint take (i : nat) (s : string) : string :=
  match i, s with
  | 0, _ => ""
  | S i', "" => ""
  | S i', String c s' => String c (take i' s')
  end.

(** [s.rstrip(c)]. *)
Fixpoint rstrip_char (c : ascii) (s : string) : string :=
  match s with
  | "" => ""
  | String a s' =>
      match rstrip_char c s' with
      | "" => if decide (a = c) then "" else String a ""
      | r => String a r
      end
  end.

(** [p.rfind("/") + 1]. *)
Definition after_last_slash (p : string) : nat :=
  match PathPy.rfind "/" p with Some i => S i | None => 0 end.

(** [os.path.splitext(p)]: the extension starts at the last dot, if that
    dot comes after the last slash and after a character of the file name
    that is not a dot. *)
Definition splitext (p : string) : string * string :=
  let filenameIndex := after_last_slash p in
  match PathPy.rfind "." p with
  | Some dotIndex =>
      if (filenameIndex <=? dotIndex)
         && negb (PyStr.all (λ c, bool_decide (c = "."%char))
                    (take (dotIndex - filenameIndex)
                          (PathPy.drop filenameIndex p)))
      then (take dotIndex p, PathPy.drop dotIndex p)
      else (p, "")
  | None => (p, "")
  end.

(** [os.path.dirname(p)]. *)
Definition dirname (p : string) : string :=
  let head := take (after_last_slash p) p in
  if PyStr.truthy head
     && negb (PyStr.all (λ c, bool_decide (c = "/"%char)) head)
  then rstrip_char "/" head else head.

Section decompress.
Variable validate_path : string → string → StagingPath.

(** [decompress]: the command given to [run_command] and the text of the
    response, or the bad request. *)
Definition decompress (username request_path : string)
  : Result (list string * string) :=
  let path := validate_path username request_path in
  let '(filename, file_extension) := splitext (full_path path) in
  let '(filename, upper_file_extension) := splitext filename in
  let destination := dirname (full_path path) in
  let done_ command :=
    Ok (command, "succesfully decompressed " +:+ user_path path) in
  if decide ((upper_file_extension = ".tar" ∧ file_extension = ".gz")
             ∨ file_extension = ".tgz") then
    done_ ["tar"; "xzf"; full_path path; "-C"; destination]
  else if decide (upper_file_extension = ".tar" ∧
                  (file_extension = ".bz" ∨ file_extension = ".bz2")) then
    done_ ["tar"; "xjf"; full_path path; "-C"; destination]
  else if decide (file_extension = ".zip" ∨ file_extension = ".ZIP") then
    done_ ["unzip"; full_path path; "-d"; destination]
  else if decide (file_extension = ".tar") then
    done_ ["tar"; "xf"; full_path path; "-C"; destination]
  else if decide (file_extension = ".gz") then
    done_ ["gzip"; "-d"; full_path path]
  else if decide (file_extension = ".bz2" ∨ file_extension = "bzip2") then
    done_ ["bzip2"; "-d"; full_path path]
  else
    Raise HTTPBadRequest
          ("cannot decompress a " +:+ file_extension +:+ " file").

(** The two extensions that [decompress] looks at. *)
Definition file_extension (p : string) : string := (splitext p).2.
Definition upper_file_extension (p : string) : string :=
  (splitext (splitext p).1).2.

Lemma rfind_drop c s i :
  PathPy.rfind c s = Some i → ∃ rest, PathPy.drop i s = String c rest.
Proof.
  revert i. induction s as [|a s IH]; intros i; simpl; [done|].
  destruct (PathPy.rfind c s) as [j|].
  - intros [= <-]. simpl. by apply IH.
  - case_decide; [|done]. intros [= <-]. subst. by eexists.
Qed.

Lemma take_drop i s : take i s +:+ PathPy.drop i s = s.
Proof.
  revert s. induction i as [|i IH]; intros [|a s]; simpl; try done.
  by rewrite PyStr.append_cons, IH.
Qed.

Lemma append_empty (s : string) : s +:+ "" = s.
Proof. induction s; [done|]. by rewrite PyStr.append_cons, IHs. Qed.

(** An extension is empty or starts with a dot, and the root and the
    extension make up the path. *)
Lemma splitext_spec p :
  (splitext p).1 +:+ (splitext p).2 = p ∧
  ((splitext p).2 = "" ∨ ∃ rest, (splitext p).2 = String "." rest).
Proof.
  unfold splitext.
  destruct (PathPy.rfind "." p) as [dotIndex|] eqn:Hdot; simpl.
  - destruct (_ && _); simpl.
    + split; [apply take_drop|]. right. by eapply rfind_drop.
    + split; [apply append_empty|by left].
  - split; [apply append_empty|by left].
Qed.

Lemma file_extension_not_bzip2 p : file_extension p ≠ "bzip2".
Proof.
  unfold file_extension.
  destruct (proj2 (splitext_spec p)) as [->|[rest ->]]; done.
Qed.

Lemma decompress_unfold username request_path :
  let path := validate_path username request_path in
  let ext := file_extension (full_path path) in
  let upper := upper_file_extension (full_path path) in
  let destination := dirname (full_path path) in
  let done_ command :=
    Ok (command, "succesfully decompressed " +:+ user_path path) in
  decompress username request_path
  = if decide ((upper = ".tar" ∧ ext = ".gz") ∨ ext = ".tgz") then
      done_ ["tar"; "xzf"; full_path path; "-C"; destination]
    else if decide (upper = ".tar" ∧ (ext = ".bz" ∨ ext = ".bz2")) then
      done_ ["tar"; "xjf"; full_path path; "-C"; destination]
    else if decide (ext = ".zip" ∨ ext = ".ZIP") then
      done_ ["unzip"; full_path path; "-d"; destination]
    else if decide (ext = ".tar") then
      done_ ["tar"; "xf"; full_path path; "-C"; destination]
    else if decide (ext = ".gz") then
      done_ ["gzip"; "-d"; full_path path]
    else if decide (ext = ".bz2" ∨ ext = "bzip2") then
      done_ ["bzip2"; "-d"; full_path path]
    else Raise HTTPBadRequest ("cannot decompress a " +:+ ext +:+ " file").
Proof.
  unfold decompress, file_extension, upper_file_extension.
  destruct (splitext (full_path _)) as [filename ext].
  simpl. by destruct (splitext filename).
Qed.

(** X17. [decompress] runs [bzip2 -d] exactly for a file whose extension
    is [.bz2] and that is not a [.tar.bz2]; the comparison of the
    extension with [bzip2] never holds, since an extension is empty or
    starts with a dot. *)
Theorem decompress_bzip2 (username request_path : string) :
  let path := validate_path username request_path in
  file_extension (full_path path) ≠ "bzip2" ∧
  ((∃ text, decompress username request_path
            = Ok (["bzip2"; "-d"; full_path path], text)) ↔
   file_extension (full_path path) = ".bz2" ∧
   upper_file_extension (full_path path) ≠ ".tar").
Proof.
  intros path.
  pose proof (file_extension_not_bzip2 (full_path path)) as Hnot.
  split; [done|].
  rewrite decompress_unfold. fold path. cbv zeta.
  repeat case_decide; split;
    try (intros [text [=]]); try (intros [? ?]); try (by eexists);
    try tauto; try congruence; intuition congruence.
Qed.

(** X18. [decompress] answers bad request exactly when the extension is
    none of [.gz], [.tgz], [.zip], [.ZIP], [.tar], [.bz2] and the file is
    not a [.tar.bz]; otherwise it runs one command, on the full path of
    the file. *)
Theorem decompress_rejects (username request_path : string) :
  let path := validate_path username request_path in
  let ext := file_extension (full_path path) in
  let upper := upper_file_extension (full_path path) in
  ((∃ text, decompress username request_path = Raise HTTPBadRequest text) ↔
   (ext ∉ [".gz"; ".tgz"; ".zip"; ".ZIP"; ".tar"; ".bz2"]) ∧
   ¬ (upper = ".tar" ∧ ext = ".bz")) ∧
  (∀ command text,
     decompress username request_path = Ok (command, text) →
     full_path path ∈ command ∧
     text = "succesfully decompressed " +:+ user_path path).
Proof.
  intros path ext upper.
  pose proof (file_extension_not_bzip2 (full_path path)) as Hnot.
  fold path ext in Hnot.
  rewrite decompress_unfold. fold path ext upper. cbv zeta.
  rewrite !not_elem_of_cons.
  pose proof (not_elem_of_nil ext) as Hnil.
  split.
  - repeat case_decide; split;
      try (intros [text [=]]); try (by eexists); intuition congruence.
  - intros command text.
    repeat case_decide; intros [= <- <-]; (split; [|done]);
      repeat (first [by left | right]).
Qed.

End decompress.

Definition example_staging_path (username path : string) : StagingPath :=
  {| full_path := "/data/bulk/" +:+ username +:+ "/" +:+ path;
     metadata_path := "/data/metadata/" +:+ username +:+ "/" +:+ path;
     user_path := username +:+ "/" +:+ path |}.

Example splitext_archive :
  splitext "/data/bulk/user/reads.tar.gz" = ("/data/bulk/user/reads.tar", ".gz").
Proof. reflexivity. Qed.

Example splitext_dotfile : splitext "/data/bulk/user/.bashrc" = ("/data/bulk/user/.bashrc", "").
Proof. reflexivity. Qed.

Example splitext_dot_in_directory :
  splitext "/data/bulk/user.name/reads" = ("/data/bulk/user.name/reads", "").
Proof. reflexivity. Qed.

Example dirname_of_file : dirname "/data/bulk/user/reads.tar.gz" = "/data/bulk/user".
Proof. reflexivity. Qed.

Example dirname_of_root_file : dirname "/reads" = "/".
Proof. reflexivity. Qed.

Example decompress_tar_gz :
  decompress example_staging_path "user" "reads.tar.gz"
  = Ok (["tar"; "xzf"; "/data/bulk/user/reads.tar.gz"; "-C"; "/data/bulk/user"],
        "succesfully decompressed user/reads.tar.gz").
Proof. vm_compute. reflexivity. Qed.

Example decompress_gz :
  decompress example_staging_path "user" "reads.fq.gz"
  = Ok (["gzip"; "-d"; "/data/bulk/user/reads.fq.gz"],
        "succesfully decompressed user/reads.fq.gz").
Proof. vm_compute. reflexivity. Qed.

Example decompress_bzip2_name :
  decompress example_staging_path "user" "reads.bzip2"
  = Raise HTTPBadRequest "cannot decompress a .bzip2 file".
Proof. vm_compute. reflexivity. Qed.

Example decompress_bz :
  decompress example_staging_path "user" "reads.bz"
  = Raise HTTPBadRequest "cannot decompress a .bz file".
Proof. vm_compute. reflexivity. Qed.

End Decompress.

(** ** [app.py]: [upload_files_chunked] *)
Module Upload.
Import FileHandlers.

(** A part of a multipart body: its name, its text, its file name and the
    chunks that [read_chunk] gives. *)
Record Part := {
  part_name : option string;
  part_text : string;
  part_filename : option string;
  part_chunks : list string;
}.

(** The [while counter < 100] loop over the parts. After the last part
    [reader.next()] is [None], and reading its name raises: that is the
    result [None]. Otherwise the part named [uploads], if one was reached,
    and the last [destPath] read. *)
Fixpoint read_parts (parts : list Part) (counter : nat)
    (destPath : option string) : option (option Part * option string) :=
  if decide (counter < 100) then
    match parts with
    | [] => None
    | part :: parts' =>
        if decide (part_name part = Some "destPath") then
          read_parts parts' counter (Some (part_text part))
        else if decide (part_name part = Some "uploads") then
          Some (Some part, destPath)
        else read_parts parts' (S counter) destPath
    end
  else Some (None, destPath).

(** [os.path.join(a, b)]. *)
Definition os_path_join (a b : string) : string :=
  if decide (PyStr.first b = Some "/"%char) then b
  else if decide (a = "" ∨ PyStr.last a = Some "/"%char) then a +:+ b
  else a +:+ "/" +:+ b.

(** The chunks written: those read before the first empty one. *)
Fixpoint written (chunks : list string) : string :=
  match chunks with
  | [] => ""
  | chunk :: chunks' =>
      if PyStr.truthy chunk then chunk +:+ written chunks' else ""
  end.

Fixpoint written_size (chunks : list string) : nat :=
  match chunks with
  | [] => 0
  | chunk :: chunks' =>
      if PyStr.truthy chunk then String.length chunk + written_size chunks'
      else 0
  end.

(** What an accepted upload writes: the path, the bytes and their
    number. *)
Record Written := {
  target : StagingPath;
  content : string;
  size : nat;
}.

Section upload.
Variable validate_path : string → string → StagingPath.

(** [upload_files_chunked] up to the end of the writing loop: what is
    written where, or the exception raised. The outer [None] is an
    [AttributeError] (no part left, or a part without file name). The
    metadata of the response is left out. *)
Definition upload_files_chunked (username : string) (has_body : bool)
    (parts : list Part) : option (Result Written) :=
  if negb has_body then
    Some (Raise HTTPBadRequest "must provide destPath and uploads in body")
  else
    '(user_file, destPath) ← read_parts parts 0 None;
    match user_file, destPath with
    | Some user_file, Some (String c d as destPath) =>
        filename ← part_filename user_file;
        if decide (PyStr.lstrip filename ≠ filename) then
          Some (Raise HTTPForbidden
                  "cannot upload file with name beginning with space")
        else if negb (PyStr.all (λ c, bool_decide (c ≠ ","%char)) filename)
        then
          Some (Raise HTTPForbidden "cannot upload file with ',' in name")
        else if decide (PyStr.first filename = Some "."%char) then
          Some (Raise HTTPForbidden
                  "cannot upload file with name beginning with '.'")
        else
          let destPath := os_path_join destPath filename in
          let path := validate_path username destPath in
          Some (Ok {| target := path;
                      content := written (part_chunks user_file);
                      size := written_size (part_chunks user_file) |})
    | _, _ =>
        Some (Raise HTTPBadRequest "must provide destPath and uploads in body")
    end.

(** The parts that count towards the limit of the loop. *)
Definition stray (part : Part) : Prop :=
  part_name part ≠ Some "destPath".

Definition strays (parts : list Part) : nat := length (filter stray parts).

(** The [destPath] after the parts [parts]. *)
Definition last_destPath (destPath : option string) (parts : list Part)
  : option string :=
  foldl (λ d part,
           if decide (part_name part = Some "destPath")
           then Some (part_text part) else d)
        destPath parts.

Definition no_uploads (parts : list Part) : Prop :=
  Forall (λ part, part_name part ≠ Some "uploads") parts.

Lemma read_parts_found pre u post counter destPath :
  no_uploads pre → part_name u = Some "uploads" →
  counter + strays pre < 100 →
  read_parts (pre ++ u :: post) counter destPath
  = Some (Some u, last_destPath destPath pre).
Proof.
  intros Hpre Hu. revert counter destPath.
  induction Hpre as [|p pre Hp _ IH]; intros counter destPath Hlt.
  - simpl. rewrite decide_True by (unfold strays in Hlt; simpl in Hlt; lia).
    rewrite decide_False by (by rewrite Hu).
    by rewrite decide_True.
  - unfold strays in Hlt. rewrite filter_cons in Hlt. unfold stray in Hlt at 1.
    cbn [app read_parts foldl last_destPath].
    destruct (decide (part_name p = Some "destPath")) as [Hd|Hd].
    + rewrite decide_False in Hlt by (by intros ?).
      rewrite decide_True by lia. unfold last_destPath in IH. by apply IH.
    + rewrite decide_True in Hlt by done. simpl in Hlt.
      rewrite decide_True by lia. rewrite decide_False by done.
      unfold last_destPath in IH. apply IH. unfold strays. lia.
Qed.

Lemma read_parts_too_many pre rest counter destPath :
  no_uploads pre → 100 ≤ counter + strays pre →
  ∃ destPath', read_parts (pre ++ rest) counter destPath
               = Some (None, destPath').
Proof.
  intros Hpre. revert counter destPath.
  induction Hpre as [|p pre Hp _ IH]; intros counter destPath Hge.
  - unfold strays in Hge. simpl in Hge.
    exists destPath. destruct rest; simpl; by rewrite decide_False by lia.
  - destruct (decide (counter < 100)) as [Hlt|Hnlt].
    2:{ exists destPath. simpl. by rewrite decide_False. }
    unfold strays in Hge. rewrite filter_cons in Hge. unfold stray in Hge at 1.
    cbn [app read_parts]. rewrite decide_True by done.
    destruct (decide (part_name p = Some "destPath")) as [Hd|Hd].
    + rewrite decide_False in Hge by (by intros ?). by apply IH.
    + rewrite decide_True in Hge by done. simpl in Hge.
      rewrite decide_False by done. apply IH. unfold strays. lia.
Qed.

Lemma read_parts_exhausted parts counter destPath :
  no_uploads parts → counter + strays parts < 100 →
  read_parts parts counter destPath = None.
Proof.
  intros Hparts. revert counter destPath.
  induction Hparts as [|p parts Hp _ IH]; intros counter destPath Hlt.
  - unfold strays in Hlt. simpl in *. by rewrite decide_True by lia.
  - unfold strays in Hlt. rewrite filter_cons in Hlt. unfold stray in Hlt at 1.
    cbn [read_parts].
    destruct (decide (part_name p = Some "destPath")) as [Hd|Hd].
    + rewrite decide_False in Hlt by (by intros ?).
      rewrite decide_True by lia. by apply IH.
    + rewrite decide_True in Hlt by done. simpl in Hlt.
      rewrite decide_True by lia. rewrite decide_False by done.
      apply IH. unfold strays. lia.
Qed.

Lemma length_append (a b : string) :
  String.length (a +:+ b) = String.length a + String.length b.
Proof. induction a; [done|]. rewrite PyStr.append_cons. simpl. lia. Qed.

Lemma written_size_length chunks :
  written_size chunks = String.length (written chunks).
Proof.
  induction chunks as [|chunk chunks IH]; simpl; [done|].
  destruct (PyStr.truthy chunk); [|done]. by rewrite length_append, IH.
Qed.

Lemma lstrip_length s : String.length (PyStr.lstrip s) ≤ String.length s.
Proof.
  induction s as [|c s IH]; simpl; [done|].
  destruct (PyStr.isspace c); simpl; lia.
Qed.

Lemma lstrip_fixed_first s c :
  PyStr.lstrip s = s → PyStr.first s = Some c → PyStr.isspace c = false.
Proof.
  destruct s as [|a s]; simpl; [done|]. intros Hfix [= ->].
  destruct (PyStr.isspace c) eqn:Hc; [|done].
  pose proof (lstrip_length s) as Hlen. rewrite Hfix in Hlen.
  simpl in Hlen. lia.
Qed.

(** X19. A file is written only under a name that does not start with
    whitespace or with a dot and has no comma, at the path made of a
    [destPath] that is not empty and that name, and the size counted is
    the number of bytes written. Such a name, when it is not empty and
    does not end in whitespace, is read back unchanged from the [files]
    parameter of [bulk_specification]. *)
Theorem upload_accepted_file_name
    (username : string) (has_body : bool) (parts : list Part) (w : Written) :
  upload_files_chunked username has_body parts = Some (Ok w) →
  ∃ user_file destPath filename,
    user_file ∈ parts ∧ part_name user_file = Some "uploads" ∧
    part_filename user_file = Some filename ∧ destPath ≠ "" ∧
    target w = validate_path username (os_path_join destPath filename) ∧
    PyStr.lstrip filename = filename ∧
    BulkSpecificationFacts.no_comma filename ∧
    PyStr.first filename ≠ Some "."%char ∧
    size w = String.length (content w) ∧
    (filename ≠ "" →
     (∀ c, PyStr.last filename = Some c → PyStr.isspace c = false) →
     BulkSpecification.normalize_files [filename] = [filename]).
Proof.
  unfold upload_files_chunked. destruct has_body; simpl; [|done].
  destruct (read_parts parts 0 None) as [[user_file destPath]|] eqn:Hread;
    simpl; [|done].
  destruct user_file as [user_file|]; [|done].
  destruct destPath as [[|c d]|]; try done.
  destruct (part_filename user_file) as [filename|] eqn:Hname; simpl; [|done].
  case_decide as Hstrip; [done|].
  destruct (PyStr.all _ filename) eqn:Hcomma; simpl; [|done].
  case_decide as Hdot; [done|].
  intros [= <-]. simpl.
  assert (user_file ∈ parts ∧ part_name user_file = Some "uploads")
    as [Hin Hup].
  { clear -Hread. revert Hread. generalize 0 (@None string).
    induction parts as [|p parts IH]; intros counter destPath; simpl.
    - by case_decide.
    - case_decide; [|done]. repeat case_decide.
      + intros [? ?]%IH. split; [by right|done].
      + intros [= <-]. split; [by left|done].
      + intros [? ?]%IH. split; [by right|done]. }
  exists user_file, (String c d), filename.
  assert (PyStr.lstrip filename = filename) as Hfix.
  { exact Hstrip. }
  split_and!; try done.
  - apply written_size_length.
  - intros Hne Hlast.
    apply (BulkSpecificationFacts.normalize_files_join [filename] []).
    constructor; [|constructor]. split_and!; [done| |done].
    split; [|done]. intros a. by apply lstrip_fixed_first.
Qed.

(** X20. The loop over the parts takes the first part named [uploads], if
    fewer than 100 parts other than [destPath] parts come before it, with
    the text of the last [destPath] part before it; the parts after it are
    not read. With 100 such parts before any [uploads] part the request is
    a bad request, and when the parts end before either happens the
    handler raises. *)
Theorem upload_parts (username : string) :
  (∀ pre u post,
     no_uploads pre → part_name u = Some "uploads" → strays pre < 100 →
     read_parts (pre ++ u :: post) 0 None
     = Some (Some u, last_destPath None pre)) ∧
  (∀ pre rest,
     no_uploads pre → 100 ≤ strays pre →
     upload_files_chunked username true (pre ++ rest)
     = Some (Raise HTTPBadRequest
               "must provide destPath and uploads in body")) ∧
  (∀ parts,
     no_uploads parts → strays parts < 100 →
     upload_files_chunked username true parts = None).
Proof.
  split_and!.
  - intros pre u post Hpre Hu Hlt. by apply read_parts_found.
  - intros pre rest Hpre Hge. unfold upload_files_chunked. simpl.
    destruct (read_parts_too_many pre rest 0 None Hpre) as [d ->]; [lia|].
    done.
  - intros parts Hparts Hlt. unfold upload_files_chunked. simpl.
    by rewrite read_parts_exhausted.
Qed.

End upload.

Definition example_parts : list Part :=
  [ {| part_name := Some "destPath"; part_text := "uploads";
       part_filename := None; part_chunks := [] |};
    {| part_name := None; part_text := ""; part_filename := None;
       part_chunks := [] |};
    {| part_name := Some "uploads"; part_text := "";
       part_filename := Some "genomes.csv";
       part_chunks := ["id,name"; "1,first"; ""; "ignored"] |} ].

Example upload_example :
  upload_files_chunked Decompress.example_staging_path "user" true
    example_parts
  = Some (Ok {| target := Decompress.example_staging_path "user"
                            "uploads/genomes.csv";
                content := "id,name1,first"; size := 14 |}).
Proof. vm_compute. reflexivity. Qed.

Example upload_comma_name :
  upload_files_chunked Decompress.example_staging_path "user" true
    [ {| part_name := Some "destPath"; part_text := "uploads";
         part_filename := None; part_chunks := [] |};
      {| part_name := Some "uploads"; part_text := "";
         part_filename := Some "a,b.csv"; part_chunks := ["x"] |} ]
  = Some (Raise HTTPForbidden "cannot upload file with ',' in name").
Proof. vm_compute. reflexivity. Qed.

Example upload_without_destPath :
  upload_files_chunked Decompress.example_staging_path "user" true
    [ {| part_name := Some "uploads"; part_text := "";
         part_filename := Some "a.csv"; part_chunks := ["x"] |} ]
  = Some (Raise HTTPBadRequest "must provide destPath and uploads in body").
Proof. vm_compute. reflexivity. Qed.

Lemma upload_accepted_file_name_witness :
  ∃ filename,
    PyStr.lstrip filename = filename ∧
    BulkSpecificationFacts.no_comma filename ∧
    PyStr.first filename ≠ Some "."%char.
Proof.
  destruct (upload_accepted_file_name Decompress.example_staging_path
              "user" true example_parts
              {| target := Decompress.example_staging_path "user"
                             "uploads/genomes.csv";
                 content := "id,name1,first"; size := 14 |})
    as (user_file & destPath & filename & _ & _ & _ & _ & _ & H1 & H2 & H3 & _).
  - vm_compute. reflexivity.
  - exists filename. split; [exact H1|]. split; [exact H2|exact H3].
Defined.

End Upload.

(** ** [app.py]: [define_UPA], [delete] and [rename] *)
Module Staging.
Import FileHandlers.

Section staging.
Variable validate_path : string → string → StagingPath.

(** [is_globusid(path, username)] of [globus.py]. *)
Variable is_globusid : StagingPath → string → bool.

(** The file system, what the handlers ask of it and what they do to
    it. [os_path_exists_fd] is [os.path.exists] of a boolean, which is
    taken for a file descriptor. *)
Variable FS : Type.
Variable os_path_exists : FS → string → bool.
Variable os_path_exists_fd : FS → bool → bool.
Variable os_path_isfile : FS → string → bool.
Variable os_path_isdir : FS → string → bool.
Variable os_remove : string → FS → FS.
Variable shutil_rmtree : string → FS → FS.
Variable shutil_move : string → string → FS → FS.

(** [define_UPA]: the call of [add_upa] made and the text of the
    response. [body] is the posted form. The test of the path is
    [os.path.exists(path.full_path or not os.path.isfile(path.full_path))]. *)
Definition define_UPA (fs : FS) (username request_path : string)
    (has_body : bool) (body : gmap string string)
  : Result (StagingPath * string * string) :=
  let path := validate_path username request_path in
  let tested :=
    if PyStr.truthy (full_path path)
    then os_path_exists fs (full_path path)
    else os_path_exists_fd fs (negb (os_path_isfile fs (full_path path))) in
  if negb tested then
    Raise HTTPNotFound ("no file found found on path " +:+ user_path path)
  else if negb has_body then
    Raise HTTPBadRequest "must provide UPA field in body"
  else
    match body !! "UPA" with
    | None => Raise HTTPBadRequest "must provide UPA field in body"
    | Some UPA =>
        Ok (path, UPA,
            "succesfully updated UPA " +:+ UPA +:+ " for file "
              +:+ user_path path)
    end.

(** [delete]: the response, and the file system afterwards. *)
Definition delete (fs : FS) (username request_path : string)
  : Result string * FS :=
  let path := validate_path username request_path in
  if decide (user_path path = username) then
    (Raise HTTPForbidden "cannot delete home directory", fs)
  else if is_globusid path username then
    (Raise HTTPForbidden "cannot delete protected file", fs)
  else if os_path_isfile fs (full_path path) then
    let fs := os_remove (full_path path) fs in
    let fs := if os_path_exists fs (metadata_path path)
              then os_remove (metadata_path path) fs else fs in
    (Ok ("successfully deleted " +:+ user_path path), fs)
  else if os_path_isdir fs (full_path path) then
    let fs := shutil_rmtree (full_path path) fs in
    let fs := if os_path_exists fs (metadata_path path)
              then shutil_rmtree (metadata_path path) fs else fs in
    (Ok ("successfully deleted " +:+ user_path path), fs)
  else
    (Raise HTTPNotFound ("could not delete " +:+ user_path path), fs).


(** X21. [define_UPA] never tests whether the path is a file: for a path
    whose full path is not empty, it raises not found exactly when the
    path does not exist, so the UPA of an existing directory is set like
    that of a file. *)
Theorem define_UPA_accepts_directories
    (fs : FS) (username request_path UPA : string)
    (body : gmap string string) :
  let path := validate_path username request_path in
  full_path path ≠ "" →
  ((∃ text, define_UPA fs username request_path true body
            = Raise HTTPNotFound text) ↔
   os_path_exists fs (full_path path) = false) ∧
  (os_path_exists fs (full_path path) = true → body !! "UPA" = Some UPA →
   ∃ text, define_UPA fs username request_path true body
           = Ok (path, UPA, text)).
Proof.
  intros path Hfull. unfold define_UPA. fold path.
  assert (PyStr.truthy (full_path path) = true) as ->
    by by destruct (full_path path).
  destruct (os_path_exists fs (full_path path)); simpl.
  - split.
    + split; [|done]. intros [text Htext].
      by destruct (body !! "UPA").
    + intros _ ->. by eexists.
  - split; [|done]. split; [done|]. intros _. by eexists.
Qed.



End staging.

(** A file system given by the directories that exist. *)
Definition example_exists (fs : list string) (p : string) : bool :=
  bool_decide (p ∈ fs).

Lemma define_UPA_accepts_directories_witness :
  ∃ text,
    define_UPA Decompress.example_staging_path (list string) example_exists
      (λ _ _, true) (λ _ _, false)
      ["/data/bulk/user/genomes"] "user" "genomes" true
      {[ "UPA" := "1/2/3" ]}
    = Ok (Decompress.example_staging_path "user" "genomes", "1/2/3", text).
Proof.
  refine (proj2 (define_UPA_accepts_directories
                   Decompress.example_staging_path (list string)
                   example_exists (λ _ _, true) (λ _ _, false)
                   ["/data/bulk/user/genomes"] "user" "genomes" "1/2/3"
                   {[ "UPA" := "1/2/3" ]} _) _ _).
  - discriminate.
  - reflexivity.
  - reflexivity.
Defined.

End Staging.
